(** * Attendance routes: session creation and geofenced attendance marking

    A shallow embedding of the backend of the Smart Attendance System:
    [routes/attendanceRoutes.js] (the handlers of [POST /session] and
    [POST /mark]) and [services/locationService.js] ([calculateDistance],
    [verifyLocation]).

    Modelling conventions.
    - A JavaScript number is a [number]: [NaN], the two infinities, or a
      finite value.  Finite values are rationals, which contain every finite
      double; the handlers only compare numbers and test their truthiness,
      so no rounding is involved on that side.
    - A field of a JSON body that may be missing is an [option]; [None] is
      JavaScript's [undefined].  Present fields have the type the clients
      send: strings for identifiers and dates, numbers for coordinates.
    - [calculateDistance] is double-precision arithmetic over [Math.sin],
      [Math.cos], [Math.atan2], [Math.sqrt] and [Math.round].
      [Haversine.calculateDistance] is the function on doubles, the
      primitive floats, with the host's [Math.sin], [Math.cos], [Math.atan2]
      and [Math.round] as parameters; what a property needs of them is a
      hypothesis of it.  The handlers only compare the distance, so they
      take the distance function, on [number]s, as a parameter, as they do
      the host's date parser: every property of the handlers holds for
      every choice of the two.
    - The Firestore collections are a finite map (the documents of
      [sessions], keyed by their path below the collection) and a list (the
      documents of [attendance], which get generated ids, in the order they
      were added).  [utils/firebase.js] takes [admin.firestore()] with its
      default settings, so the store fails in two ways, and the [catch]
      block of the handler then answers 500 with nothing written:
      [collection.doc(id)] throws when [id] does not name a document, and
      [set] and [add] throw when a field of the document is [undefined].
      The path that an id names is a parameter, [docPath].  Any other read
      or write succeeds.
    - An [async] handler runs atomically between two [await]s; each awaited
      store operation is one step of [mark_resume], and [mark] is the
      handler run alone.  The readings of the clock are inputs of an
      attempt.
    - The response the specification calls Admitted is [Marked] here, after
      the handler's message 'Attendance marked successfully'. *)

From Stdlib Require Import Floats ZArith QArith String List Lia.
From stdpp Require Import gmap strings list sorting.

Local Open Scope Z_scope.

(** ** JavaScript values *)

Inductive number : Type :=
| NaN
| PosInf
| NegInf
| Fin (q : Q).

(** [x <= y] on numbers: false as soon as one side is [NaN]. *)
Definition number_leb (x y : number) : bool :=
  match x, y with
  | NaN, _ | _, NaN => false
  | NegInf, _ => true
  | _, PosInf => true
  | Fin a, Fin b => Qle_bool a b
  | _, _ => false
  end.

(** [x == y] on numbers. *)
Definition number_eqb (x y : number) : bool :=
  match x, y with
  | PosInf, PosInf | NegInf, NegInf => true
  | Fin a, Fin b => Qeq_bool a b
  | _, _ => false
  end.

(** ToBoolean on a number: [0] and [NaN] are falsy. *)
Definition truthy (x : number) : bool :=
  match x with
  | NaN => false
  | Fin q => negb (Qeq_bool q 0)
  | _ => true
  end.

(** ToBoolean on a possibly missing string: [undefined] and the empty
    string are falsy. *)
Definition truthy_str (v : option string) : bool :=
  match v with
  | Some EmptyString | None => false
  | Some _ => true
  end.

(** [v || d] where [v] is a possibly missing number. *)
Definition or_default (v : option number) (d : number) : number :=
  match v with
  | Some n => if truthy n then n else d
  | None => d
  end.

(** ToNumber on a possibly missing number: [undefined] becomes [NaN]. *)
Definition toNumber (v : option number) : number :=
  match v with
  | Some n => n
  | None => NaN
  end.

(** [a > b] on two [Date]s compares their time values; the time value of an
    invalid date is [NaN] (here [None]) and every comparison with it is
    false. *)
Definition Date_gt (a b : option Z) : bool :=
  match a, b with
  | Some x, Some y => y <? x
  | _, _ => false
  end.

(** ** Documents and request bodies *)

Record Location : Type := mkLocation {
  latitude : option number;
  longitude : option number;
  radiusMeters : option number
}.

(** Body of [POST /session]. *)
Module SessionBody.
Record t : Type := mk {
  sessionId : option string;
  courseName : option string;
  teacherId : option string;
  teacherEmail : option string;
  location : option Location;
  expiresAt : option string
}.
End SessionBody.

(** A document of the [sessions] collection. *)
Module SessionDoc.
Record t : Type := mk {
  sessionId : option string;
  courseName : option string;
  teacherId : option string;
  teacherEmail : option string;
  location : option Location;
  expiresAt : option string;
  createdAt : Z;
  active : bool
}.
End SessionDoc.

(** Body of [POST /mark]. *)
Module MarkBody.
Record t : Type := mk {
  sessionId : option string;
  studentId : option string;
  studentEmail : option string;
  location : option Location
}.
End MarkBody.

(** A document of the [attendance] collection. *)
Module AttendanceDoc.
Record t : Type := mk {
  sessionId : string;
  studentId : string;
  studentEmail : option string;
  courseName : option string;
  markedAt : Z;
  distance : number;
  latitude : option number;
  longitude : option number
}.
End AttendanceDoc.

(** The two collections of the store. *)
Record Db : Type := mkDb {
  sessions : gmap string SessionDoc.t;
  attendance : list AttendanceDoc.t
}.

(** Result of [verifyLocation]. *)
Record LocationCheck : Type := mkLocationCheck {
  valid : bool;
  distance : number;
  maxDistance : number
}.

(** ** Responses *)

(** Responses of [POST /session]. *)
Inductive SessionResponse : Type :=
| SessionMissingFields                 (* 400, 'Missing required fields' *)
| SessionCreated (sessionId : string)  (* 200, 'Session created successfully' *)
| SessionServerError.                  (* 500, from the [catch] block *)

(** Responses of [POST /mark]. *)
Inductive MarkResponse : Type :=
| MissingFields                                (* 400, 'Missing required fields' *)
| InvalidSession                               (* 404, 'Invalid QR code - session not found' *)
| Expired                                      (* 400, 'Session has expired' *)
| OutOfRange (distance maxDistance : number)   (* 400, 'You are ..m away. Must be within ..m' *)
| AlreadyMarked                                (* 400, 'You have already marked attendance ..' *)
| Marked (courseName : option string) (distance : number)
                                               (* 200, 'Attendance marked successfully' *)
| ServerError.                                 (* 500, from the [catch] block *)

(** One scan: the body of the request and the two readings of the clock the
    handler makes, at step 2 ([now]) and at step 5 ([markedAt]). *)
Record Attempt : Type := mkAttempt {
  body : MarkBody.t;
  now : Z;
  markedAt : Z
}.

(** A [POST /mark] in flight: the [await] at which the handler is suspended,
    with the local variables that are live there; [sessionRef] is the path
    of the document that [sessions.doc(sessionId)] refers to. *)
Inductive MarkTask : Type :=
| AwaitSession (a : Attempt) (sessionRef : string) (sessionId studentId : string)
    (location : Location)
| AwaitExisting (a : Attempt) (sessionId studentId : string) (location : Location)
    (session : SessionDoc.t) (locationCheck : LocationCheck)
| AwaitAdd (attendanceData : AttendanceDoc.t) (session : SessionDoc.t)
    (locationCheck : LocationCheck)
| Responded (r : MarkResponse).

(** ** services/locationService.js: the distance *)

(** [calculateDistance] on doubles.  The arithmetic and [Math.sqrt] are
    IEEE-754 operations, which the primitive floats have.  [Math.sin],
    [Math.cos], [Math.atan2] and [Math.round] are the host's; ECMAScript
    fixes their values at a few arguments and leaves the others to the
    implementation, so they are parameters.  The copy of the function in
    [utils/haversine.js] is the same code. *)
Module Haversine.

Section Host.

Variables (sin cos : float -> float) (atan2 : float -> float -> float).
Variable round : float -> float.

(** [Math.PI]. *)
Definition PI : float := 0x1.921fb54442d18p+1%float.

(** The constant [a] of the function. *)
Definition a (lat1 lon1 lat2 lon2 : float) : float :=
  (let φ1 := (lat1 * PI) / 180 in
   let φ2 := (lat2 * PI) / 180 in
   let Δφ := ((lat2 - lat1) * PI) / 180 in
   let Δλ := ((lon2 - lon1) * PI) / 180 in
   sin (Δφ / 2) * sin (Δφ / 2) +
   cos φ1 * cos φ2 * sin (Δλ / 2) * sin (Δλ / 2))%float.

Definition calculateDistance (lat1 lon1 lat2 lon2 : float) : float :=
  (let R := 6371000 in
   let a := a lat1 lon1 lat2 lon2 in
   let c := 2 * atan2 (sqrt a) (sqrt (1 - a)) in
   let distance := R * c in
   round distance)%float.

End Host.

End Haversine.

Section Routes.

(** [calculateDistance lat1 lon1 lat2 lon2] of the location service, as the
    handlers see it: a function on numbers.  The handlers only compare its
    result, so their properties are stated for every such function. *)
Variable calculateDistance : number -> number -> number -> number -> number.

(** The time value of [new Date(s)] for a string [s]; [None] when [s] is not
    a date. *)
Variable Date_parse : string -> option Z.

(** The document that [collection.doc(id)] refers to, as its path below the
    collection: [id] itself for a plain id.  [None] when [id] names no
    document, so that [doc(id)] throws (an id with an even number of
    segments such as [a/b], an id with [//]) or the store refuses the
    name.  Two ids may name one document. *)
Variable docPath : string -> option string.

(** *** services/locationService.js *)

Definition verifyLocation (studentLat studentLon classLat classLon maxDistance : number)
  : LocationCheck :=
  let distance := calculateDistance studentLat studentLon classLat classLon in
  {| valid := number_leb distance maxDistance;
     distance := distance;
     maxDistance := maxDistance |}.

(** *** POST /session *)

(** The document written by [sessions.doc(sessionId).set({...})]. *)
Definition sessionDoc (clock : Z) (body : SessionBody.t) : SessionDoc.t :=
  {| SessionDoc.sessionId := SessionBody.sessionId body;
     SessionDoc.courseName := SessionBody.courseName body;
     SessionDoc.teacherId := SessionBody.teacherId body;
     SessionDoc.teacherEmail := SessionBody.teacherEmail body;
     SessionDoc.location := SessionBody.location body;
     SessionDoc.expiresAt := SessionBody.expiresAt body;
     SessionDoc.createdAt := clock;
     SessionDoc.active := true |}.

(** [set] accepts the document: none of its fields is [undefined].  The
    fields of [location] come from a JSON body, which has no [undefined]. *)
Definition session_defined (d : SessionDoc.t) : bool :=
  match SessionDoc.sessionId d, SessionDoc.courseName d, SessionDoc.teacherId d,
        SessionDoc.teacherEmail d, SessionDoc.location d, SessionDoc.expiresAt d with
  | Some _, Some _, Some _, Some _, Some _, Some _ => true
  | _, _, _, _, _, _ => false
  end.

(** The handler; [clock] is the reading of the clock stored as [createdAt].
    [doc(sessionId)] throws when the id names no document and [set] throws
    when [teacherEmail] or [expiresAt] is missing; the [catch] block answers
    both with 500.  [doc(undefined)] throws as well; the required-field test
    makes that branch dead. *)
Definition createSession (clock : Z) (body : SessionBody.t) (db : Db)
  : Db * SessionResponse :=
  if negb (truthy_str (SessionBody.sessionId body))
     || negb (truthy_str (SessionBody.courseName body))
     || negb (truthy_str (SessionBody.teacherId body))
     || negb (bool_decide (is_Some (SessionBody.location body)))
  then (db, SessionMissingFields)
  else
    match SessionBody.sessionId body with
    | Some sessionId =>
        match docPath sessionId with
        | Some sessionRef =>
            if session_defined (sessionDoc clock body) then
              (mkDb (<[sessionRef := sessionDoc clock body]> (sessions db)) (attendance db),
               SessionCreated sessionId)
            else (db, SessionServerError)
        | None => (db, SessionServerError)
        end
    | None => (db, SessionServerError)
    end.

(** *** POST /mark *)

(** [new Date(session.expiresAt)]: an invalid date when the field is
    missing. *)
Definition new_Date (v : option string) : option Z :=
  match v with
  | Some s => Date_parse s
  | None => None
  end.

(** [session.location.radiusMeters || 50]. *)
Definition allowedRadius (sloc : Location) : number :=
  or_default (radiusMeters sloc) (Fin 50).

(** The synchronous prefix of the handler: the required-field test and
    [sessions.doc(sessionId)], which throws when the id names no document.
    Past the test the three fields are present, so the last branch is
    dead. *)
Definition mark_start (a : Attempt) : MarkTask :=
  let b := body a in
  if negb (truthy_str (MarkBody.sessionId b))
     || negb (truthy_str (MarkBody.studentId b))
     || negb (bool_decide (is_Some (MarkBody.location b)))
  then Responded MissingFields
  else
    match MarkBody.sessionId b, MarkBody.studentId b, MarkBody.location b with
    | Some sessionId, Some studentId, Some location =>
        match docPath sessionId with
        | Some sessionRef => AwaitSession a sessionRef sessionId studentId location
        | None => Responded ServerError
        end
    | _, _, _ => Responded ServerError
    end.

(** Steps 1 to 3, run when [sessions.doc(sessionId).get()] resolves:
    existence, expiry, geofence.  Reading [session.location.radiusMeters]
    throws when the document has no [location]; the rejection message of
    step 3 formats the four coordinates with [toFixed], which throws on
    [undefined]. *)
Definition mark_session (a : Attempt) (sessionId studentId : string) (location : Location)
    (sessionDoc : option SessionDoc.t) : MarkTask :=
  match sessionDoc with
  | None => Responded InvalidSession
  | Some session =>
      let expiryDate := new_Date (SessionDoc.expiresAt session) in
      if Date_gt (Some (now a)) expiryDate then Responded Expired
      else
        match SessionDoc.location session with
        | None => Responded ServerError
        | Some sloc =>
            let locationCheck :=
              verifyLocation (toNumber (latitude location)) (toNumber (longitude location))
                (toNumber (latitude sloc)) (toNumber (longitude sloc))
                (allowedRadius sloc) in
            if negb (valid locationCheck) then
              match latitude location, longitude location, latitude sloc, longitude sloc with
              | Some _, Some _, Some _, Some _ =>
                  Responded (OutOfRange (distance locationCheck) (maxDistance locationCheck))
              | _, _, _, _ => Responded ServerError
              end
            else AwaitExisting a sessionId studentId location session locationCheck
        end
  end.

(** The filter of the duplicate query,
    [where('sessionId','==',sessionId).where('studentId','==',studentId)]. *)
Definition same_mark (sessionId studentId : string) (r : AttendanceDoc.t) : bool :=
  String.eqb (AttendanceDoc.sessionId r) sessionId
  && String.eqb (AttendanceDoc.studentId r) studentId.

Definition existingAttendance (sessionId studentId : string) (l : list AttendanceDoc.t)
  : list AttendanceDoc.t :=
  List.filter (same_mark sessionId studentId) l.

(** The document [attendanceData] of step 5. *)
Definition attendanceData (a : Attempt) (sessionId studentId : string) (location : Location)
    (session : SessionDoc.t) (locationCheck : LocationCheck) : AttendanceDoc.t :=
  {| AttendanceDoc.sessionId := sessionId;
     AttendanceDoc.studentId := studentId;
     AttendanceDoc.studentEmail := MarkBody.studentEmail (body a);
     AttendanceDoc.courseName := SessionDoc.courseName session;
     AttendanceDoc.markedAt := markedAt a;
     AttendanceDoc.distance := distance locationCheck;
     AttendanceDoc.latitude := latitude location;
     AttendanceDoc.longitude := longitude location |}.

(** [add] accepts the document: none of its fields is [undefined]. *)
Definition attendance_defined (d : AttendanceDoc.t) : bool :=
  match AttendanceDoc.studentEmail d, AttendanceDoc.courseName d,
        AttendanceDoc.latitude d, AttendanceDoc.longitude d with
  | Some _, Some _, Some _, Some _ => true
  | _, _, _, _ => false
  end.

(** Step 4, run when the duplicate query resolves with [existing], and the
    call of [attendance.add(attendanceData)], which throws before it writes
    when a field of [attendanceData] is [undefined]. *)
Definition mark_existing (a : Attempt) (sessionId studentId : string) (location : Location)
    (session : SessionDoc.t) (locationCheck : LocationCheck)
    (existing : list AttendanceDoc.t) : MarkTask :=
  match existing with
  | _ :: _ => Responded AlreadyMarked
  | [] =>
      let attendanceData :=
        attendanceData a sessionId studentId location session locationCheck in
      if attendance_defined attendanceData
      then AwaitAdd attendanceData session locationCheck
      else Responded ServerError
  end.

(** One awaited store operation of a suspended handler, then the handler's
    code up to its next [await] or to its response.  The document of an
    [AwaitAdd] is one that [add] has accepted ([mark_existing]), so the
    write goes through. *)
Definition mark_resume (db : Db) (t : MarkTask) : Db * MarkTask :=
  match t with
  | AwaitSession a sessionRef sessionId studentId location =>
      (db, mark_session a sessionId studentId location (sessions db !! sessionRef))
  | AwaitExisting a sessionId studentId location session locationCheck =>
      (db, mark_existing a sessionId studentId location session locationCheck
             (existingAttendance sessionId studentId (attendance db)))
  | AwaitAdd attendanceData session locationCheck =>
      (mkDb (sessions db) (attendance db ++ [attendanceData]),
       Responded (Marked (SessionDoc.courseName session) (distance locationCheck)))
  | Responded r => (db, Responded r)
  end.

(** The response of a finished handler.  A handler awaits three store
    operations at most ([mark_responds]), so the second branch is not
    reached from [mark]. *)
Definition response_of (t : MarkTask) : MarkResponse :=
  match t with
  | Responded r => r
  | _ => ServerError
  end.

(** The handler run alone, from request to response. *)
Definition mark (db : Db) (a : Attempt) : Db * MarkResponse :=
  let '(db1, t1) := mark_resume db (mark_start a) in
  let '(db2, t2) := mark_resume db1 t1 in
  let '(db3, t3) := mark_resume db2 t2 in
  (db3, response_of t3).

(** Attempts handled one after another. *)
Fixpoint mark_all (db : Db) (l : list Attempt) : Db * list MarkResponse :=
  match l with
  | [] => (db, [])
  | a :: l' =>
      let '(db1, r) := mark db a in
      let '(db2, rs) := mark_all db1 l' in
      (db2, r :: rs)
  end.

(** Handlers in flight together: the event loop resumes one of them at a
    time, in the order the store completes their operations. *)
Definition resume_nth (st : Db * list MarkTask) (i : nat) : Db * list MarkTask :=
  match st.2 !! i with
  | Some t =>
      let '(db', t') := mark_resume st.1 t in
      (db', <[i := t']> st.2)
  | None => st
  end.

Definition run_schedule (db : Db) (l : list Attempt) (schedule : list nat)
  : Db * list MarkTask :=
  fold_left resume_nth schedule (db, map mark_start l).

End Routes.

(** ** Vocabulary of the properties *)

(** At most one attendance document for each (session, student) pair. *)
Definition unique_marks (l : list AttendanceDoc.t) : Prop :=
  forall sessionId studentId,
    (length (existingAttendance sessionId studentId l) <= 1)%nat.

(** A request that carries the three required fields. *)
Definition wellFormed (a : Attempt) (sessionId studentId : string) (location : Location)
  : Prop :=
  MarkBody.sessionId (body a) = Some sessionId /\ sessionId <> EmptyString
  /\ MarkBody.studentId (body a) = Some studentId /\ studentId <> EmptyString
  /\ MarkBody.location (body a) = Some location.

(** The session document that the id names is [session]. *)
Definition stored (docPath : string -> option string) (db : Db) (sessionId : string)
    (session : SessionDoc.t) : Prop :=
  exists sessionRef, docPath sessionId = Some sessionRef
                     /\ sessions db !! sessionRef = Some session.

(** An attempt that gets to step 3 with numbers for the four coordinates:
    its session is stored and has not expired. *)
Definition reachesGeofence (Date_parse : string -> option Z)
    (docPath : string -> option string) (db : Db) (a : Attempt)
    (sessionId studentId : string) (location : Location)
    (session : SessionDoc.t) (sloc : Location) (lat lon slat slon : number) : Prop :=
  wellFormed a sessionId studentId location
  /\ stored docPath db sessionId session
  /\ Date_gt (Some (now a)) (new_Date Date_parse (SessionDoc.expiresAt session)) = false
  /\ SessionDoc.location session = Some sloc
  /\ latitude location = Some lat /\ longitude location = Some lon
  /\ latitude sloc = Some slat /\ longitude sloc = Some slon.

(** The response of steps 3 to 5 to a request with numbers for its two
    coordinates, for a distance [d] and a radius [r], when the duplicate
    query finds [existing]: the write of step 5 fails when the request has
    no [studentEmail] or the session no [courseName]. *)
Definition geofence_response (studentEmail courseName : option string)
    (existing : list AttendanceDoc.t) (d r : number) : MarkResponse :=
  if number_leb d r then
    match existing with
    | [] =>
        match studentEmail, courseName with
        | Some _, Some _ => Marked courseName d
        | _, _ => ServerError
        end
    | _ :: _ => AlreadyMarked
    end
  else OutOfRange d r.

(** The same session with another [active] flag. *)
Definition with_active (b : bool) (s : SessionDoc.t) : SessionDoc.t :=
  {| SessionDoc.sessionId := SessionDoc.sessionId s;
     SessionDoc.courseName := SessionDoc.courseName s;
     SessionDoc.teacherId := SessionDoc.teacherId s;
     SessionDoc.teacherEmail := SessionDoc.teacherEmail s;
     SessionDoc.location := SessionDoc.location s;
     SessionDoc.expiresAt := SessionDoc.expiresAt s;
     SessionDoc.createdAt := SessionDoc.createdAt s;
     SessionDoc.active := b |}.

(** What a handler that ran alone has done to the store: nothing, or, when
    it answers with success, one document added for a pair that had none. *)
Inductive mark_effect (db : Db) (a : Attempt) : Db * MarkResponse -> Prop :=
| effect_rejected r :
    (forall cn d, r <> Marked cn d) ->
    mark_effect db a (db, r)
| effect_marked rec cn d :
    MarkBody.sessionId (body a) = Some (AttendanceDoc.sessionId rec) ->
    MarkBody.studentId (body a) = Some (AttendanceDoc.studentId rec) ->
    existingAttendance (AttendanceDoc.sessionId rec) (AttendanceDoc.studentId rec)
      (attendance db) = [] ->
    mark_effect db a (mkDb (sessions db) (attendance db ++ [rec]), Marked cn d).

(** ** Data for the examples *)

(** A distance function for the examples, with the two values of the guide's
    worked example: 0 m between coinciding points, 19490 m otherwise. *)
Definition guideDistance (lat1 lon1 lat2 lon2 : number) : number :=
  if number_eqb lat1 lat2 && number_eqb lon1 lon2 then Fin 0 else Fin 19490.

(** A [docPath] for the examples: it knows the plain ids, those without a
    slash, which name themselves. *)
Definition guideDocPath (id : string) : option string :=
  match id, String.index 0 "/" id with
  | String _ _, None => Some id
  | _, _ => None
  end.

(** Host functions for the examples.  [guideSin] and [guideCos] know the
    arguments that come up between latitude 8 and latitude -8 on opposite
    meridians, with the values that V8 and glibc return there, which are
    the correctly rounded ones; [guideAtan2] and [guideRound] know the
    cases that ECMAScript fixes: [NaN] for an argument [NaN], [+0] for
    [atan2(+0, 1)], and an integer for an integer. *)
Definition guideSin (x : float) : float :=
  if Leibniz.eqb x 0x1.1df46a2529d39p-3 then 0x1.1d06c968d9e19p-3
  else if Leibniz.eqb x (-0x1.1df46a2529d39p-3) then (-0x1.1d06c968d9e19p-3)
  else if Leibniz.eqb x 0x1.921fb54442d18p+0 then 1
  else if Leibniz.eqb x (-0x1.921fb54442d18p+0) then (-1)
  else x.

Definition guideCos (x : float) : float :=
  if Leibniz.eqb x 0x1.1df46a2529d39p-3 || Leibniz.eqb x (-0x1.1df46a2529d39p-3)
  then 0x1.fb046a930947ap-1
  else 1.

Definition guideAtan2 (y x : float) : float :=
  if is_nan x || is_nan y then nan else (y / x)%float.

Definition guideRound (x : float) : float := x.

(** A spot in the corridor, 25 m from the classroom. *)
Definition corridor : Location :=
  mkLocation (Some (Fin 18.5169)) (Some (Fin 73.8564)) None.

(** [guideDistance] with the corridor: 25 m from there. *)
Definition campusDistance (lat1 lon1 lat2 lon2 : number) : number :=
  if number_eqb lat1 (Fin 18.5169) && number_eqb lon1 (Fin 73.8564) then Fin 25
  else guideDistance lat1 lon1 lat2 lon2.

(** A date parser for the examples: it knows one instant. *)
Definition guideDate (s : string) : option Z :=
  if String.eqb s "2026-01-01T00:15:00.000Z" then Some 1767226500000 else None.

Definition classroom : Location :=
  mkLocation (Some (Fin 18.516726)) (Some (Fin 73.856255)) (Some (Fin 50)).

Definition farAway : Location :=
  mkLocation (Some (Fin 18.62)) (Some (Fin 74.0)) None.

(** Latitude 200 and longitude 500 are outside the ranges of a coordinate. *)
Definition offTheGlobe : Location :=
  mkLocation (Some (Fin 200)) (Some (Fin 500)) None.

Definition mathsSession : SessionDoc.t :=
  SessionDoc.mk (Some "SESSION_1"%string) (Some "Maths"%string) (Some "T1"%string)
    (Some "t1@example.org"%string) (Some classroom)
    (Some "2026-01-01T00:15:00.000Z"%string) 1767225600000 true.

(** The same class with the radius given by [r]. *)
Definition mathsSessionWithRadius (r : option number) : SessionDoc.t :=
  SessionDoc.mk (Some "SESSION_1"%string) (Some "Maths"%string) (Some "T1"%string)
    (Some "t1@example.org"%string)
    (Some (mkLocation (Some (Fin 18.516726)) (Some (Fin 73.856255)) r))
    (Some "2026-01-01T00:15:00.000Z"%string) 1767225600000 true.

Definition oneSession (s : SessionDoc.t) : Db := mkDb {[ "SESSION_1"%string := s ]} [].

Definition classDb : Db := oneSession mathsSession.

Definition scan (studentId : string) (location : Location) (now : Z) : Attempt :=
  mkAttempt
    (MarkBody.mk (Some "SESSION_1"%string) (Some studentId)
       (Some "student@example.org"%string) (Some location))
    now (now + 1).

(** A second [POST /session] for the id of [mathsSession]. *)
Definition physicsBody : SessionBody.t :=
  SessionBody.mk (Some "SESSION_1"%string) (Some "Physics"%string) (Some "T2"%string)
    (Some "t2@example.org"%string) (Some farAway) (Some "2026-01-01T00:15:00.000Z"%string).

(** A [POST /session] whose [expiresAt] is no date. *)
Definition foreverBody : SessionBody.t :=
  SessionBody.mk (Some "SESSION_2"%string) (Some "Physics"%string) (Some "T1"%string)
    (Some "t1@example.org"%string) (Some classroom) (Some "never"%string).

(** A [POST /session] without [expiresAt]. *)
Definition openEndedBody : SessionBody.t :=
  SessionBody.mk (Some "SESSION_2"%string) (Some "Physics"%string) (Some "T1"%string)
    (Some "t1@example.org"%string) (Some classroom) None.

(** ** The other routes and their clients *)

(** *** GET /session/:sessionId *)

Inductive SessionDetails : Type :=
| SessionNotFound                        (* 404, 'Session not found' *)
| SessionFound (session : SessionDoc.t)  (* 200, the stored document *)
| SessionDetailsError.                   (* 500, from the [catch] block *)

Definition getSession (docPath : string -> option string) (sessionId : string) (db : Db)
  : SessionDetails :=
  match docPath sessionId with
  | None => SessionDetailsError
  | Some sessionRef =>
      match sessions db !! sessionRef with
      | None => SessionNotFound
      | Some session => SessionFound session
      end
  end.

(** *** GET /records/:sessionId *)

(** The filter of the report query, [where('sessionId','==',sessionId)]. *)
Definition sessionRecords (sessionId : string) (l : list AttendanceDoc.t)
  : list AttendanceDoc.t :=
  List.filter (fun r => String.eqb (AttendanceDoc.sessionId r) sessionId) l.

(** [orderBy('markedAt','desc')].  The store orders the ISO strings of
    [markedAt]; for the four-digit years [toISOString] writes without a sign
    that is the order of the time values.  Documents with the same
    [markedAt] come in the order the sort leaves them; no property below
    depends on it. *)
Definition newer_first (x y : AttendanceDoc.t) : Prop :=
  AttendanceDoc.markedAt y <= AttendanceDoc.markedAt x.

Definition newer_first_dec (x y : AttendanceDoc.t) : Decision (newer_first x y) :=
  Z_le_dec (AttendanceDoc.markedAt y) (AttendanceDoc.markedAt x).

Definition orderBy_markedAt_desc (l : list AttendanceDoc.t) : list AttendanceDoc.t :=
  @merge_sort _ newer_first newer_first_dec l.

Inductive RecordsResponse : Type :=
| RecordsOk (count : nat) (records : list AttendanceDoc.t)  (* 200 *)
| RecordsServerError.                                       (* 500, from the [catch] block *)

Section Reports.

(** [parseInt(s)] for a string [s]; [None] is [NaN]. *)
Variable parseInt : string -> option Z.

(** [parseInt(req.query.limit) || 100]; [parseInt(undefined)] is [NaN]. *)
Definition recordsLimit (limit : option string) : Z :=
  match limit with
  | Some s =>
      match parseInt s with
      | Some n => if n =? 0 then 100 else n
      | None => 100
      end
  | None => 100
  end.

(** The handler.  The store refuses a negative limit, which the [catch]
    block answers with 500.  The [id] that the handler copies from the
    store into each record is left out, as generated ids are. *)
Definition getRecords (sessionId : string) (limit : option string) (db : Db)
  : RecordsResponse :=
  let limit := recordsLimit limit in
  if limit <? 0 then RecordsServerError
  else
    let records :=
      take (Z.to_nat limit)
        (orderBy_markedAt_desc (sessionRecords sessionId (attendance db))) in
    RecordsOk (length records) records.

End Reports.

(** *** Requests of both kinds *)

(** A request that writes to the store: [POST /session] with the reading of
    the clock, or [POST /mark]. *)
Inductive Request : Type :=
| PostSession (clock : Z) (body : SessionBody.t)
| PostMark (a : Attempt).

Section Server.

Variable calculateDistance : number -> number -> number -> number -> number.
Variable Date_parse : string -> option Z.
Variable docPath : string -> option string.

(** The store after one request, handled alone. *)
Definition serve (db : Db) (req : Request) : Db :=
  match req with
  | PostSession clock body => fst (createSession docPath clock body db)
  | PostMark a => fst (mark calculateDistance Date_parse docPath db a)
  end.

(** The store after a sequence of requests, handled one after another. *)
Definition serve_all (db : Db) (reqs : list Request) : Db :=
  fold_left serve reqs db.

(** The task of attempt [a] after [k] resumptions, when every store
    operation it awaits is answered from [db]. *)
Definition solo_task (db : Db) (a : Attempt) (k : nat) : MarkTask :=
  Nat.iter k (fun t => snd (mark_resume calculateDistance Date_parse db t))
    (mark_start docPath a).

End Server.

(** *** routes/authRoutes.js *)

(** Body of [POST /register]. *)
Module RegisterBody.
Record t : Type := mk {
  uid : option string;
  email : option string;
  name : option string;
  role : option string
}.
End RegisterBody.

(** A document of the [users] collection. *)
Module UserDoc.
Record t : Type := mk {
  uid : option string;
  email : option string;
  name : option string;
  role : option string;
  createdAt : Z
}.
End UserDoc.

Inductive RegisterResponse : Type :=
| RegisterMissingFields   (* 400, 'Missing required fields' *)
| Registered              (* 200, 'User registered successfully' *)
| RegisterServerError.    (* 500, from the [catch] block *)

Inductive UserProfile : Type :=
| UserNotFound                  (* 404, 'User not found' *)
| UserFound (user : UserDoc.t)  (* 200, the stored document *)
| UserProfileError.             (* 500, from the [catch] block *)

(** The document written by [users.doc(uid).set({...})]. *)
Definition userDoc (clock : Z) (body : RegisterBody.t) : UserDoc.t :=
  {| UserDoc.uid := RegisterBody.uid body;
     UserDoc.email := RegisterBody.email body;
     UserDoc.name := RegisterBody.name body;
     UserDoc.role := RegisterBody.role body;
     UserDoc.createdAt := clock |}.

(** [POST /register]; [clock] is the reading of the clock stored as
    [createdAt].  The collection [users] is a map keyed by the paths of its
    documents, as [sessions] is: [users.doc(uid)] throws when the uid names
    no document, which the [catch] block answers with 500.  The four fields
    of the document have passed the required-field test, so [set] accepts
    it; as in [createSession], the last branch is dead. *)
Definition registerUser (docPath : string -> option string)
    (clock : Z) (body : RegisterBody.t) (users : gmap string UserDoc.t)
  : gmap string UserDoc.t * RegisterResponse :=
  if negb (truthy_str (RegisterBody.uid body))
     || negb (truthy_str (RegisterBody.email body))
     || negb (truthy_str (RegisterBody.name body))
     || negb (truthy_str (RegisterBody.role body))
  then (users, RegisterMissingFields)
  else
    match RegisterBody.uid body with
    | Some uid =>
        match docPath uid with
        | Some userRef => (<[userRef := userDoc clock body]> users, Registered)
        | None => (users, RegisterServerError)
        end
    | None => (users, RegisterServerError)
    end.

(** [GET /user/:uid]. *)
Definition getUser (docPath : string -> option string)
    (uid : string) (users : gmap string UserDoc.t) : UserProfile :=
  match docPath uid with
  | None => UserProfileError
  | Some userRef =>
      match users !! userRef with
      | None => UserNotFound
      | Some user => UserFound user
      end
  end.

(** *** utils/haversine.js and components/QRScanner.jsx *)

(** [isWithinRange (.., maxDistance = 50)]: the default applies when the
    argument is [undefined].  The client's copy of [calculateDistance] is
    the same code as the server's. *)
Definition isWithinRange
    (calculateDistance : number -> number -> number -> number -> number)
    (studentLat studentLon classLat classLon : number) (maxDistance : option number)
  : bool :=
  let maxDistance := match maxDistance with Some m => m | None => Fin 50 end in
  let distance := calculateDistance studentLat studentLon classLat classLon in
  number_leb distance maxDistance.

(** The body that [onScanSuccess] posts to [/mark]: the decoded text of the
    QR code, the signed-in user and the position acquired when the scanner
    was mounted. *)
Definition scanBody (decodedText uid : string) (email : option string)
    (latitude longitude : number) : MarkBody.t :=
  {| MarkBody.sessionId := Some decodedText;
     MarkBody.studentId := Some uid;
     MarkBody.studentEmail := email;
     MarkBody.location := Some (mkLocation (Some latitude) (Some longitude) None) |}.

(** ** Vocabulary of the further properties *)

(** A request that posts a session under an id that names the document at
    [sessionRef]. *)
Definition creates (docPath : string -> option string) (sessionRef : string)
    (req : Request) : Prop :=
  match req with
  | PostSession _ body =>
      exists sessionId, SessionBody.sessionId body = Some sessionId
                        /\ docPath sessionId = Some sessionRef
  | PostMark _ => False
  end.

(** Every attendance document names a stored session. *)
Definition refers_to_sessions (docPath : string -> option string) (db : Db) : Prop :=
  forall r, In r (attendance db) ->
    exists session, stored docPath db (AttendanceDoc.sessionId r) session.

(** A body that passes the required-field test of [POST /session] and has
    the two fields that the test leaves out. *)
Definition validSessionBody (b : SessionBody.t) (sessionId : string) : Prop :=
  SessionBody.sessionId b = Some sessionId /\ sessionId <> EmptyString
  /\ truthy_str (SessionBody.courseName b) = true
  /\ truthy_str (SessionBody.teacherId b) = true
  /\ is_Some (SessionBody.location b)
  /\ is_Some (SessionBody.teacherEmail b)
  /\ is_Some (SessionBody.expiresAt b).

(** ** Data for the further examples *)

(** A [parseInt] for the examples: it reads two strings. *)
Definition guideParseInt (s : string) : option Z :=
  if String.eqb s "2" then Some 2 else if String.eqb s "0" then Some 0 else None.

(** Three students scan in the classroom, a minute apart. *)
Definition threeScans : list Request :=
  [PostMark (scan "S1" classroom 1767225700000);
   PostMark (scan "S2" classroom 1767225760000);
   PostMark (scan "S3" classroom 1767225820000)].

Definition afterThreeScans : Db :=
  serve_all guideDistance guideDate guideDocPath classDb threeScans.

(** No two of the attempts are of the same student for the same session. *)
Definition distinct_pairs (l : list Attempt) : Prop :=
  forall (i j : nat) (a a' : Attempt) (sessionId studentId : string),
    i <> j -> l !! i = Some a -> l !! j = Some a' ->
    MarkBody.sessionId (body a) = Some sessionId ->
    MarkBody.studentId (body a) = Some studentId ->
    ~ (MarkBody.sessionId (body a') = Some sessionId
       /\ MarkBody.studentId (body a') = Some studentId).

(** What a suspended handler of attempt [a] carries, when its store
    operations so far were answered from [db]: the ids of [a], and past the
    duplicate query a document for a pair that [db] has no document for. *)
Definition task_for (db : Db) (a : Attempt) (t : MarkTask) : Prop :=
  match t with
  | AwaitSession a' _ sid stid _ | AwaitExisting a' sid stid _ _ _ =>
      a' = a /\ MarkBody.sessionId (body a) = Some sid
      /\ MarkBody.studentId (body a) = Some stid
  | AwaitAdd rec _ _ =>
      MarkBody.sessionId (body a) = Some (AttendanceDoc.sessionId rec)
      /\ MarkBody.studentId (body a) = Some (AttendanceDoc.studentId rec)
      /\ existingAttendance (AttendanceDoc.sessionId rec) (AttendanceDoc.studentId rec)
           (attendance db) = []
  | Responded _ => True
  end.

(** ** pages/TeacherDashboard.jsx *)

(** The state [sessionForm]: the text of the five inputs. *)
Module SessionForm.
Record t : Type := mk {
  courseName : string;
  latitude : string;
  longitude : string;
  radiusMeters : string;
  durationMinutes : string
}.
End SessionForm.

Section Dashboard.

(** The text of a time value in a template literal. *)
Variable numberToString : Z -> string.

(** The time value of [new Date(now + durationMinutes * 60000)], computed in
    doubles from the text of the input; [None] for an invalid date. *)
Variable expiryTime : Z -> string -> option Z.

(** [toISOString] of a valid date, [parseFloat], and [parseInt] with [None]
    for [NaN]. *)
Variable toISOString : Z -> string.
Variable parseFloat : string -> number.
Variable parseInt : string -> option Z.

(** [handleCreateSession] for the signed-in user [uid], [email].  [t1] and
    [t2] are the two readings of [Date.now()], [t3] is the reading of
    [new Date()], [autoId] is the id that [addDoc] generates for the new
    document.  The result is the store and the text of the QR code that the
    page then shows, [activeSession.sessionId]; [toISOString] throws on an
    invalid date, and the [catch] block then leaves both as they were.  The
    page writes to the collection [sessions] that the routes read. *)
Definition handleCreateSession (form : SessionForm.t) (uid : string) (email : option string)
    (t1 t2 t3 : Z) (autoId : string) (db : Db) : Db * option string :=
  let sessionId := ("SESSION_" ++ numberToString t1)%string in
  match expiryTime t2 (SessionForm.durationMinutes form) with
  | None => (db, None)
  | Some expiry =>
      let sessionData :=
        {| SessionDoc.sessionId := Some sessionId;
           SessionDoc.courseName := Some (SessionForm.courseName form);
           SessionDoc.teacherId := Some uid;
           SessionDoc.teacherEmail := email;
           SessionDoc.location :=
             Some {| latitude := Some (parseFloat (SessionForm.latitude form));
                     longitude := Some (parseFloat (SessionForm.longitude form));
                     radiusMeters :=
                       Some match parseInt (SessionForm.radiusMeters form) with
                            | Some n => Fin (inject_Z n)
                            | None => NaN
                            end |};
           SessionDoc.expiresAt := Some (toISOString expiry);
           SessionDoc.createdAt := t3;
           SessionDoc.active := true |} in
      (mkDb (<[autoId := sessionData]> (sessions db)) (attendance db), Some sessionId)
  end.

End Dashboard.

(** A store whose session documents all have generated ids: no id begins
    with [SESSION_]. *)
Definition generated_ids (db : Db) : Prop :=
  forall id, is_Some (sessions db !! id) -> String.prefix "SESSION_" id = false.

(** A form of the dashboard, and the host functions on the values that the
    example uses. *)
Definition mathsForm : SessionForm.t :=
  SessionForm.mk "Maths" "18.516726" "73.856255" "50" "15".

Definition guideExpiry (now : Z) (durationMinutes : string) : option Z :=
  if String.eqb durationMinutes "15" then Some (now + 900000) else None.

Definition emptyDb : Db := mkDb ∅ [].

(** The store after the teacher T1 creates the class from the dashboard; the
    new document gets the id [k3Jx9QmPz2LwVbN7aRtY]. *)
Definition dashboardDb : Db :=
  fst (handleCreateSession (fun _ => "1"%string) guideExpiry
         (fun _ => "2026-01-01T00:15:00.000Z"%string)
         (fun _ => Fin 18.516726) (fun _ => Some 50%Z)
         mathsForm "T1" (Some "t1@example.org"%string)
         1767225600000 1767225600000 1767225600000 "k3Jx9QmPz2LwVbN7aRtY" emptyDb).

(** The answers with status 200 of [POST /mark]. *)
Definition is_Marked (r : MarkResponse) : bool :=
  match r with
  | Marked _ _ => true
  | _ => false
  end.

(** ** The handler always answers *)

Lemma mark_session_not_AwaitSession cd dp a sid stid loc sd a' ref' sid' stid' loc' :
  mark_session cd dp a sid stid loc sd <> AwaitSession a' ref' sid' stid' loc'.
Proof.
  unfold mark_session. repeat case_match; discriminate.
Qed.

(** Three resumptions take every fresh handler to its response, and [mark]
    returns that response. *)
Lemma mark_responds cd dp ph db a :
  exists r,
    let '(db1, t1) := mark_resume cd dp db (mark_start ph a) in
    let '(db2, t2) := mark_resume cd dp db1 t1 in
    mark_resume cd dp db2 t2 = (fst (mark cd dp ph db a), Responded r)
    /\ snd (mark cd dp ph db a) = r.
Proof.
  unfold mark, mark_start, mark_resume at 1 2 3, mark_session, mark_existing.
  repeat (case_match; simplify_eq/=); eauto.
Qed.

(** A handler that runs alone is the schedule that resumes it three times. *)
Lemma mark_alone cd dp ph db a :
  run_schedule cd dp ph db [a] [0; 0; 0]%nat
  = (fst (mark cd dp ph db a), [Responded (snd (mark cd dp ph db a))]).
Proof.
  destruct (mark_responds cd dp ph db a) as (r & H).
  unfold run_schedule, resume_nth. cbn [map fold_left fst snd lookup list_lookup].
  destruct (mark_resume cd dp db (mark_start ph a)) as [db1 t1].
  cbn [insert list_insert fst snd lookup list_lookup].
  destruct (mark_resume cd dp db1 t1) as [db2 t2].
  cbn [insert list_insert fst snd lookup list_lookup].
  destruct H as [-> ->]. reflexivity.
Qed.

(** ** The course of one attempt *)

Lemma mark_start_fields ph a sid stid loc :
  wellFormed a sid stid loc ->
  mark_start ph a = match ph sid with
                    | Some ref => AwaitSession a ref sid stid loc
                    | None => Responded ServerError
                    end.
Proof.
  intros (Hs & Hs' & Ht & Ht' & Hl). unfold mark_start. rewrite Hs, Ht, Hl.
  destruct sid; [congruence|]. destruct stid; [congruence|]. reflexivity.
Qed.

Lemma mark_start_wellFormed ph a sid stid loc ref :
  wellFormed a sid stid loc -> ph sid = Some ref ->
  mark_start ph a = AwaitSession a ref sid stid loc.
Proof.
  intros H Hp. rewrite (mark_start_fields ph a sid stid loc H), Hp. reflexivity.
Qed.

Lemma mark_start_AwaitSession ph a a' ref sid stid loc :
  mark_start ph a = AwaitSession a' ref sid stid loc ->
  a' = a /\ MarkBody.sessionId (body a) = Some sid
  /\ MarkBody.studentId (body a) = Some stid
  /\ ph sid = Some ref.
Proof.
  unfold mark_start. repeat case_match; intros; simplify_eq; auto.
Qed.

Lemma mark_wellFormed cd dp ph db a sid stid loc ref :
  wellFormed a sid stid loc -> ph sid = Some ref ->
  mark cd dp ph db a =
    let '(db2, t2) := mark_resume cd dp db
                        (mark_session cd dp a sid stid loc (sessions db !! ref)) in
    let '(db3, t3) := mark_resume cd dp db2 t2 in
    (db3, response_of t3).
Proof.
  intros H Hp. unfold mark. rewrite (mark_start_wellFormed _ _ _ _ _ _ H Hp). reflexivity.
Qed.

(** A request whose [sessionId] names no document is answered with 500. *)
Lemma mark_no_document cd dp ph db a sid stid loc :
  wellFormed a sid stid loc -> ph sid = None ->
  mark cd dp ph db a = (db, ServerError).
Proof.
  intros H Hp. unfold mark. rewrite (mark_start_fields ph a sid stid loc H), Hp. reflexivity.
Qed.

(** [add] accepts the document of step 5 when the request has an email and
    two coordinates and the session a course name. *)
Lemma attendance_defined_iff a sid stid loc session check :
  attendance_defined (attendanceData a sid stid loc session check) = true
  <-> is_Some (MarkBody.studentEmail (body a))
      /\ is_Some (SessionDoc.courseName session)
      /\ is_Some (latitude loc) /\ is_Some (longitude loc).
Proof.
  unfold attendance_defined, attendanceData.
  cbn [AttendanceDoc.studentEmail AttendanceDoc.courseName
       AttendanceDoc.latitude AttendanceDoc.longitude].
  destruct (MarkBody.studentEmail (body a)), (SessionDoc.courseName session),
    (latitude loc), (longitude loc);
    split; try discriminate; try (intros _; repeat split; eexists; reflexivity);
    intros (H1 & H2 & H3 & H4);
    try (destruct H1; discriminate); try (destruct H2; discriminate);
    try (destruct H3; discriminate); try (destruct H4; discriminate); reflexivity.
Qed.

(** The only request the handler rejects for its content is one that lacks
    [sessionId], [studentId] or [location]. *)
Lemma mark_MissingFields_iff cd dp ph db a :
  snd (mark cd dp ph db a) = MissingFields
  <-> truthy_str (MarkBody.sessionId (body a)) = false
      \/ truthy_str (MarkBody.studentId (body a)) = false
      \/ MarkBody.location (body a) = None.
Proof.
  split.
  - unfold mark, mark_start.
    destruct (MarkBody.sessionId (body a)) as [[|c sid]|]; cbn [truthy_str negb orb]; auto.
    destruct (MarkBody.studentId (body a)) as [[|c' stid]|]; cbn [truthy_str negb orb]; auto.
    destruct (MarkBody.location (body a)) as [loc|]; auto.
    rewrite bool_decide_eq_true_2 by (eexists; reflexivity).
    cbn [negb]. destruct (ph _) as [ref|]; [|discriminate].
    cbn [mark_resume]. unfold mark_session, mark_existing.
    destruct (sessions db !! _) as [session|]; [|discriminate].
    destruct (Date_gt _ _); [discriminate|].
    destruct (SessionDoc.location session) as [sloc|]; [|discriminate].
    destruct (negb _).
    + destruct (latitude loc), (longitude loc), (latitude sloc), (longitude sloc);
        discriminate.
    + cbn [mark_resume]. destruct (existingAttendance _ _ _); [|discriminate].
      unfold mark_existing; cbn zeta. destruct (attendance_defined _); discriminate.
  - intros H. unfold mark, mark_start.
    destruct H as [-> | [-> | ->]]; cbn [negb orb]; rewrite ?orb_true_r; reflexivity.
Qed.

(** From step 3 on, the response is decided by the distance, the radius,
    the result of the duplicate query and what [add] makes of the
    document. *)
Lemma mark_geofence cd dp ph db a sid stid loc session sloc lat lon slat slon :
  reachesGeofence dp ph db a sid stid loc session sloc lat lon slat slon ->
  snd (mark cd dp ph db a)
  = geofence_response (MarkBody.studentEmail (body a)) (SessionDoc.courseName session)
      (existingAttendance sid stid (attendance db))
      (cd lat lon slat slon) (allowedRadius sloc).
Proof.
  intros (Hwf & (ref & Hp & Hs) & He & Hl & Hlat & Hlon & Hslat & Hslon).
  rewrite (mark_wellFormed _ _ _ _ _ _ _ _ _ Hwf Hp), Hs.
  unfold mark_session, mark_existing, verifyLocation, geofence_response. rewrite He, Hl.
  cbn [valid distance maxDistance]. rewrite Hlat, Hlon, Hslat, Hslon. cbn [toNumber].
  destruct (number_leb _ _); cbn [negb mark_resume]; [|reflexivity].
  destruct (existingAttendance _ _ _); [|reflexivity].
  unfold mark_existing; cbn zeta. unfold attendance_defined, attendanceData.
  cbn [AttendanceDoc.studentEmail AttendanceDoc.courseName
       AttendanceDoc.latitude AttendanceDoc.longitude].
  rewrite Hlat, Hlon.
  destruct (MarkBody.studentEmail (body a)), (SessionDoc.courseName session) eqn:Hc;
    cbn; rewrite ?Hc; reflexivity.
Qed.

(** An attempt that has passed steps 1 to 3. *)
Lemma mark_passed cd dp ph db a ref sid stid loc session check :
  mark_start ph a = AwaitSession a ref sid stid loc ->
  mark_session cd dp a sid stid loc (sessions db !! ref)
  = AwaitExisting a sid stid loc session check ->
  mark cd dp ph db a =
    match existingAttendance sid stid (attendance db) with
    | [] =>
        if attendance_defined (attendanceData a sid stid loc session check) then
          (mkDb (sessions db)
             (attendance db ++ [attendanceData a sid stid loc session check]),
           Marked (SessionDoc.courseName session) (distance check))
        else (db, ServerError)
    | _ :: _ => (db, AlreadyMarked)
    end.
Proof.
  intros Hst Hms. unfold mark. rewrite Hst. cbn [mark_resume]. rewrite Hms.
  cbn [mark_resume]. unfold mark_existing.
  destruct (existingAttendance sid stid (attendance db)); [|reflexivity].
  unfold mark_existing; cbn zeta. destruct (attendance_defined _); reflexivity.
Qed.

(** The course of a successful attempt. *)
Lemma mark_Marked_inv cd dp ph db a cn d :
  snd (mark cd dp ph db a) = Marked cn d ->
  exists ref sid stid loc session check,
    mark_start ph a = AwaitSession a ref sid stid loc
    /\ mark_session cd dp a sid stid loc (sessions db !! ref)
       = AwaitExisting a sid stid loc session check
    /\ existingAttendance sid stid (attendance db) = []
    /\ attendance_defined (attendanceData a sid stid loc session check) = true
    /\ cn = SessionDoc.courseName session /\ d = distance check.
Proof.
  unfold mark.
  destruct (mark_start ph a) as [a' ref sid stid loc| | |r] eqn:Hst.
  - destruct (mark_start_AwaitSession _ _ _ _ _ _ _ Hst) as (-> & _ & _ & _).
    cbn [mark_resume].
    destruct (mark_session cd dp a sid stid loc (sessions db !! ref))
      as [| a' sid' stid' loc' session check | |r] eqn:Hms.
    + destruct (mark_session_not_AwaitSession _ _ _ _ _ _ _ _ _ _ _ _ Hms).
    + assert (a' = a /\ sid' = sid /\ stid' = stid /\ loc' = loc) as (-> & -> & -> & ->).
      { unfold mark_session in Hms. repeat case_match; simplify_eq; auto. }
      cbn [mark_resume]. unfold mark_existing.
      destruct (existingAttendance sid stid (attendance db)) eqn:Hx; [|discriminate].
      unfold mark_existing; cbn zeta. destruct (attendance_defined _) eqn:Hd; [|discriminate].
      cbn [mark_resume response_of snd]. intros [= <- <-].
      exists ref, sid, stid, loc, session, check. auto 10.
    + unfold mark_session in Hms. repeat case_match; discriminate.
    + cbn. intros ->. unfold mark_session in Hms. repeat case_match; discriminate.
  - unfold mark_start in Hst. repeat case_match; discriminate.
  - unfold mark_start in Hst. repeat case_match; discriminate.
  - cbn. intros ->. unfold mark_start in Hst. repeat case_match; discriminate.
Qed.

Lemma mark_has_effect cd dp ph db a : mark_effect db a (mark cd dp ph db a).
Proof.
  unfold mark, mark_start.
  destruct (_ || _ || _); [apply effect_rejected; discriminate|].
  destruct (MarkBody.sessionId (body a)) as [sid|] eqn:Hsid;
    [|apply effect_rejected; discriminate].
  destruct (MarkBody.studentId (body a)) as [stid|] eqn:Hstid;
    [|apply effect_rejected; discriminate].
  destruct (MarkBody.location (body a)) as [loc|];
    [|apply effect_rejected; discriminate].
  destruct (ph sid) as [ref|]; [|apply effect_rejected; discriminate].
  cbn [mark_resume]. unfold mark_session, mark_existing.
  destruct (sessions db !! ref) as [session|]; [|apply effect_rejected; discriminate].
  destruct (Date_gt _ _); [apply effect_rejected; discriminate|].
  destruct (SessionDoc.location session) as [sloc|];
    [|apply effect_rejected; discriminate].
  destruct (negb _).
  - destruct (latitude loc), (longitude loc), (latitude sloc), (longitude sloc);
      apply effect_rejected; discriminate.
  - cbn [mark_resume]. destruct (existingAttendance sid stid (attendance db)) eqn:Hx;
      [|apply effect_rejected; discriminate].
    unfold mark_existing; cbn zeta. destruct (attendance_defined _); [|apply effect_rejected; discriminate].
    cbn [mark_resume response_of]. apply effect_marked; assumption.
Qed.

(** ** Numbers *)

Lemma number_leb_Fin (p q : Q) : number_leb (Fin p) (Fin q) = true <-> (p <= q)%Q.
Proof. simpl. apply Qle_bool_iff. Qed.

Lemma Qsucc_not_le (q : Q) : ~ (q + 1 <= q)%Q.
Proof.
  intros H. apply Qle_minus_iff in H. ring_simplify in H.
  revert H. apply Qlt_not_le. reflexivity.
Qed.

Lemma truthy_Fin (r : Q) : truthy (Fin r) = true <-> ~ (r == 0)%Q.
Proof.
  simpl. rewrite negb_true_iff, <- not_true_iff_false, Qeq_bool_iff. reflexivity.
Qed.

(** [radiusMeters || 50]: 50 for a missing, zero or [NaN] radius, and the
    radius itself otherwise. *)
Lemma allowedRadius_cases (sloc : Location) :
  (radiusMeters sloc = None -> allowedRadius sloc = Fin 50)
  /\ (radiusMeters sloc = Some NaN -> allowedRadius sloc = Fin 50)
  /\ (forall r : Q, radiusMeters sloc = Some (Fin r) -> (r == 0)%Q ->
        allowedRadius sloc = Fin 50)
  /\ (forall r : Q, radiusMeters sloc = Some (Fin r) -> ~ (r == 0)%Q ->
        allowedRadius sloc = Fin r).
Proof.
  unfold allowedRadius, or_default.
  split; [intros ->; reflexivity|]. split; [intros ->; reflexivity|]. split.
  - intros r -> E. destruct (truthy (Fin r)) eqn:T; [|reflexivity].
    apply truthy_Fin in T. contradiction.
  - intros r -> N. apply truthy_Fin in N. rewrite N. reflexivity.
Qed.

(** ** The geofence verifier *)

(** C6. [verifyLocation] returns the computed distance and the radius it was
    given, and [valid] is the comparison [distance <= maxDistance].  For a
    finite distance [d] and a finite radius [r] it is true if and only if
    [d <= r]: true when [d] equals [r], false when [d] is [r + 1]. *)
Theorem verifyLocation_inclusive
    (calculateDistance : number -> number -> number -> number -> number)
    (studentLat studentLon classLat classLon maxDist : number) :
  let dist := calculateDistance studentLat studentLon classLat classLon in
  let check := verifyLocation calculateDistance studentLat studentLon classLat classLon maxDist in
  distance check = dist /\ maxDistance check = maxDist
  /\ valid check = number_leb dist maxDist
  /\ forall d r : Q, dist = Fin d -> maxDist = Fin r ->
       (valid check = true <-> (d <= r)%Q)
       /\ ((d == r)%Q -> valid check = true)
       /\ ((d == r + 1)%Q -> valid check = false).
Proof.
  intros dist check. subst dist check. unfold verifyLocation. simpl.
  do 3 (split; [reflexivity|]).
  intros d r -> ->. split; [apply number_leb_Fin|]. split; intros E.
  - apply number_leb_Fin. rewrite E. apply Qle_refl.
  - apply not_true_is_false. rewrite number_leb_Fin, E. apply Qsucc_not_le.
Qed.

(** At the boundary: 19490 m away with a radius of 19490 m. *)
Lemma verifyLocation_inclusive_witness :
  valid (verifyLocation guideDistance (Fin 18.62) (Fin 74.0)
           (Fin 18.516726) (Fin 73.856255) (Fin 19490)) = true.
Proof.
  destruct (verifyLocation_inclusive guideDistance (Fin 18.62) (Fin 74.0)
              (Fin 18.516726) (Fin 73.856255) (Fin 19490)) as (_ & _ & _ & H).
  destruct (H 19490%Q 19490%Q eq_refl eq_refl) as (_ & Heq & _).
  apply Heq. reflexivity.
Defined.

(** One metre past the boundary: 19490 m away with a radius of 19489 m. *)
Example verifyLocation_one_metre_out :
  valid (verifyLocation guideDistance (Fin 18.62) (Fin 74.0)
           (Fin 18.516726) (Fin 73.856255) (Fin 19489)) = false.
Proof. reflexivity. Qed.

(** ** The distance function *)

(** *** Facts on doubles *)

(** The square root of a negative number is [NaN]. *)
Lemma sqrt_negative (x : float) : (x <? 0)%float = true -> sqrt x = nan.
Proof.
  intros H. apply Prim2SF_inj. rewrite sqrt_spec.
  rewrite ltb_spec in H. change (Prim2SF 0) with (S754_zero false) in H.
  change (Prim2SF nan) with S754_nan.
  destruct (Prim2SF x) as [s|[|]| |[|] m e]; try discriminate H; reflexivity.
Qed.

Lemma SFopp_involutive (x : spec_float) : SFopp (SFopp x) = x.
Proof. destruct x as [s|s| |s m e]; cbn; rewrite ?negb_involutive; reflexivity. Qed.

Lemma opp_involutive (x : float) : (- - x)%float = x.
Proof. apply Prim2SF_inj. rewrite !opp_spec. apply SFopp_involutive. Qed.

(** Rounding to nearest is symmetric: the sign goes through. *)
Lemma binary_round_aux_opp s m e l :
  SFopp (binary_round_aux prec emax s m e l) = binary_round_aux prec emax (negb s) m e l.
Proof.
  unfold binary_round_aux.
  destruct (shr_fexp prec emax m e l) as [mrs' e'].
  destruct (shr_fexp prec emax _ e' loc_Exact) as [mrs'' e''].
  destruct (shr_m mrs''); [reflexivity| |reflexivity].
  destruct (Z.leb e'' _); reflexivity.
Qed.

Lemma binary_round_opp s m e :
  SFopp (binary_round prec emax s m e) = binary_round prec emax (negb s) m e.
Proof.
  unfold binary_round. destruct (shl_align _ _ _) as [mz ez]. apply binary_round_aux_opp.
Qed.

Lemma SFmul_opp_l x y : SF64mul (SFopp x) y = SFopp (SF64mul x y).
Proof.
  destruct x as [sx|sx| |sx mx ex], y as [sy|sy| |sy my ey]; cbn;
    rewrite ?negb_xorb_l; try reflexivity.
  rewrite binary_round_aux_opp, negb_xorb_l. reflexivity.
Qed.

Lemma SFmul_comm x y : SF64mul x y = SF64mul y x.
Proof.
  destruct x as [sx|sx| |sx mx ex], y as [sy|sy| |sy my ey]; cbn;
    rewrite ?(xorb_comm sx sy); try reflexivity.
  rewrite Pos.mul_comm, Z.add_comm. reflexivity.
Qed.

Lemma float_mul_comm (x y : float) : (x * y)%float = (y * x)%float.
Proof. apply Prim2SF_inj. rewrite !mul_spec. apply SFmul_comm. Qed.

Lemma float_mul_opp_l (x y : float) : (- x * y)%float = (- (x * y))%float.
Proof. apply Prim2SF_inj. rewrite opp_spec, !mul_spec, opp_spec. apply SFmul_opp_l. Qed.

Lemma float_mul_opp_r (x y : float) : (x * - y)%float = (- (x * y))%float.
Proof. rewrite (float_mul_comm x), float_mul_opp_l, (float_mul_comm y). reflexivity. Qed.

Lemma float_mul_opp_opp (x y : float) : (- x * - y)%float = (x * y)%float.
Proof. rewrite float_mul_opp_l, float_mul_opp_r. apply opp_involutive. Qed.

Lemma SFdiv_opp_l x y : SF64div (SFopp x) y = SFopp (SF64div x y).
Proof.
  destruct x as [sx|sx| |sx mx ex], y as [sy|sy| |sy my ey]; cbn;
    rewrite ?negb_xorb_l; try reflexivity.
  destruct (SFdiv_core_binary _ _ _ _ _ _) as [[mz ez] lz].
  rewrite binary_round_aux_opp, negb_xorb_l. reflexivity.
Qed.

Lemma float_div_opp_l (x y : float) : (- x / y)%float = (- (x / y))%float.
Proof. apply Prim2SF_inj. rewrite opp_spec, !div_spec, opp_spec. apply SFdiv_opp_l. Qed.

(** [y - x] is the opposite of [x - y], but for a difference of zero, which
    is [+0] both ways. *)
Lemma SFsub_swap x y :
  SF64sub y x = SFopp (SF64sub x y)
  \/ (SF64sub x y = S754_zero false /\ SF64sub y x = S754_zero false).
Proof.
  destruct x as [sx|sx| |sx mx ex], y as [sy|sy| |sy my ey]; cbn;
    try (left; rewrite ?negb_involutive; reflexivity);
    try (destruct sx, sy; cbn; auto; fail).
  rewrite (Z.min_comm ey ex).
  set (A := cond_Zopp sx _). set (B := cond_Zopp sy _).
  replace (B - A)%Z with (- (A - B))%Z by ring.
  destruct (A - B)%Z as [|p|p]; cbn.
  - right. auto.
  - left. rewrite binary_round_opp. reflexivity.
  - left. rewrite binary_round_opp. reflexivity.
Qed.

Lemma float_sub_swap (x y : float) :
  (y - x)%float = (- (x - y))%float \/ ((x - y)%float = 0%float /\ (y - x)%float = 0%float).
Proof.
  destruct (SFsub_swap (Prim2SF x) (Prim2SF y)) as [H|[H1 H2]].
  - left. apply Prim2SF_inj. rewrite opp_spec, !sub_spec. exact H.
  - right. split; apply Prim2SF_inj; rewrite sub_spec; assumption.
Qed.

Lemma is_finite_SF (x : float) :
  is_finite x = true ->
  (exists s, Prim2SF x = S754_zero s) \/ (exists s m e, Prim2SF x = S754_finite s m e).
Proof.
  unfold is_finite, is_nan, is_infinity. rewrite !FloatAxioms.eqb_spec, abs_spec.
  change (Prim2SF infinity) with (S754_infinity false).
  destruct (Prim2SF x) as [s|[|]| |s m e]; cbn; try discriminate; eauto.
Qed.

Lemma float_sub_diag (x : float) : is_finite x = true -> (x - x)%float = 0%float.
Proof.
  intros H. apply Prim2SF_inj. rewrite sub_spec. change (Prim2SF 0) with (S754_zero false).
  destruct (is_finite_SF x H) as [(s & ->)|(s & m & e & ->)]; cbn.
  - destruct s; reflexivity.
  - rewrite Z.sub_diag. reflexivity.
Qed.

Lemma digits2_pos_size (p : positive) : digits2_pos p = Pos.size p.
Proof. induction p; cbn; congruence. Qed.

Lemma digits2_pos_gt (p : positive) : (Zpos p < 2 ^ Zpos (digits2_pos p))%Z.
Proof.
  rewrite digits2_pos_size. change 2%Z with (Zpos 2). rewrite <- Pos2Z.inj_pow.
  apply Pos2Z.pos_lt_pos, Pos.size_gt.
Qed.

Lemma Zdigits2_le (m k : Z) : (0 <= m < 2 ^ k)%Z -> (0 <= k)%Z -> (Zdigits2 m <= k)%Z.
Proof.
  intros [H0 Hk] Hk0. destruct m as [|p|p]; cbn; [exact Hk0| |lia].
  rewrite digits2_pos_size.
  assert (H : (2 ^ Zpos (Pos.size p) <= 2 * Zpos p)%Z).
  { change 2%Z with (Zpos 2) at 1. rewrite <- Pos2Z.inj_pow.
    change (2 * Zpos p)%Z with (Zpos p~0). apply Pos2Z.pos_le_pos, Pos.size_le. }
  assert (Hlt : (2 ^ Zpos (Pos.size p) < 2 ^ (k + 1))%Z).
  { rewrite Z.pow_add_r by lia. lia. }
  apply Z.pow_lt_mono_r_iff in Hlt; lia.
Qed.

Lemma shr_1_bound mrs : (0 <= shr_m mrs)%Z -> (0 <= shr_m (shr_1 mrs) <= shr_m mrs)%Z.
Proof.
  destruct mrs as [m r s]. destruct m as [|[p|p|]|p]; cbn; lia.
Qed.

Lemma iter_shr_1_bound p : forall mrs,
  (0 <= shr_m mrs)%Z -> (0 <= shr_m (SpecFloat.iter_pos shr_1 p mrs) <= shr_m mrs)%Z.
Proof.
  induction p as [p IH|p IH|]; intros mrs H; cbn.
  - pose proof (shr_1_bound mrs H) as H1.
    pose proof (IH _ (proj1 H1)) as H2. pose proof (IH _ (proj1 H2)). lia.
  - pose proof (IH _ H) as H1. pose proof (IH _ (proj1 H1)). lia.
  - apply shr_1_bound. exact H.
Qed.

Lemma shr_fexp_bound m e l :
  (0 <= m)%Z ->
  (0 <= shr_m (fst (shr_fexp prec emax m e l)) <= m)%Z
  /\ (snd (shr_fexp prec emax m e l) = e
      \/ snd (shr_fexp prec emax m e l) = fexp prec emax (Zdigits2 m + e)).
Proof.
  intros H. unfold shr_fexp, shr.
  assert (Hm : shr_m (shr_record_of_loc m l) = m) by (destruct l as [|[| |]]; reflexivity).
  destruct (fexp prec emax (Zdigits2 m + e) - e)%Z as [|p|p] eqn:E; cbn [fst snd].
  - rewrite Hm. split; [lia|auto].
  - pose proof (iter_shr_1_bound p (shr_record_of_loc m l)) as Hb. rewrite Hm in Hb.
    split; [auto|]. right. lia.
  - rewrite Hm. split; [lia|auto].
Qed.

Lemma round_nearest_even_bound m l : (m <= round_nearest_even m l <= m + 1)%Z.
Proof. destruct l as [|[| |]]; cbn; try destruct (Z.even m); lia. Qed.

(** Rounding a small number does not overflow. *)
Lemma binary_round_aux_small s m e l :
  (0 <= m < 2 ^ 106)%Z -> (e <= -104)%Z ->
  binary_round_aux prec emax s m e l = S754_zero s
  \/ exists m' e', binary_round_aux prec emax s m e l = S754_finite s m' e'.
Proof.
  intros Hm He. unfold binary_round_aux.
  pose proof (shr_fexp_bound m e l (proj1 Hm)) as (Hm1 & He1).
  destruct (shr_fexp prec emax m e l) as [mrs' e']. cbn [fst snd] in Hm1, He1.
  pose proof (round_nearest_even_bound (shr_m mrs') (loc_of_shr_record mrs')) as Hr.
  set (m1 := round_nearest_even (shr_m mrs') (loc_of_shr_record mrs')) in *.
  assert (Hm10 : (0 <= m1)%Z) by lia.
  pose proof (shr_fexp_bound m1 e' loc_Exact Hm10) as (Hm2 & He2).
  destruct (shr_fexp prec emax m1 e' loc_Exact) as [mrs'' e'']. cbn [fst snd] in Hm2, He2.
  assert (Hd : (Zdigits2 m <= 106)%Z) by (apply Zdigits2_le; lia).
  assert (Hd1 : (Zdigits2 m1 <= 107)%Z).
  { apply Zdigits2_le; [|lia]. change (2 ^ 107)%Z with (2 * 2 ^ 106)%Z. lia. }
  assert (He' : (e' <= -51)%Z).
  { destruct He1 as [->| ->]; [lia|]. unfold fexp, emin, prec, emax. lia. }
  assert (He'' : (e'' <= 3)%Z).
  { destruct He2 as [->| ->]; [lia|]. unfold fexp, emin, prec, emax. lia. }
  destruct (shr_m mrs'') as [|p|p]; [auto| |lia].
  right. replace (e'' <=? emax - prec)%Z with true; [eauto|].
  symmetry. apply Z.leb_le. unfold emax, prec. lia.
Qed.

(** The square of a number between -1 and 1 is a zero or a finite number,
    and not negative. *)
Lemma square_small (c : float) :
  (abs c <=? 1)%float = true ->
  Prim2SF (c * c)%float = S754_zero false
  \/ exists m e, Prim2SF (c * c)%float = S754_finite false m e.
Proof.
  intros H. rewrite leb_spec, abs_spec in H. rewrite mul_spec.
  change (Prim2SF 1) with (S754_finite false 4503599627370496 (-52)) in H.
  pose proof (Prim2SF_valid c) as Hv.
  destruct (Prim2SF c) as [s|s| |s m e].
  - left. cbn. rewrite xorb_nilpotent. reflexivity.
  - discriminate H.
  - discriminate H.
  - cbn [SF64mul SFmul]. rewrite xorb_nilpotent.
    cbn [valid_binary] in Hv. unfold bounded, canonical_mantissa in Hv.
    apply andb_true_iff in Hv as [Hc _]. apply Z.eqb_eq in Hc.
    assert (Hd : (Zpos (digits2_pos m) <= 53)%Z).
    { unfold fexp, emin, prec, emax in Hc. lia. }
    assert (Hm : (Zpos m < 2 ^ 53)%Z).
    { eapply Z.lt_le_trans; [apply digits2_pos_gt|]. apply Z.pow_le_mono_r; lia. }
    assert (He : (e <= -52)%Z).
    { unfold SFleb, SFcompare, SFabs in H. destruct (e ?= -52)%Z eqn:E; try discriminate H.
      - apply Z.compare_eq in E. lia.
      - pose proof (proj1 (Z.compare_lt_iff _ _) E). lia. }
    apply binary_round_aux_small; [|lia].
    rewrite Pos2Z.inj_mul. change (2 ^ 106)%Z with (2 ^ 53 * 2 ^ 53)%Z.
    split; [lia|]. apply Z.mul_lt_mono_nonneg; lia.
Qed.

Lemma square_small_times_zero (c : float) :
  (abs c <=? 1)%float = true -> (c * c * 0)%float = 0%float.
Proof.
  intros H. apply Prim2SF_inj. rewrite mul_spec.
  change (Prim2SF 0) with (S754_zero false).
  destruct (square_small c H) as [->|(m & e & ->)]; reflexivity.
Qed.

(** *** The host functions of the examples *)

Lemma Leibniz_eqb_opp (x k : float) : Leibniz.eqb (- x) k = Leibniz.eqb x (- k).
Proof.
  apply eq_true_iff_eq. rewrite !Leibniz.eqb_spec.
  split; intros H; [rewrite <- H|rewrite H]; rewrite opp_involutive; reflexivity.
Qed.

Lemma guideSin_odd (x : float) : guideSin (- x) = (- guideSin x)%float.
Proof.
  unfold guideSin.
  destruct (Leibniz.eqb x 0x1.1df46a2529d39p-3) eqn:E1;
    [apply Leibniz.eqb_spec in E1; subst x; reflexivity|].
  destruct (Leibniz.eqb x (-0x1.1df46a2529d39p-3)) eqn:E2;
    [apply Leibniz.eqb_spec in E2; subst x; reflexivity|].
  destruct (Leibniz.eqb x 0x1.921fb54442d18p+0) eqn:E3;
    [apply Leibniz.eqb_spec in E3; subst x; reflexivity|].
  destruct (Leibniz.eqb x (-0x1.921fb54442d18p+0)) eqn:E4;
    [apply Leibniz.eqb_spec in E4; subst x; reflexivity|].
  replace (Leibniz.eqb (- x) 0x1.1df46a2529d39p-3) with false
    by (rewrite Leibniz_eqb_opp; symmetry; exact E2).
  replace (Leibniz.eqb (- x) (-0x1.1df46a2529d39p-3)) with false
    by (rewrite Leibniz_eqb_opp; symmetry; exact E1).
  replace (Leibniz.eqb (- x) 0x1.921fb54442d18p+0) with false
    by (rewrite Leibniz_eqb_opp; symmetry; exact E4).
  replace (Leibniz.eqb (- x) (-0x1.921fb54442d18p+0)) with false
    by (rewrite Leibniz_eqb_opp; symmetry; exact E3).
  reflexivity.
Qed.

(** *** Not a number *)

(** C8 fails on the code in its third part.  [a] is a sum of rounded
    products and can exceed 1 for points that are nearly opposite on the
    globe.  Then [1 - a] is negative, [Math.sqrt(1 - a)] is [NaN], and so
    are [Math.atan2] of it, the product with [R] and [Math.round] of that,
    on every host: ECMAScript fixes [Math.atan2] and [Math.round] on [NaN].
    The result [d] is [NaN]: [0 <= d] is false and [d] is not equal to
    itself, so it is no non-negative integer. *)
Theorem calculateDistance_not_a_number
    (sin cos : float -> float) (atan2 : float -> float -> float) (round : float -> float)
    (lat1 lon1 lat2 lon2 : float) :
  (forall y, atan2 y nan = nan) ->
  round nan = nan ->
  (1 - Haversine.a sin cos lat1 lon1 lat2 lon2 <? 0)%float = true ->
  let d := Haversine.calculateDistance sin cos atan2 round lat1 lon1 lat2 lon2 in
  d = nan /\ (0 <=? d)%float = false /\ (d =? d)%float = false.
Proof.
  intros atan2_nan round_nan H d.
  assert (Hd : d = nan).
  { subst d. unfold Haversine.calculateDistance. cbv zeta.
    rewrite (sqrt_negative _ H), atan2_nan.
    change (6371000 * (2 * nan))%float with nan. exact round_nan. }
  rewrite Hd. repeat split; reflexivity.
Qed.

(** Latitude 8 on the meridian of Greenwich and latitude -8 on the opposite
    meridian: [a] is the double after 1. *)
Lemma calculateDistance_not_a_number_witness :
  Haversine.a guideSin guideCos 8 0 (-8) 180 = 0x1.0000000000001p+0%float
  /\ Haversine.calculateDistance guideSin guideCos guideAtan2 guideRound 8 0 (-8) 180 = nan.
Proof.
  split; [reflexivity|].
  refine (proj1 (calculateDistance_not_a_number guideSin guideCos guideAtan2 guideRound
                   8 0 (-8) 180 _ _ _)).
  - intros y. reflexivity.
  - reflexivity.
  - reflexivity.
Defined.

(** *** Symmetry *)

(** The sine of half a difference of two angles given in degrees changes
    its sign at most when the angles are swapped. *)
Lemma sin_half_swap (sin : float -> float) (x y : float) :
  (forall z : float, sin (- z)%float = (- sin z)%float) ->
  let s := sin ((y - x) * Haversine.PI / 180 / 2)%float in
  let s' := sin ((x - y) * Haversine.PI / 180 / 2)%float in
  s' = (- s)%float \/ s' = s.
Proof.
  intros sin_odd. cbv zeta.
  destruct (float_sub_swap y x) as [->|[-> ->]]; [left|right; reflexivity].
  rewrite float_mul_opp_l, !float_div_opp_l, sin_odd. reflexivity.
Qed.

Lemma a_symmetric (sin cos : float -> float) (lat1 lon1 lat2 lon2 : float) :
  (forall z : float, sin (- z)%float = (- sin z)%float) ->
  Haversine.a sin cos lat1 lon1 lat2 lon2 = Haversine.a sin cos lat2 lon2 lat1 lon1.
Proof.
  intros sin_odd. unfold Haversine.a. cbv zeta.
  rewrite (float_mul_comm (cos (lat1 * Haversine.PI / 180)%float)).
  destruct (sin_half_swap sin lat1 lat2 sin_odd) as [->| ->],
    (sin_half_swap sin lon1 lon2 sin_odd) as [->| ->];
    rewrite ?float_mul_opp_opp, ?float_mul_opp_r, ?float_mul_opp_l, ?opp_involutive;
    reflexivity.
Qed.

(** X22. [calculateDistance] is symmetric on every host whose [Math.sin] is
    odd, for all doubles: swapping the two points negates the two
    differences of coordinates, or leaves them at [+0], and the formula
    uses only the squares of the sines of their halves and the product of
    the two cosines. *)
Theorem calculateDistance_symmetric
    (sin cos : float -> float) (atan2 : float -> float -> float) (round : float -> float)
    (lat1 lon1 lat2 lon2 : float) :
  (forall z : float, sin (- z)%float = (- sin z)%float) ->
  Haversine.calculateDistance sin cos atan2 round lat1 lon1 lat2 lon2
  = Haversine.calculateDistance sin cos atan2 round lat2 lon2 lat1 lon1.
Proof.
  intros sin_odd. unfold Haversine.calculateDistance.
  rewrite (a_symmetric sin cos lat1 lon1 lat2 lon2 sin_odd). reflexivity.
Qed.

Lemma calculateDistance_symmetric_witness :
  Haversine.calculateDistance guideSin guideCos guideAtan2 guideRound 8 0 (-8) 90
  = Haversine.calculateDistance guideSin guideCos guideAtan2 guideRound (-8) 90 8 0.
Proof.
  apply (calculateDistance_symmetric guideSin guideCos guideAtan2 guideRound 8 0 (-8) 90).
  exact guideSin_odd.
Defined.

(** *** A point and itself *)

(** X23. The distance from a point to itself is [+0], for finite
    coordinates, on every host with [sin(+0) = +0], [atan2(+0, 1) = +0]
    and [round(+0) = +0], which ECMAScript fixes, and with a cosine of
    the latitude between -1 and 1. *)
Theorem calculateDistance_same_point
    (sin cos : float -> float) (atan2 : float -> float -> float) (round : float -> float)
    (lat lon : float) :
  sin 0%float = 0%float ->
  atan2 0%float 1%float = 0%float ->
  round 0%float = 0%float ->
  is_finite lat = true -> is_finite lon = true ->
  (abs (cos (lat * Haversine.PI / 180)) <=? 1)%float = true ->
  Haversine.calculateDistance sin cos atan2 round lat lon lat lon = 0%float.
Proof.
  intros sin_zero atan2_zero_one round_zero Hlat Hlon Hcos.
  unfold Haversine.calculateDistance, Haversine.a. cbv zeta.
  rewrite (float_sub_diag lat Hlat), (float_sub_diag lon Hlon).
  change (0 * Haversine.PI / 180 / 2)%float with 0%float. rewrite sin_zero.
  rewrite (square_small_times_zero _ Hcos).
  change (0 * 0 + 0 * 0)%float with 0%float.
  change (sqrt 0) with 0%float. change (sqrt (1 - 0)) with 1%float.
  rewrite atan2_zero_one. change (6371000 * (2 * 0))%float with 0%float.
  exact round_zero.
Qed.

Lemma calculateDistance_same_point_witness :
  Haversine.calculateDistance guideSin guideCos guideAtan2 guideRound 8 0 8 0 = 0%float.
Proof.
  apply (calculateDistance_same_point guideSin guideCos guideAtan2 guideRound 8 0);
    reflexivity.
Defined.

(** ** The default radius *)

(** C5, as stated, fails for a negative radius: [-5 || 50] is [-5].  A
    student who stands on the class's coordinates, 0 m away, is rejected,
    and the response reports a required distance of -5 m. *)
Lemma negative_radius_not_defaulted :
  let sloc := mkLocation (Some (Fin 18.516726)) (Some (Fin 73.856255)) (Some (Fin (-5))) in
  let db := oneSession (mathsSessionWithRadius (Some (Fin (-5)))) in
  allowedRadius sloc = Fin (-5)
  /\ allowedRadius sloc <> Fin 50
  /\ mark guideDistance guideDate guideDocPath db (scan "S1" classroom 1767225700000)
     = (db, OutOfRange (Fin 0) (Fin (-5))).
Proof.
  split; [reflexivity|]. split; [discriminate|]. vm_compute. reflexivity.
Qed.

(** C5, amended.  For an attempt that gets to step 3, the geofence check
    uses a radius of 50 when the session's [radiusMeters] is missing, zero
    or [NaN].  Any other radius is used as it is; a negative radius is kept,
    and every attempt at a finite distance of 0 or more is then answered
    [OutOfRange]. *)
Theorem default_radius
    (calculateDistance : number -> number -> number -> number -> number)
    (Date_parse : string -> option Z) (docPath : string -> option string)
    (db : Db) (a : Attempt) (sessionId studentId : string) (location sloc : Location)
    (session : SessionDoc.t) (lat lon slat slon : number) :
  reachesGeofence Date_parse docPath db a sessionId studentId location session sloc
    lat lon slat slon ->
  let d := calculateDistance lat lon slat slon in
  let respond := geofence_response (MarkBody.studentEmail (body a))
                   (SessionDoc.courseName session)
                   (existingAttendance sessionId studentId (attendance db)) d in
  let response := snd (mark calculateDistance Date_parse docPath db a) in
  (radiusMeters sloc = None \/ radiusMeters sloc = Some NaN
   \/ (exists r : Q, radiusMeters sloc = Some (Fin r) /\ (r == 0)%Q) ->
   response = respond (Fin 50))
  /\ (forall r : Q, radiusMeters sloc = Some (Fin r) -> ~ (r == 0)%Q ->
        response = respond (Fin r))
  /\ (forall r q : Q, radiusMeters sloc = Some (Fin r) -> (r < 0)%Q ->
        d = Fin q -> (0 <= q)%Q ->
        response = OutOfRange (Fin q) (Fin r)).
Proof.
  intros H d respond response. subst d respond response.
  rewrite (mark_geofence _ _ _ _ _ _ _ _ _ _ _ _ _ _ H).
  destruct (allowedRadius_cases sloc) as (Hnone & Hnan & Hzero & Hother).
  split; [|split].
  - intros [E | [E | (r & E & Hr)]].
    + rewrite (Hnone E). reflexivity.
    + rewrite (Hnan E). reflexivity.
    + rewrite (Hzero r E Hr). reflexivity.
  - intros r E Hr. rewrite (Hother r E Hr). reflexivity.
  - intros r q E Hr -> Hq.
    assert (Hr0 : ~ (r == 0)%Q) by (intros Z; rewrite Z in Hr; revert Hr; apply Qlt_irrefl).
    rewrite (Hother r E Hr0). unfold geofence_response.
    replace (number_leb (Fin q) (Fin r)) with false; [reflexivity|].
    symmetry. apply not_true_is_false. rewrite number_leb_Fin. apply Qlt_not_le.
    eapply Qlt_le_trans; eassumption.
Qed.

(** A class stored with radius 0, scanned from the corridor, 25 m away,
    before it expires: the scan succeeds, which a radius of 0 would not
    allow. *)
Lemma default_radius_witness :
  number_leb (Fin 25) (Fin 0) = false
  /\ snd (mark campusDistance guideDate guideDocPath
            (oneSession (mathsSessionWithRadius (Some (Fin 0))))
            (scan "S1" corridor 1767225700000))
     = Marked (Some "Maths"%string) (Fin 25).
Proof.
  split; [reflexivity|].
  refine (proj1 (default_radius campusDistance guideDate guideDocPath
                   (oneSession (mathsSessionWithRadius (Some (Fin 0))))
                   (scan "S1" corridor 1767225700000) "SESSION_1" "S1" corridor
                   (mkLocation (Some (Fin 18.516726)) (Some (Fin 73.856255)) (Some (Fin 0)))
                   (mathsSessionWithRadius (Some (Fin 0)))
                   (Fin 18.5169) (Fin 73.8564) (Fin 18.516726) (Fin 73.856255) _) _).
  - unfold reachesGeofence, wellFormed, stored.
    repeat split; try discriminate. eexists. split; reflexivity.
  - right. right. exists 0%Q. split; reflexivity.
Defined.

(** ** Coordinates are not validated *)

(** C7, as stated, fails: the handler tests that [location] is present and
    nothing else.  With latitude 200 and longitude 500 the request is not
    answered 'Missing required fields', whatever the distance function;
    step 3 runs on these values and the response carries the distance
    computed from them. *)
Lemma malformed_coordinates_reach_geofence :
  (90 < 200)%Q /\ (180 < 500)%Q
  /\ (forall calculateDistance Date_parse docPath,
        snd (mark calculateDistance Date_parse docPath classDb
               (scan "S1" offTheGlobe 1767225700000))
        <> MissingFields)
  /\ mark guideDistance guideDate guideDocPath classDb (scan "S1" offTheGlobe 1767225700000)
     = (classDb,
        OutOfRange (guideDistance (Fin 200) (Fin 500) (Fin 18.516726) (Fin 73.856255))
          (Fin 50)).
Proof.
  split; [reflexivity|]. split; [reflexivity|]. split; [|reflexivity].
  intros cd dp ph H. apply mark_MissingFields_iff in H.
  destruct H as [H | [H | H]]; discriminate.
Qed.

(** C7, amended.  The handler validates the presence of [sessionId],
    [studentId] and [location] and nothing about the coordinates.  When the
    reported and the stored coordinates are numbers, in range or not, an
    attempt on a stored session that has not expired gets to step 3 and the
    distance is computed from the reported values.  The response is
    [OutOfRange] with that distance unless the distance is at most the
    radius (so also when the distance is [NaN]); within the radius it is
    [AlreadyMarked] when the student has a document for the session, and
    otherwise success with that distance, or 500 when the request has no
    [studentEmail] or the session no [courseName], which [add] refuses. *)
Theorem mark_validates_presence_only
    (calculateDistance : number -> number -> number -> number -> number)
    (Date_parse : string -> option Z) (docPath : string -> option string)
    (db : Db) (a : Attempt) :
  (snd (mark calculateDistance Date_parse docPath db a) = MissingFields
   <-> truthy_str (MarkBody.sessionId (body a)) = false
       \/ truthy_str (MarkBody.studentId (body a)) = false
       \/ MarkBody.location (body a) = None)
  /\ forall (sessionId studentId : string) (location sloc : Location)
            (session : SessionDoc.t) (lat lon slat slon : number),
       reachesGeofence Date_parse docPath db a sessionId studentId location session sloc
         lat lon slat slon ->
       let d := calculateDistance lat lon slat slon in
       snd (mark calculateDistance Date_parse docPath db a)
       = if number_leb d (allowedRadius sloc) then
           match existingAttendance sessionId studentId (attendance db) with
           | [] =>
               match MarkBody.studentEmail (body a), SessionDoc.courseName session with
               | Some _, Some courseName => Marked (Some courseName) d
               | _, _ => ServerError
               end
           | _ :: _ => AlreadyMarked
           end
         else OutOfRange d (allowedRadius sloc).
Proof.
  split; [apply mark_MissingFields_iff|].
  intros sid stid loc sloc session lat lon slat slon H d. subst d.
  rewrite (mark_geofence _ _ _ _ _ _ _ _ _ _ _ _ _ _ H). unfold geofence_response.
  destruct (MarkBody.studentEmail (body a)), (SessionDoc.courseName session); reflexivity.
Qed.

Lemma mark_validates_presence_only_witness :
  snd (mark guideDistance guideDate guideDocPath classDb
         (scan "S1" offTheGlobe 1767225700000))
  = OutOfRange (Fin 19490) (Fin 50).
Proof.
  refine (proj2 (mark_validates_presence_only guideDistance guideDate guideDocPath classDb
                   (scan "S1" offTheGlobe 1767225700000))
            "SESSION_1"%string "S1"%string offTheGlobe classroom mathsSession
            (Fin 200) (Fin 500) (Fin 18.516726) (Fin 73.856255) _).
  unfold reachesGeofence, wellFormed, stored.
  repeat split; try discriminate. eexists. split; reflexivity.
Defined.

(** ** Order of the checks *)

(** C4. An attempt on a stored session whose expiry has passed is answered
    [Expired] whatever the reported position, so also when the position is
    outside the geofence: the expiry test comes first. *)
Theorem expiry_before_geofence
    (calculateDistance : number -> number -> number -> number -> number)
    (Date_parse : string -> option Z) (docPath : string -> option string)
    (db : Db) (a : Attempt) (sessionId studentId : string) (location : Location)
    (session : SessionDoc.t) (expiresAt : Z) :
  wellFormed a sessionId studentId location ->
  stored docPath db sessionId session ->
  new_Date Date_parse (SessionDoc.expiresAt session) = Some expiresAt ->
  expiresAt < now a ->
  mark calculateDistance Date_parse docPath db a = (db, Expired).
Proof.
  intros Hwf (ref & Hp & Hs) He Hlt. rewrite (mark_wellFormed _ _ _ _ _ _ _ _ _ Hwf Hp), Hs.
  unfold mark_session. rewrite He. simpl.
  apply Z.ltb_lt in Hlt. rewrite Hlt. reflexivity.
Qed.

(** One millisecond after the expiry, 19490 m away from the class. *)
Lemma expiry_before_geofence_witness :
  valid (verifyLocation guideDistance (Fin 18.62) (Fin 74.0)
           (Fin 18.516726) (Fin 73.856255) (Fin 50)) = false
  /\ mark guideDistance guideDate guideDocPath classDb (scan "S1" farAway 1767226500001)
     = (classDb, Expired).
Proof.
  split; [reflexivity|].
  apply (expiry_before_geofence guideDistance guideDate guideDocPath classDb
           (scan "S1" farAway 1767226500001) "SESSION_1" "S1" farAway
           mathsSession 1767226500000).
  - repeat split; discriminate.
  - eexists. split; reflexivity.
  - reflexivity.
  - simpl. lia.
Defined.

(** ** The [active] flag *)

(** An attempt that passes the five steps. *)
Lemma mark_succeeds cd dp ph db a sid stid loc session sloc email cn lat lon :
  wellFormed a sid stid loc ->
  stored ph db sid session ->
  Date_gt (Some (now a)) (new_Date dp (SessionDoc.expiresAt session)) = false ->
  SessionDoc.location session = Some sloc ->
  latitude loc = Some lat -> longitude loc = Some lon ->
  number_leb (cd lat lon (toNumber (latitude sloc)) (toNumber (longitude sloc)))
             (allowedRadius sloc) = true ->
  existingAttendance sid stid (attendance db) = [] ->
  MarkBody.studentEmail (body a) = Some email ->
  SessionDoc.courseName session = Some cn ->
  let d := cd lat lon (toNumber (latitude sloc)) (toNumber (longitude sloc)) in
  mark cd dp ph db a =
    (mkDb (sessions db)
       (attendance db
        ++ [AttendanceDoc.mk sid stid (Some email) (Some cn) (markedAt a) d
              (Some lat) (Some lon)]),
     Marked (Some cn) d).
Proof.
  intros Hwf (ref & Hp & Hs) He Hl Hlat Hlon Hv Hx Hem Hcn d. subst d.
  rewrite (mark_wellFormed _ _ _ _ _ _ _ _ _ Hwf Hp), Hs.
  unfold mark_session. rewrite He, Hl. unfold verifyLocation. cbn [valid].
  rewrite Hlat, Hlon. cbn [toNumber]. rewrite Hv. cbn [negb mark_resume]. rewrite Hx.
  unfold mark_existing, attendance_defined, attendanceData.
  cbn [AttendanceDoc.studentEmail AttendanceDoc.courseName
       AttendanceDoc.latitude AttendanceDoc.longitude distance].
  rewrite Hem, Hcn, Hlat, Hlon. cbn [mark_resume response_of distance]. rewrite Hcn.
  reflexivity.
Qed.

(** C9. The handler never reads [active].  Two stores that differ only in
    the [active] flag of one session give every attempt the same response
    and the same attendance collection.  And a session with [active = false]
    that has not expired admits a student in range who has no mark yet: the
    request, which has to carry the [studentEmail] and the two coordinates
    that the attendance document needs, is answered with success, and the
    document is added to the collection. *)
Theorem mark_ignores_active
    (calculateDistance : number -> number -> number -> number -> number)
    (Date_parse : string -> option Z) (docPath : string -> option string) :
  (forall (ss : gmap string SessionDoc.t) (att : list AttendanceDoc.t)
          (id : string) (s : SessionDoc.t) (b : bool) (a : Attempt),
      let r1 := mark calculateDistance Date_parse docPath (mkDb (<[id := s]> ss) att) a in
      let r2 := mark calculateDistance Date_parse docPath
                  (mkDb (<[id := with_active b s]> ss) att) a in
      snd r1 = snd r2 /\ attendance (fst r1) = attendance (fst r2))
  /\ (forall (db : Db) (a : Attempt) (sessionId studentId email courseName : string)
             (location sloc : Location) (session : SessionDoc.t) (lat lon : number),
        wellFormed a sessionId studentId location ->
        stored docPath db sessionId session ->
        SessionDoc.active session = false ->
        Date_gt (Some (now a)) (new_Date Date_parse (SessionDoc.expiresAt session)) = false ->
        SessionDoc.location session = Some sloc ->
        SessionDoc.courseName session = Some courseName ->
        MarkBody.studentEmail (body a) = Some email ->
        latitude location = Some lat -> longitude location = Some lon ->
        let d := calculateDistance lat lon
                   (toNumber (latitude sloc)) (toNumber (longitude sloc)) in
        number_leb d (allowedRadius sloc) = true ->
        existingAttendance sessionId studentId (attendance db) = [] ->
        mark calculateDistance Date_parse docPath db a
        = (mkDb (sessions db)
             (attendance db
              ++ [AttendanceDoc.mk sessionId studentId (Some email) (Some courseName)
                    (markedAt a) d (Some lat) (Some lon)]),
           Marked (Some courseName) d)).
Proof.
  split.
  - intros ss att id s b a r1 r2. subst r1 r2. unfold mark.
    destruct (mark_start docPath a) as [a' ref sid stid loc| | |r];
      cbn [mark_resume sessions attendance].
    + destruct (decide (id = ref)) as [->|Hne].
      * rewrite !lookup_insert_eq.
        unfold mark_session, mark_existing, verifyLocation, attendance_defined, attendanceData.
        cbn [with_active SessionDoc.expiresAt SessionDoc.location SessionDoc.courseName valid
             AttendanceDoc.studentEmail AttendanceDoc.courseName
             AttendanceDoc.latitude AttendanceDoc.longitude].
        destruct (Date_gt _ _); [split; reflexivity|].
        destruct (SessionDoc.location s) as [sloc|]; [|split; reflexivity].
        destruct (number_leb _ _); cbn [negb].
        -- cbn [mark_resume attendance].
           unfold mark_existing, attendance_defined, attendanceData.
           cbn [with_active SessionDoc.courseName
                AttendanceDoc.studentEmail AttendanceDoc.courseName
                AttendanceDoc.latitude AttendanceDoc.longitude].
           destruct (existingAttendance sid stid att); [|split; reflexivity].
           destruct (MarkBody.studentEmail (body a')), (SessionDoc.courseName s),
             (latitude loc), (longitude loc); split; reflexivity.
        -- destruct (latitude loc), (longitude loc), (latitude sloc), (longitude sloc);
             split; reflexivity.
      * rewrite !lookup_insert_ne by assumption.
        destruct (mark_session _ _ a' sid stid loc (ss !! ref)) as [| | |r] eqn:E;
          cbn [mark_resume sessions attendance]; try (split; reflexivity).
        -- destruct (mark_session_not_AwaitSession _ _ _ _ _ _ _ _ _ _ _ _ E).
        -- unfold mark_existing.
           destruct (existingAttendance _ _ att); [|split; reflexivity].
           cbn zeta. destruct (attendance_defined _); split; reflexivity.
    + unfold mark_existing.
      destruct (existingAttendance _ _ att); [|split; reflexivity].
      cbn zeta. destruct (attendance_defined _); split; reflexivity.
    + split; reflexivity.
    + split; reflexivity.
  - intros db a sid stid email cn loc sloc session lat lon Hwf Hs _ He Hl Hcn Hem Hlat Hlon d
           Hv Hx.
    apply (mark_succeeds calculateDistance Date_parse docPath db a sid stid loc session sloc
             email cn lat lon Hwf Hs He Hl Hlat Hlon Hv Hx Hem Hcn).
Qed.

(** A session stored with [active = false], before its expiry, scanned on
    the spot. *)
Lemma mark_ignores_active_witness :
  mark guideDistance guideDate guideDocPath (oneSession (with_active false mathsSession))
    (scan "S1" classroom 1767225700000)
  = (mkDb (sessions (oneSession (with_active false mathsSession)))
       [AttendanceDoc.mk "SESSION_1" "S1" (Some "student@example.org"%string)
          (Some "Maths"%string) 1767225700001 (Fin 0)
          (Some (Fin 18.516726)) (Some (Fin 73.856255))],
     Marked (Some "Maths"%string) (Fin 0)).
Proof.
  refine (proj2 (mark_ignores_active guideDistance guideDate guideDocPath)
            (oneSession (with_active false mathsSession))
            (scan "S1" classroom 1767225700000) "SESSION_1"%string "S1"%string
            "student@example.org"%string "Maths"%string
            classroom classroom (with_active false mathsSession)
            (Fin 18.516726) (Fin 73.856255) _ _ _ _ _ _ _ _ _ _ _).
  - repeat split; discriminate.
  - eexists. split; reflexivity.
  - reflexivity.
  - reflexivity.
  - reflexivity.
  - reflexivity.
  - reflexivity.
  - reflexivity.
  - reflexivity.
  - reflexivity.
  - reflexivity.
Defined.

(** ** Creating sessions *)

(** The document that [POST /session] stores for a body that has its six
    fields. *)
Lemma sessionDoc_fields clock (b : SessionBody.t) :
  sessionDoc clock b
  = SessionDoc.mk (SessionBody.sessionId b) (SessionBody.courseName b)
      (SessionBody.teacherId b) (SessionBody.teacherEmail b) (SessionBody.location b)
      (SessionBody.expiresAt b) clock true.
Proof. reflexivity. Qed.

Lemma createSession_valid ph clock (b : SessionBody.t) db id ref :
  SessionBody.sessionId b = Some id -> id <> EmptyString ->
  truthy_str (SessionBody.courseName b) = true ->
  truthy_str (SessionBody.teacherId b) = true ->
  is_Some (SessionBody.location b) ->
  is_Some (SessionBody.teacherEmail b) ->
  is_Some (SessionBody.expiresAt b) ->
  ph id = Some ref ->
  createSession ph clock b db
  = (mkDb (<[ref := sessionDoc clock b]> (sessions db)) (attendance db), SessionCreated id).
Proof.
  intros Hid Hne Hc Ht Hl [te Hte] [ex Hex] Hp. unfold createSession. rewrite Hid, Hc, Ht.
  rewrite (bool_decide_eq_true_2 _ Hl). destruct id; [congruence|].
  cbn [truthy_str negb orb]. rewrite Hp.
  unfold session_defined, sessionDoc.
  cbn [SessionDoc.sessionId SessionDoc.courseName SessionDoc.teacherId
       SessionDoc.teacherEmail SessionDoc.location SessionDoc.expiresAt].
  rewrite Hid, Hte, Hex. destruct Hl as [l ->].
  destruct (SessionBody.courseName b); [|discriminate].
  destruct (SessionBody.teacherId b); [|discriminate]. reflexivity.
Qed.

(** A body that passes the required-field test is refused by the store when
    its id names no document or when a field of the document is missing. *)
Lemma createSession_refused ph clock (b : SessionBody.t) db id :
  SessionBody.sessionId b = Some id -> id <> EmptyString ->
  truthy_str (SessionBody.courseName b) = true ->
  truthy_str (SessionBody.teacherId b) = true ->
  is_Some (SessionBody.location b) ->
  SessionBody.teacherEmail b = None \/ SessionBody.expiresAt b = None \/ ph id = None ->
  createSession ph clock b db = (db, SessionServerError).
Proof.
  intros Hid Hne Hc Ht Hl H. unfold createSession. rewrite Hid, Hc, Ht.
  rewrite (bool_decide_eq_true_2 _ Hl). destruct id; [congruence|].
  cbn [truthy_str negb orb]. destruct (ph _) as [ref|]; [|reflexivity].
  unfold session_defined, sessionDoc.
  cbn [SessionDoc.sessionId SessionDoc.courseName SessionDoc.teacherId
       SessionDoc.teacherEmail SessionDoc.location SessionDoc.expiresAt].
  destruct H as [H | [H | H]]; [| |discriminate]; rewrite H;
    destruct (SessionBody.sessionId b), (SessionBody.courseName b),
      (SessionBody.teacherId b), (SessionBody.teacherEmail b),
      (SessionBody.location b), (SessionBody.expiresAt b); reflexivity || discriminate.
Qed.

(** A stored session whose [expiresAt] is missing or is no date is never
    answered [Expired]. *)
Lemma mark_never_Expired cd dp ph db a sid session :
  MarkBody.sessionId (body a) = Some sid ->
  stored ph db sid session ->
  new_Date dp (SessionDoc.expiresAt session) = None ->
  snd (mark cd dp ph db a) <> Expired.
Proof.
  intros Ha (ref & Hp & Hs) He. unfold mark, mark_start. rewrite Ha.
  destruct (_ || _ || _); [discriminate|].
  destruct (MarkBody.studentId (body a)) as [stid|]; [|discriminate].
  destruct (MarkBody.location (body a)) as [loc|]; [|discriminate].
  rewrite Hp. cbn [mark_resume]. rewrite Hs. unfold mark_session.
  rewrite He. cbn [Date_gt].
  destruct (SessionDoc.location _) as [sloc|]; [|discriminate].
  destruct (negb _).
  - destruct (latitude loc), (longitude loc), (latitude sloc), (longitude sloc);
      discriminate.
  - cbn [mark_resume]. unfold mark_existing. destruct (existingAttendance _ _ _); [|discriminate].
    cbn zeta. destruct (attendance_defined _); discriminate.
Qed.

(** C10, as stated, fails: [expiresAt] is not among the fields that the
    handler tests, but [set] refuses a document with an [undefined] field.
    A body without [expiresAt] is answered with 500, whatever its id names,
    and no session is stored. *)
Lemma createSession_without_expiresAt_fails :
  SessionBody.expiresAt openEndedBody = None
  /\ forall docPath : string -> option string,
       createSession docPath 1767225600000 openEndedBody classDb
       = (classDb, SessionServerError).
Proof.
  split; [reflexivity|]. intros docPath.
  apply (createSession_refused docPath 1767225600000 openEndedBody classDb "SESSION_2").
  - reflexivity.
  - discriminate.
  - reflexivity.
  - reflexivity.
  - eexists. reflexivity.
  - right. left. reflexivity.
Qed.

(** C10, amended.  [POST /session] does not test [expiresAt], but a body
    without it is answered with 500 and nothing is stored.  A body whose
    [expiresAt] is a string that is no date is stored as it is.  A stored
    session whose [expiresAt] is missing or is no date never expires:
    [new Date] of it is an invalid date and [now > expiryDate] is false, so
    no attempt is answered [Expired], and an attempt with numbers for the
    coordinates gets the response of steps 3 to 5 whatever the clock
    reads. *)
Theorem session_without_valid_expiry_never_expires
    (calculateDistance : number -> number -> number -> number -> number)
    (Date_parse : string -> option Z) (docPath : string -> option string) :
  (forall (clock : Z) (b : SessionBody.t) (db : Db) (id : string),
      SessionBody.sessionId b = Some id -> id <> EmptyString ->
      truthy_str (SessionBody.courseName b) = true ->
      truthy_str (SessionBody.teacherId b) = true ->
      is_Some (SessionBody.location b) ->
      SessionBody.expiresAt b = None ->
      createSession docPath clock b db = (db, SessionServerError))
  /\ (forall (clock : Z) (b : SessionBody.t) (db : Db)
             (id sessionRef expiresAt : string),
        SessionBody.sessionId b = Some id -> id <> EmptyString ->
        truthy_str (SessionBody.courseName b) = true ->
        truthy_str (SessionBody.teacherId b) = true ->
        is_Some (SessionBody.location b) ->
        is_Some (SessionBody.teacherEmail b) ->
        docPath id = Some sessionRef ->
        SessionBody.expiresAt b = Some expiresAt ->
        Date_parse expiresAt = None ->
        let created := createSession docPath clock b db in
        snd created = SessionCreated id
        /\ stored docPath (fst created) id
             (SessionDoc.mk (Some id) (SessionBody.courseName b) (SessionBody.teacherId b)
                (SessionBody.teacherEmail b) (SessionBody.location b) (Some expiresAt)
                clock true))
  /\ (forall (db : Db) (a : Attempt) (sessionId studentId : string)
             (location sloc : Location) (session : SessionDoc.t)
             (lat lon slat slon : number),
        wellFormed a sessionId studentId location ->
        stored docPath db sessionId session ->
        new_Date Date_parse (SessionDoc.expiresAt session) = None ->
        SessionDoc.location session = Some sloc ->
        latitude location = Some lat -> longitude location = Some lon ->
        latitude sloc = Some slat -> longitude sloc = Some slon ->
        snd (mark calculateDistance Date_parse docPath db a)
        = geofence_response (MarkBody.studentEmail (body a)) (SessionDoc.courseName session)
            (existingAttendance sessionId studentId (attendance db))
            (calculateDistance lat lon slat slon) (allowedRadius sloc))
  /\ (forall (db : Db) (a : Attempt) (sessionId : string) (session : SessionDoc.t),
        MarkBody.sessionId (body a) = Some sessionId ->
        stored docPath db sessionId session ->
        new_Date Date_parse (SessionDoc.expiresAt session) = None ->
        snd (mark calculateDistance Date_parse docPath db a) <> Expired).
Proof.
  split; [|split; [|split]].
  - intros clock b db id Hid Hne Hc Ht Hl He.
    apply (createSession_refused docPath clock b db id Hid Hne Hc Ht Hl). auto.
  - intros clock b db id ref e Hid Hne Hc Ht Hl Hte Hp He _ created. subst created.
    rewrite (createSession_valid docPath clock b db id ref Hid Hne Hc Ht Hl Hte
               ltac:(rewrite He; eexists; reflexivity) Hp).
    cbn [fst snd]. split; [reflexivity|].
    exists ref. split; [exact Hp|]. cbn [sessions]. rewrite lookup_insert_eq.
    rewrite sessionDoc_fields, Hid, He. reflexivity.
  - intros db a sid stid loc sloc session lat lon slat slon Hwf Hs He Hl Hlat Hlon Hslat Hslon.
    apply (mark_geofence _ _ _ _ _ sid stid loc session sloc lat lon slat slon).
    unfold reachesGeofence. rewrite He. cbn [Date_gt]. auto 10.
  - intros db a sid session. apply mark_never_Expired.
Qed.

(** A class created with the text [never] for [expiresAt], scanned on the
    spot in the year 2100. *)
Lemma session_without_valid_expiry_never_expires_witness :
  let created := createSession guideDocPath 1767225600000 foreverBody classDb in
  snd created = SessionCreated "SESSION_2"
  /\ snd (mark guideDistance guideDate guideDocPath (fst created)
            (mkAttempt (MarkBody.mk (Some "SESSION_2"%string) (Some "S1"%string)
                          (Some "student@example.org"%string) (Some classroom))
               4102444800000 4102444800001))
     = Marked (Some "Physics"%string) (Fin 0).
Proof.
  intros created.
  destruct (session_without_valid_expiry_never_expires guideDistance guideDate guideDocPath)
    as (_ & H2 & H3 & _).
  destruct (H2 1767225600000 foreverBody classDb "SESSION_2"%string "SESSION_2"%string
              "never"%string) as (Hr & Hs).
  - reflexivity.
  - discriminate.
  - reflexivity.
  - reflexivity.
  - eexists. reflexivity.
  - eexists. reflexivity.
  - reflexivity.
  - reflexivity.
  - reflexivity.
  - split; [exact Hr|].
    refine (H3 (fst created) _ "SESSION_2"%string "S1"%string classroom classroom _
              (Fin 18.516726) (Fin 73.856255) (Fin 18.516726) (Fin 73.856255)
              _ Hs _ _ _ _ _ _).
    + repeat split; discriminate.
    + reflexivity.
    + reflexivity.
    + reflexivity.
    + reflexivity.
    + reflexivity.
    + reflexivity.
Defined.

(** C3, as stated, fails: [doc(sessionId).set(..)] writes whether or not the
    document exists.  Creating [SESSION_1] again is answered with success
    and replaces the stored session. *)
Lemma createSession_existing_id_replaces :
  sessions classDb !! "SESSION_1"%string = Some mathsSession
  /\ snd (createSession guideDocPath 1767225660000 physicsBody classDb)
     = SessionCreated "SESSION_1"
  /\ sessions (fst (createSession guideDocPath 1767225660000 physicsBody classDb))
       !! "SESSION_1"%string
     = Some (SessionDoc.mk (Some "SESSION_1"%string) (Some "Physics"%string)
               (Some "T2"%string) (Some "t2@example.org"%string) (Some farAway)
               (Some "2026-01-01T00:15:00.000Z"%string) 1767225660000 true)
  /\ SessionDoc.courseName mathsSession <> Some "Physics"%string.
Proof.
  split; [reflexivity|]. split; [reflexivity|]. split; [reflexivity|]. discriminate.
Qed.

(** C3, amended.  There is no duplicate-id error.  A body with a non-empty
    [sessionId], [courseName] and [teacherId], with a [location], a
    [teacherEmail] and an [expiresAt], whose id names a document, is
    answered with success whether or not that document exists: the document
    made of the six fields, the time of the request and [active = true] is
    then the one stored there (an earlier one is replaced), the other
    sessions and the attendance collection are unchanged.  A body that
    lacks one of the first four fields is answered 'Missing required
    fields'; one that has them but lacks [teacherEmail] or [expiresAt], or
    whose id names no document, is answered with 500.  Neither writes
    anything. *)
Theorem createSession_overwrites (docPath : string -> option string)
    (clock : Z) (b : SessionBody.t) (db : Db) :
  (forall id sessionRef : string,
      SessionBody.sessionId b = Some id -> id <> EmptyString ->
      truthy_str (SessionBody.courseName b) = true ->
      truthy_str (SessionBody.teacherId b) = true ->
      is_Some (SessionBody.location b) ->
      is_Some (SessionBody.teacherEmail b) ->
      is_Some (SessionBody.expiresAt b) ->
      docPath id = Some sessionRef ->
      let created := createSession docPath clock b db in
      snd created = SessionCreated id
      /\ sessions (fst created) !! sessionRef
         = Some (SessionDoc.mk (Some id) (SessionBody.courseName b)
                   (SessionBody.teacherId b) (SessionBody.teacherEmail b)
                   (SessionBody.location b) (SessionBody.expiresAt b) clock true)
      /\ (forall ref' : string, ref' <> sessionRef ->
            sessions (fst created) !! ref' = sessions db !! ref')
      /\ attendance (fst created) = attendance db)
  /\ (truthy_str (SessionBody.sessionId b) = false
      \/ truthy_str (SessionBody.courseName b) = false
      \/ truthy_str (SessionBody.teacherId b) = false
      \/ SessionBody.location b = None ->
      createSession docPath clock b db = (db, SessionMissingFields))
  /\ (forall id : string,
        SessionBody.sessionId b = Some id -> id <> EmptyString ->
        truthy_str (SessionBody.courseName b) = true ->
        truthy_str (SessionBody.teacherId b) = true ->
        is_Some (SessionBody.location b) ->
        SessionBody.teacherEmail b = None \/ SessionBody.expiresAt b = None
        \/ docPath id = None ->
        createSession docPath clock b db = (db, SessionServerError)).
Proof.
  split; [|split].
  - intros id ref Hid Hne Hc Ht Hl Hte Hex Hp created. subst created.
    rewrite (createSession_valid docPath clock b db id ref Hid Hne Hc Ht Hl Hte Hex Hp).
    cbn [fst snd sessions attendance].
    split; [reflexivity|]. split; [rewrite lookup_insert_eq, sessionDoc_fields, Hid;
                                   reflexivity|].
    split; [|reflexivity]. intros ref' Hne'. apply lookup_insert_ne. congruence.
  - intros H. unfold createSession.
    destruct H as [-> | [-> | [-> | ->]]]; cbn [negb orb];
      rewrite ?orb_true_r; reflexivity.
  - intros id. apply createSession_refused.
Qed.

(** A second creation of [SESSION_1]. *)
Lemma createSession_overwrites_witness :
  let created := createSession guideDocPath 1767225660000 physicsBody classDb in
  snd created = SessionCreated "SESSION_1"
  /\ sessions (fst created) !! "SESSION_1"%string
     = Some (SessionDoc.mk (Some "SESSION_1"%string) (Some "Physics"%string)
               (Some "T2"%string) (Some "t2@example.org"%string) (Some farAway)
               (Some "2026-01-01T00:15:00.000Z"%string) 1767225660000 true)
  /\ (forall ref' : string, ref' <> "SESSION_1"%string ->
        sessions (fst created) !! ref' = sessions classDb !! ref')
  /\ attendance (fst created) = attendance classDb.
Proof.
  refine (proj1 (createSession_overwrites guideDocPath 1767225660000 physicsBody classDb)
            "SESSION_1"%string "SESSION_1"%string _ _ _ _ _ _ _ _).
  - reflexivity.
  - discriminate.
  - reflexivity.
  - reflexivity.
  - eexists. reflexivity.
  - eexists. reflexivity.
  - eexists. reflexivity.
  - reflexivity.
Defined.

(** ** One mark per student and session *)

Lemma same_mark_true sid stid r :
  same_mark sid stid r = true
  <-> AttendanceDoc.sessionId r = sid /\ AttendanceDoc.studentId r = stid.
Proof.
  unfold same_mark. rewrite andb_true_iff, !String.eqb_eq. reflexivity.
Qed.

Lemma existingAttendance_app sid stid l l' :
  existingAttendance sid stid (l ++ l')
  = existingAttendance sid stid l ++ existingAttendance sid stid l'.
Proof. apply List.filter_app. Qed.

(** Adding a document for a pair that has none keeps the pairs unique. *)
Lemma unique_marks_add l r :
  unique_marks l ->
  existingAttendance (AttendanceDoc.sessionId r) (AttendanceDoc.studentId r) l = [] ->
  unique_marks (l ++ [r]).
Proof.
  intros Hu Hr sid stid. rewrite existingAttendance_app, length_app.
  unfold existingAttendance at 2. cbn [List.filter].
  destruct (same_mark sid stid r) eqn:E.
  - apply same_mark_true in E as [<- <-]. rewrite Hr. simpl. lia.
  - specialize (Hu sid stid). simpl. lia.
Qed.

Lemma mark_keeps_unique cd dp ph db a :
  unique_marks (attendance db) -> unique_marks (attendance (fst (mark cd dp ph db a))).
Proof.
  intros Hu. destruct (mark_has_effect cd dp ph db a); cbn [fst attendance].
  - assumption.
  - apply unique_marks_add; assumption.
Qed.

Lemma mark_all_keeps_unique cd dp ph l : forall db,
  unique_marks (attendance db) -> unique_marks (attendance (fst (mark_all cd dp ph db l))).
Proof.
  induction l as [|a l IH]; intros db Hu; [exact Hu|].
  cbn [mark_all]. pose proof (mark_keeps_unique cd dp ph db a Hu) as Hu1.
  destruct (mark cd dp ph db a) as [db' r]. cbn [fst] in Hu1.
  specialize (IH db' Hu1). destruct (mark_all cd dp ph db' l) as [db'' rs]. exact IH.
Qed.

(** C1. Attempts handled one after another keep at most one attendance
    document for each (session, student) pair.  An attempt that succeeds and
    is made again at once is answered [AlreadyMarked] and writes nothing.
    No attempt of a student who already has a document for the session
    succeeds or writes, whatever its position and its time; when it is in
    time and in range, so that it gets to step 4, it is answered
    [AlreadyMarked]. *)
Theorem marks_stay_unique
    (calculateDistance : number -> number -> number -> number -> number)
    (Date_parse : string -> option Z) (docPath : string -> option string) :
  (forall (db : Db) (l : list Attempt),
      unique_marks (attendance db) ->
      unique_marks (attendance (fst (mark_all calculateDistance Date_parse docPath db l))))
  /\ (forall (db : Db) (a : Attempt) cn d,
        snd (mark calculateDistance Date_parse docPath db a) = Marked cn d ->
        let db' := fst (mark calculateDistance Date_parse docPath db a) in
        mark calculateDistance Date_parse docPath db' a = (db', AlreadyMarked))
  /\ (forall (db : Db) (a : Attempt) (sessionId studentId : string),
        MarkBody.sessionId (body a) = Some sessionId ->
        MarkBody.studentId (body a) = Some studentId ->
        existingAttendance sessionId studentId (attendance db) <> [] ->
        fst (mark calculateDistance Date_parse docPath db a) = db
        /\ forall cn d, snd (mark calculateDistance Date_parse docPath db a) <> Marked cn d)
  /\ (forall (db : Db) (a : Attempt) (sessionId studentId : string)
             (location sloc : Location) (session : SessionDoc.t) (lat lon slat slon : number),
        reachesGeofence Date_parse docPath db a sessionId studentId location session sloc
          lat lon slat slon ->
        number_leb (calculateDistance lat lon slat slon) (allowedRadius sloc) = true ->
        existingAttendance sessionId studentId (attendance db) <> [] ->
        mark calculateDistance Date_parse docPath db a = (db, AlreadyMarked)).
Proof.
  assert (Hkept : forall (db : Db) (a : Attempt) (sid stid : string),
             MarkBody.sessionId (body a) = Some sid ->
             MarkBody.studentId (body a) = Some stid ->
             existingAttendance sid stid (attendance db) <> [] ->
             fst (mark calculateDistance Date_parse docPath db a) = db
             /\ forall cn d, snd (mark calculateDistance Date_parse docPath db a) <> Marked cn d).
  { intros db a sid stid Hs Ht Hx.
    destruct (mark_has_effect calculateDistance Date_parse docPath db a) as [r Hr|rec cn d Hs' Ht' Hx'].
    - split; [reflexivity|exact Hr].
    - exfalso. apply Hx. congruence. }
  split; [|split; [|split]].
  - intros db l. apply mark_all_keeps_unique.
  - intros db a cn d H db'. subst db'.
    destruct (mark_Marked_inv _ _ _ _ _ _ _ H) as (ref & sid & stid & loc & session & check
                                                    & Hst & Hms & Hx & Hd & _ & _).
    rewrite (mark_passed _ _ _ db a ref sid stid loc session check Hst Hms), Hx, Hd.
    cbn [fst].
    rewrite (mark_passed _ _ _ (mkDb (sessions db) _) a ref sid stid loc session check
               Hst Hms).
    cbn [attendance]. rewrite existingAttendance_app, Hx.
    unfold existingAttendance at 1. cbn [List.filter app].
    replace (same_mark sid stid _) with true; [reflexivity|].
    symmetry. apply same_mark_true. split; reflexivity.
  - exact Hkept.
  - intros db a sid stid loc sloc session lat lon slat slon H Hin Hx.
    pose proof (mark_geofence calculateDistance _ _ _ _ _ _ _ _ _ _ _ _ _ H) as Hr.
    destruct H as ((Hs & _ & Ht & _ & _) & _).
    destruct (Hkept db a sid stid Hs Ht Hx) as [Hdb _].
    unfold geofence_response in Hr. rewrite Hin in Hr.
    destruct (existingAttendance sid stid (attendance db)); [congruence|].
    destruct (mark calculateDistance Date_parse docPath db a) as [db' r].
    cbn [fst snd] in *. congruence.
Qed.

(** A student scans twice in a row, then a second student scans. *)
Lemma marks_stay_unique_witness :
  let l := [scan "S1" classroom 1767225700000; scan "S1" classroom 1767225700000;
            scan "S2" classroom 1767225800000] in
  unique_marks (attendance (fst (mark_all guideDistance guideDate guideDocPath classDb l)))
  /\ snd (mark_all guideDistance guideDate guideDocPath classDb l)
     = [Marked (Some "Maths"%string) (Fin 0); AlreadyMarked;
        Marked (Some "Maths"%string) (Fin 0)].
Proof.
  intros l. split; [|reflexivity].
  apply (proj1 (marks_stay_unique guideDistance guideDate guideDocPath) classDb l).
  intros sid stid. simpl. lia.
Defined.

(** ** Two handlers in flight *)

(** C2 fails on the code.  Take two attempts of one student for one session,
    each of which would succeed if it ran alone on the store.  When the
    store answers the two duplicate queries before either write, both
    handlers see an empty result, both write and both answer with success:
    the collection then holds two documents for the pair. *)
Theorem concurrent_marks_both_succeed
    (calculateDistance : number -> number -> number -> number -> number)
    (Date_parse : string -> option Z) (docPath : string -> option string)
    (db : Db) (a1 a2 : Attempt) (sessionId studentId : string) cn1 d1 cn2 d2 :
  MarkBody.sessionId (body a1) = Some sessionId ->
  MarkBody.studentId (body a1) = Some studentId ->
  MarkBody.sessionId (body a2) = Some sessionId ->
  MarkBody.studentId (body a2) = Some studentId ->
  snd (mark calculateDistance Date_parse docPath db a1) = Marked cn1 d1 ->
  snd (mark calculateDistance Date_parse docPath db a2) = Marked cn2 d2 ->
  let final := run_schedule calculateDistance Date_parse docPath db [a1; a2] [0; 1; 0; 1; 0; 1]%nat in
  snd final = [Responded (Marked cn1 d1); Responded (Marked cn2 d2)]
  /\ length (existingAttendance sessionId studentId (attendance (fst final))) = 2%nat
  /\ ~ unique_marks (attendance (fst final)).
Proof.
  intros Hs1 Ht1 Hs2 Ht2 H1 H2 final.
  destruct (mark_Marked_inv _ _ _ _ _ _ _ H1)
    as (ref1 & sid1 & stid1 & loc1 & sessionA & check1 & Hst1 & Hms1 & Hx1 & Hd1 & -> & ->).
  destruct (mark_Marked_inv _ _ _ _ _ _ _ H2)
    as (ref2 & sid2 & stid2 & loc2 & sessionB & check2 & Hst2 & Hms2 & Hx2 & Hd2 & -> & ->).
  destruct (mark_start_AwaitSession _ _ _ _ _ _ _ Hst1) as (_ & Hs1' & Ht1' & _).
  destruct (mark_start_AwaitSession _ _ _ _ _ _ _ Hst2) as (_ & Hs2' & Ht2' & _).
  assert (sid1 = sessionId) as -> by congruence.
  assert (stid1 = studentId) as -> by congruence.
  assert (sid2 = sessionId) as -> by congruence.
  assert (stid2 = studentId) as -> by congruence.
  assert (Hfinal : final =
            (mkDb (sessions db)
               ((attendance db ++ [attendanceData a1 sessionId studentId loc1 sessionA check1])
                ++ [attendanceData a2 sessionId studentId loc2 sessionB check2]),
             [Responded (Marked (SessionDoc.courseName sessionA) (distance check1));
              Responded (Marked (SessionDoc.courseName sessionB) (distance check2))])).
  { subst final. unfold run_schedule, resume_nth.
    cbn [map fold_left fst snd lookup list_lookup]. rewrite Hst1, Hst2.
    cbn [mark_resume insert list_insert fst snd lookup list_lookup].
    rewrite Hms1, Hms2.
    cbn [mark_resume insert list_insert fst snd lookup list_lookup].
    rewrite Hx1. unfold mark_existing. rewrite Hd1, Hd2. reflexivity. }
  rewrite Hfinal. cbn [fst snd attendance].
  assert (Hlen : length (existingAttendance sessionId studentId
                   ((attendance db ++ [attendanceData a1 sessionId studentId loc1 sessionA check1])
                    ++ [attendanceData a2 sessionId studentId loc2 sessionB check2])) = 2%nat).
  { rewrite !existingAttendance_app, Hx1. unfold existingAttendance.
    cbn [List.filter app].
    replace (same_mark sessionId studentId (attendanceData a1 _ _ _ _ _)) with true
      by (symmetry; apply same_mark_true; split; reflexivity).
    replace (same_mark sessionId studentId (attendanceData a2 _ _ _ _ _)) with true
      by (symmetry; apply same_mark_true; split; reflexivity).
    reflexivity. }
  split; [reflexivity|]. split; [exact Hlen|].
  intros Hu. specialize (Hu sessionId studentId). rewrite Hlen in Hu. lia.
Qed.

(** Two scans of student [S1], sent together from the classroom. *)
Lemma concurrent_marks_both_succeed_witness :
  let a := scan "S1" classroom 1767225700000 in
  let final := run_schedule guideDistance guideDate guideDocPath classDb [a; a] [0; 1; 0; 1; 0; 1]%nat in
  snd (mark guideDistance guideDate guideDocPath classDb a) = Marked (Some "Maths"%string) (Fin 0)
  /\ snd final = [Responded (Marked (Some "Maths"%string) (Fin 0));
                  Responded (Marked (Some "Maths"%string) (Fin 0))]
  /\ length (existingAttendance "SESSION_1" "S1" (attendance (fst final))) = 2%nat
  /\ ~ unique_marks (attendance (fst final)).
Proof.
  intros a final. split; [reflexivity|].
  apply (concurrent_marks_both_succeed guideDistance guideDate guideDocPath classDb a a
           "SESSION_1" "S1" (Some "Maths"%string) (Fin 0) (Some "Maths"%string) (Fin 0));
    reflexivity.
Defined.

(** * Further properties of the routes *)

(** ** What a request does to the store *)

Lemma mark_sessions cd dp ph db a : sessions (fst (mark cd dp ph db a)) = sessions db.
Proof. destruct (mark_has_effect cd dp ph db a); reflexivity. Qed.

(** [POST /session] writes nothing, or it has a body with its six fields and
    an id that names a document, and writes that document. *)
Lemma createSession_cases ph clock b db :
  fst (createSession ph clock b db) = db
  \/ exists id ref, validSessionBody b id /\ ph id = Some ref
       /\ createSession ph clock b db
          = (mkDb (<[ref := sessionDoc clock b]> (sessions db)) (attendance db),
             SessionCreated id).
Proof.
  unfold createSession, validSessionBody.
  destruct (SessionBody.sessionId b) as [[|c id]|] eqn:Hid; cbn [truthy_str negb orb]; auto.
  destruct (truthy_str (SessionBody.courseName b)) eqn:Hc; cbn [negb orb]; auto.
  destruct (truthy_str (SessionBody.teacherId b)) eqn:Ht; cbn [negb orb]; auto.
  destruct (SessionBody.location b) as [loc|] eqn:Hl; cbn [negb orb]; auto.
  rewrite bool_decide_eq_true_2 by (eexists; reflexivity). cbn [negb].
  destruct (ph _) as [ref|] eqn:Hp; auto.
  unfold session_defined, sessionDoc.
  cbn [SessionDoc.sessionId SessionDoc.courseName SessionDoc.teacherId
       SessionDoc.teacherEmail SessionDoc.location SessionDoc.expiresAt].
  rewrite Hid, Hl.
  destruct (SessionBody.courseName b); [|discriminate].
  destruct (SessionBody.teacherId b); [|discriminate].
  destruct (SessionBody.teacherEmail b); auto.
  destruct (SessionBody.expiresAt b); auto.
  right. exists (String c id), ref.
  repeat split; eauto; discriminate.
Qed.

Lemma serve_all_cons cd dp ph db req reqs :
  serve_all cd dp ph db (req :: reqs) = serve_all cd dp ph (serve cd dp ph db req) reqs.
Proof. reflexivity. Qed.

(** One request that does not post a session under an id that names the
    document at [ref] leaves that document as it is. *)
Lemma serve_keeps_document cd dp ph db req ref :
  ~ creates ph ref req ->
  sessions (serve cd dp ph db req) !! ref = sessions db !! ref.
Proof.
  intros Hreq. destruct req as [clock b|a]; cbn [serve].
  - destruct (createSession_cases ph clock b db) as [->|(id' & ref' & (Hid & _) & Hp & ->)];
      [reflexivity|].
    cbn [fst sessions]. rewrite lookup_insert_ne; [reflexivity|].
    intros ->. apply Hreq. exists id'. auto.
  - rewrite mark_sessions. reflexivity.
Qed.

Lemma serve_all_keeps_document cd dp ph reqs ref : forall db,
  (forall req, In req reqs -> ~ creates ph ref req) ->
  sessions (serve_all cd dp ph db reqs) !! ref = sessions db !! ref.
Proof.
  induction reqs as [|req reqs IH]; intros db Hreqs; [reflexivity|].
  rewrite serve_all_cons, IH by (intros r Hr; apply Hreqs; right; exact Hr).
  apply serve_keeps_document. apply Hreqs. left. reflexivity.
Qed.

(** X1. A stored session outlives the traffic: through any sequence of
    requests that does not post a session under an id that names its
    document, [GET /session/:id] keeps its answer; so a session created from
    a body with its six fields, under an id that names a document, is
    returned as it was created until it is created again. *)
Theorem getSession_stable
    (calculateDistance : number -> number -> number -> number -> number)
    (Date_parse : string -> option Z) (docPath : string -> option string)
    (id : string) (reqs : list Request) :
  (forall req sessionRef, In req reqs -> docPath id = Some sessionRef ->
                          ~ creates docPath sessionRef req) ->
  (forall db : Db,
      getSession docPath id (serve_all calculateDistance Date_parse docPath db reqs)
      = getSession docPath id db)
  /\ (forall (db : Db) (clock : Z) (b : SessionBody.t),
        validSessionBody b id -> is_Some (docPath id) ->
        getSession docPath id
          (serve_all calculateDistance Date_parse docPath
             (fst (createSession docPath clock b db)) reqs)
        = SessionFound
            (SessionDoc.mk (Some id) (SessionBody.courseName b) (SessionBody.teacherId b)
               (SessionBody.teacherEmail b) (SessionBody.location b)
               (SessionBody.expiresAt b) clock true)).
Proof.
  intros Hreqs.
  assert (Hstable : forall db : Db,
             getSession docPath id (serve_all calculateDistance Date_parse docPath db reqs)
             = getSession docPath id db).
  { intros db. unfold getSession. destruct (docPath id) as [ref|] eqn:Hp; [|reflexivity].
    rewrite serve_all_keeps_document; [reflexivity|].
    intros req Hr. apply Hreqs; [exact Hr|reflexivity]. }
  split; [exact Hstable|].
  intros db clock b (Hid & Hne & Hc & Ht & Hl & Hte & Hex) [ref Hp]. rewrite Hstable.
  rewrite (createSession_valid docPath clock b db id ref Hid Hne Hc Ht Hl Hte Hex Hp).
  unfold getSession. rewrite Hp. cbn [fst sessions]. rewrite lookup_insert_eq.
  rewrite sessionDoc_fields, Hid. reflexivity.
Qed.

(** A class is created, two students scan and another class is created. *)
Lemma getSession_stable_witness :
  getSession guideDocPath "SESSION_2"
    (serve_all guideDistance guideDate guideDocPath
       (fst (createSession guideDocPath 1767225600000 foreverBody classDb))
       [PostMark (scan "S1" classroom 1767225700000);
        PostSession 1767225660000 physicsBody;
        PostMark (scan "S2" farAway 1767225800000)])
  = SessionFound
      (SessionDoc.mk (Some "SESSION_2"%string) (Some "Physics"%string) (Some "T1"%string)
         (Some "t1@example.org"%string) (Some classroom) (Some "never"%string)
         1767225600000 true).
Proof.
  refine (proj2 (getSession_stable guideDistance guideDate guideDocPath "SESSION_2" _ _) classDb
            1767225600000 foreverBody _ _).
  - intros req ref [<-|[<-|[<-|[]]]] [= <-]; cbn; auto.
    intros (id' & [= <-] & H). discriminate H.
  - unfold validSessionBody. repeat split; try discriminate; eauto.
  - eexists. reflexivity.
Defined.

(** ** When a mark succeeds *)

Lemma truthy_str_Some s : truthy_str (Some s) = true <-> s <> EmptyString.
Proof. destruct s; cbn; split; congruence. Qed.

(** The course and the effect of a successful attempt. *)
Lemma mark_Marked_inv_full
    (calculateDistance : number -> number -> number -> number -> number)
    (Date_parse : string -> option Z) (docPath : string -> option string)
    (db : Db) (a : Attempt) (cn : option string) (d : number) :
  snd (mark calculateDistance Date_parse docPath db a) = Marked cn d
  -> exists (sessionId studentId email courseName : string) (location sloc : Location)
            (session : SessionDoc.t) (lat lon : number),
        wellFormed a sessionId studentId location
        /\ stored docPath db sessionId session
        /\ Date_gt (Some (now a)) (new_Date Date_parse (SessionDoc.expiresAt session)) = false
        /\ SessionDoc.location session = Some sloc
        /\ MarkBody.studentEmail (body a) = Some email
        /\ SessionDoc.courseName session = Some courseName
        /\ latitude location = Some lat /\ longitude location = Some lon
        /\ d = calculateDistance lat lon
                 (toNumber (latitude sloc)) (toNumber (longitude sloc))
        /\ number_leb d (allowedRadius sloc) = true
        /\ existingAttendance sessionId studentId (attendance db) = []
        /\ cn = Some courseName
        /\ fst (mark calculateDistance Date_parse docPath db a)
           = mkDb (sessions db)
               (attendance db
                ++ [AttendanceDoc.mk sessionId studentId (Some email) (Some courseName)
                      (markedAt a) d (Some lat) (Some lon)]).
Proof.
  unfold mark, mark_start.
  destruct (MarkBody.sessionId (body a)) as [sid|] eqn:Hsid;
    [|cbn; discriminate].
  destruct (truthy_str (Some sid)) eqn:Tsid; [|cbn; discriminate].
  destruct (MarkBody.studentId (body a)) as [stid|] eqn:Hstid;
    [|cbn; discriminate].
  destruct (truthy_str (Some stid)) eqn:Tstid; [|cbn; discriminate].
  destruct (MarkBody.location (body a)) as [loc|] eqn:Hloc; [|cbn; discriminate].
  rewrite bool_decide_eq_true_2 by (eexists; reflexivity).
  cbn [negb orb]. destruct (docPath sid) as [ref|] eqn:Hp; [|cbn; discriminate].
  cbn [mark_resume]. unfold mark_session.
  destruct (sessions db !! ref) as [session|] eqn:Hs; [|cbn; discriminate].
  destruct (Date_gt _ _) eqn:He; [cbn; discriminate|].
  destruct (SessionDoc.location session) as [sloc|] eqn:Hl; [|cbn; discriminate].
  unfold verifyLocation. cbn [valid distance maxDistance].
  destruct (number_leb _ _) eqn:Hv; cbn [negb].
  - cbn [mark_resume]. unfold mark_existing.
    destruct (existingAttendance sid stid (attendance db)) eqn:Hx; [|cbn; discriminate].
    unfold attendance_defined, attendanceData.
    cbn [AttendanceDoc.studentEmail AttendanceDoc.courseName
         AttendanceDoc.latitude AttendanceDoc.longitude distance].
    destruct (MarkBody.studentEmail (body a)) as [email|] eqn:Hem; [|cbn; discriminate].
    destruct (SessionDoc.courseName session) as [courseName|] eqn:Hcn; [|cbn; discriminate].
    destruct (latitude loc) as [lat|] eqn:Hlat; [|cbn; discriminate].
    destruct (longitude loc) as [lon|] eqn:Hlon; [|cbn; discriminate].
    cbn [mark_resume response_of snd fst distance toNumber] in *. rewrite Hcn.
    intros [= <- <-].
    exists sid, stid, email, courseName, loc, sloc, session, lat, lon.
    apply truthy_str_Some in Tsid, Tstid. unfold wellFormed, stored.
    repeat split; eauto.
  - destruct (latitude loc), (longitude loc), (latitude sloc), (longitude sloc);
      cbn; discriminate.
Qed.



(** A successful mark is for a stored session, and the store it leaves. *)
Lemma mark_Marked_store cd dp ph db a cn d :
  snd (mark cd dp ph db a) = Marked cn d ->
  exists rec session,
    stored ph db (AttendanceDoc.sessionId rec) session
    /\ MarkBody.sessionId (body a) = Some (AttendanceDoc.sessionId rec)
    /\ MarkBody.studentId (body a) = Some (AttendanceDoc.studentId rec)
    /\ existingAttendance (AttendanceDoc.sessionId rec) (AttendanceDoc.studentId rec)
         (attendance db) = []
    /\ fst (mark cd dp ph db a) = mkDb (sessions db) (attendance db ++ [rec]).
Proof.
  intros H. apply mark_Marked_inv_full in H
    as (sid & stid & email & courseName & loc & sloc & session & lat & lon
        & (Hsid & _ & Hstid & _) & Hs & _ & _ & _ & _ & _ & _ & _ & _ & Hx & _ & ->).
  refine (ex_intro _ (AttendanceDoc.mk sid stid _ _ _ _ _ _) _). exists session.
  cbn [AttendanceDoc.sessionId AttendanceDoc.studentId]. auto.
Qed.

Lemma mark_not_Marked_store cd dp ph db a :
  (forall cn d, snd (mark cd dp ph db a) <> Marked cn d) -> fst (mark cd dp ph db a) = db.
Proof.
  intros H. destruct (mark_has_effect cd dp ph db a) as [r Hr|rec cn d _ _ _]; [reflexivity|].
  destruct (H cn d). reflexivity.
Qed.

(** ** Invariants of the store under mixed traffic *)

(** What one request does: a session posted keeps the attendance collection
    and writes one session; a mark keeps the sessions and adds at most one
    document, for a stored session and a pair that had none. *)
Lemma serve_effect cd dp ph db req :
  (exists ref s, sessions (serve cd dp ph db req) = <[ref := s]> (sessions db)
                 /\ attendance (serve cd dp ph db req) = attendance db)
  \/ serve cd dp ph db req = db
  \/ exists rec session,
       serve cd dp ph db req = mkDb (sessions db) (attendance db ++ [rec])
       /\ stored ph db (AttendanceDoc.sessionId rec) session
       /\ existingAttendance (AttendanceDoc.sessionId rec) (AttendanceDoc.studentId rec)
            (attendance db) = [].
Proof.
  destruct req as [clock b|a]; cbn [serve].
  - destruct (createSession_cases ph clock b db) as [->|(id & ref & _ & _ & ->)]; [auto|].
    left. eexists _, _. split; reflexivity.
  - destruct (mark cd dp ph db a) as [db' r] eqn:Hm.
    assert (Hr : snd (mark cd dp ph db a) = r) by (rewrite Hm; reflexivity).
    assert (Hdb : fst (mark cd dp ph db a) = db') by (rewrite Hm; reflexivity).
    destruct r as [| | | | |cn d|];
      try (right; left; rewrite <- Hdb; apply mark_not_Marked_store;
           intros cn d; rewrite Hr; discriminate).
    destruct (mark_Marked_store cd dp ph db a cn d Hr)
      as (rec & session & Hs & _ & _ & Hx & Hfst).
    right; right. exists rec, session. cbn [fst]. rewrite <- Hdb, Hfst. auto.
Qed.

Lemma serve_all_keeps_unique cd dp ph reqs : forall db,
  unique_marks (attendance db) -> unique_marks (attendance (serve_all cd dp ph db reqs)).
Proof.
  induction reqs as [|req reqs IH]; intros db H; [exact H|].
  rewrite serve_all_cons. apply IH.
  destruct (serve_effect cd dp ph db req)
    as [(id & s & _ & ->)|[->|(rec & session & -> & _ & Hx)]]; auto.
  cbn [attendance]. apply unique_marks_add; assumption.
Qed.

Lemma serve_all_keeps_refs cd dp ph reqs : forall db,
  refers_to_sessions ph db -> refers_to_sessions ph (serve_all cd dp ph db reqs).
Proof.
  induction reqs as [|req reqs IH]; intros db H; [exact H|].
  rewrite serve_all_cons. apply IH.
  destruct (serve_effect cd dp ph db req)
    as [(ref & s & Hs & Ha)|[->|(rec & session & -> & Hs & _)]]; auto.
  - intros r Hr. rewrite Ha in Hr. destruct (H r Hr) as (session & ref' & Hp & Hl).
    unfold stored. rewrite Hs.
    destruct (decide (ref = ref')) as [<-|Hne].
    + exists s, ref. rewrite lookup_insert_eq. auto.
    + exists session, ref'. rewrite lookup_insert_ne by assumption. auto.
  - intros r Hr. cbn [attendance sessions] in *. apply in_app_or in Hr as [Hr|[<-|[]]].
    + apply H. exact Hr.
    + exists session. exact Hs.
Qed.

(** X3. Whatever the sequence of session creations and marks, handled one
    after another: a store with at most one attendance document for each
    (session, student) pair keeps that property, and so does a store in
    which every attendance document names a stored session. *)
Theorem serve_all_keeps_invariants
    (calculateDistance : number -> number -> number -> number -> number)
    (Date_parse : string -> option Z) (docPath : string -> option string) (reqs : list Request) (db : Db) :
  (unique_marks (attendance db) ->
   unique_marks (attendance (serve_all calculateDistance Date_parse docPath db reqs)))
  /\ (refers_to_sessions docPath db ->
      refers_to_sessions docPath (serve_all calculateDistance Date_parse docPath db reqs)).
Proof.
  split; [apply serve_all_keeps_unique|apply serve_all_keeps_refs].
Qed.

(** A class is created again between two scans of the same student. *)
Lemma serve_all_keeps_invariants_witness :
  let db := serve_all guideDistance guideDate guideDocPath classDb
              [PostMark (scan "S1" classroom 1767225700000);
               PostSession 1767225660000 physicsBody;
               PostMark (scan "S1" farAway 1767225800000)] in
  unique_marks (attendance db) /\ refers_to_sessions guideDocPath db.
Proof.
  intros db.
  destruct (serve_all_keeps_invariants guideDistance guideDate guideDocPath
              [PostMark (scan "S1" classroom 1767225700000);
               PostSession 1767225660000 physicsBody;
               PostMark (scan "S1" farAway 1767225800000)] classDb) as [Hu Hr].
  split.
  - apply Hu. intros sid stid. simpl. lia.
  - apply Hr. intros r [].
Defined.

(** X4. Nothing is removed: through any sequence of session creations and
    marks, every stored session id stays stored, and the attendance
    collection only grows at its end, by at most one document for each mark
    request. *)
Theorem serve_all_only_adds
    (calculateDistance : number -> number -> number -> number -> number)
    (Date_parse : string -> option Z) (docPath : string -> option string)
    (reqs : list Request) (db : Db) :
  (forall id, is_Some (sessions db !! id) ->
              is_Some (sessions (serve_all calculateDistance Date_parse docPath db reqs) !! id))
  /\ exists added,
       attendance (serve_all calculateDistance Date_parse docPath db reqs)
       = attendance db ++ added
       /\ (length added
           <= length (List.filter (fun r => match r with PostMark _ => true | _ => false end)
                        reqs))%nat.
Proof.
  revert db. induction reqs as [|req reqs IH]; intros db.
  { split; [auto|]. exists []. split; [symmetry; apply app_nil_r|reflexivity]. }
  rewrite serve_all_cons.
  destruct (IH (serve calculateDistance Date_parse docPath db req))
    as (IHs & added & IHa & IHn).
  assert (Hstep :
    (forall id, is_Some (sessions db !! id) ->
                is_Some (sessions (serve calculateDistance Date_parse docPath db req) !! id))
    /\ exists one,
         attendance (serve calculateDistance Date_parse docPath db req) = attendance db ++ one
         /\ (length one <= match req with PostMark _ => 1 | _ => 0 end)%nat).
  { destruct req as [clock b|a]; cbn [serve].
    - destruct (createSession_cases docPath clock b db) as [->|(id & ref & _ & _ & ->)];
        cbn [fst].
      + split; [auto|]. exists []. split; [symmetry; apply app_nil_r|reflexivity].
      + split.
        * intros id' H. cbn [sessions].
          destruct (decide (ref = id')) as [<-|Hne];
            [rewrite lookup_insert_eq; eexists; reflexivity
            |rewrite lookup_insert_ne by assumption; exact H].
        * exists []. split; [symmetry; apply app_nil_r|reflexivity].
    - rewrite mark_sessions. split; [auto|].
      destruct (mark_has_effect calculateDistance Date_parse docPath db a)
        as [r _|rec cn d _ _ _]; cbn [fst attendance].
      + exists []. split; [symmetry; apply app_nil_r|simpl; lia].
      + exists [rec]. split; [reflexivity|simpl; lia]. }
  destruct Hstep as (Hs & one & Ha & Hn). split; [auto|].
  exists (one ++ added). rewrite IHa, Ha, <- app_assoc. split; [reflexivity|].
  rewrite length_app. destruct req; cbn [List.filter length]; simpl in Hn; lia.
Qed.

(** ** Sessions seen from the mark handler *)

Lemma mark_Expired_inv cd dp ph db a :
  snd (mark cd dp ph db a) = Expired ->
  exists sid session e,
    MarkBody.sessionId (body a) = Some sid
    /\ stored ph db sid session
    /\ new_Date dp (SessionDoc.expiresAt session) = Some e
    /\ e < now a.
Proof.
  unfold mark, mark_start.
  destruct (_ || _ || _); [cbn; discriminate|].
  destruct (MarkBody.sessionId (body a)) as [sid|]; [|cbn; discriminate].
  destruct (MarkBody.studentId (body a)) as [stid|]; [|cbn; discriminate].
  destruct (MarkBody.location (body a)) as [loc|]; [|cbn; discriminate].
  destruct (ph sid) as [ref|] eqn:Hp; [|cbn; discriminate].
  cbn [mark_resume]. unfold mark_session.
  destruct (sessions db !! ref) as [session|] eqn:Hs; [|cbn; discriminate].
  destruct (new_Date dp (SessionDoc.expiresAt session)) as [e|] eqn:He;
    cbn [Date_gt].
  - destruct (e <? now a) eqn:Hlt.
    + intros _. exists sid, session, e. apply Z.ltb_lt in Hlt. unfold stored. eauto 10.
    + destruct (SessionDoc.location session) as [sloc|]; [|cbn; discriminate].
      destruct (negb _).
      * destruct (latitude loc), (longitude loc), (latitude sloc), (longitude sloc);
          cbn; discriminate.
      * cbn [mark_resume]. unfold mark_existing.
        destruct (existingAttendance _ _ _); [|cbn; discriminate].
        cbn zeta. destruct (attendance_defined _); cbn; discriminate.
  - destruct (SessionDoc.location session) as [sloc|]; [|cbn; discriminate].
    destruct (negb _).
    + destruct (latitude loc), (longitude loc), (latitude sloc), (longitude sloc);
        cbn; discriminate.
    + cbn [mark_resume]. unfold mark_existing.
      destruct (existingAttendance _ _ _); [|cbn; discriminate].
      cbn zeta. destruct (attendance_defined _); cbn; discriminate.
Qed.

(** X5. Expiry is final.  Once an attempt on a session has been answered
    [Expired], every request with the three required fields for the same
    session whose clock reads the same or later is answered [Expired] and
    writes nothing, for as long as the session document is the same. *)
Theorem expired_stays_expired
    (calculateDistance : number -> number -> number -> number -> number)
    (Date_parse : string -> option Z) (docPath : string -> option string)
    (db db' : Db) (a a' : Attempt) (sessionId studentId : string) (location : Location) :
  MarkBody.sessionId (body a) = Some sessionId ->
  snd (mark calculateDistance Date_parse docPath db a) = Expired ->
  (forall sessionRef, docPath sessionId = Some sessionRef ->
                      sessions db' !! sessionRef = sessions db !! sessionRef) ->
  wellFormed a' sessionId studentId location ->
  now a <= now a' ->
  mark calculateDistance Date_parse docPath db' a' = (db', Expired).
Proof.
  intros Hsid H Hsame Hwf Hlater.
  destruct (mark_Expired_inv _ _ _ _ _ H)
    as (sid & session & e & Hsid' & (ref & Hp & Hs) & He & Hlt).
  assert (sid = sessionId) as -> by congruence.
  rewrite (mark_wellFormed _ _ _ _ _ _ _ _ _ Hwf Hp), (Hsame ref Hp), Hs.
  unfold mark_session. rewrite He. cbn [Date_gt].
  replace (e <? now a') with true by (symmetry; apply Z.ltb_lt; lia).
  reflexivity.
Qed.

(** A second too late after the expiry, then an hour later, on the spot. *)
Lemma expired_stays_expired_witness :
  mark guideDistance guideDate guideDocPath classDb (scan "S2" classroom 1767230100000)
  = (classDb, Expired).
Proof.
  apply (expired_stays_expired guideDistance guideDate guideDocPath classDb classDb
           (scan "S1" farAway 1767226501000) (scan "S2" classroom 1767230100000)
           "SESSION_1" "S2" classroom).
  - reflexivity.
  - reflexivity.
  - reflexivity.
  - unfold wellFormed. repeat split; discriminate.
  - simpl. lia.
Defined.

(** X6. A request with the three required fields is answered 'Invalid QR
    code - session not found' exactly when [GET /session/:sessionId] answers
    404 for the session id it presents; it then writes nothing. *)
Theorem mark_InvalidSession_iff
    (calculateDistance : number -> number -> number -> number -> number)
    (Date_parse : string -> option Z) (docPath : string -> option string)
    (db : Db) (a : Attempt) (sessionId studentId : string) (location : Location) :
  wellFormed a sessionId studentId location ->
  (snd (mark calculateDistance Date_parse docPath db a) = InvalidSession
   <-> getSession docPath sessionId db = SessionNotFound)
  /\ (getSession docPath sessionId db = SessionNotFound ->
      mark calculateDistance Date_parse docPath db a = (db, InvalidSession)).
Proof.
  intros Hwf. unfold mark. rewrite (mark_start_fields docPath a _ _ _ Hwf).
  unfold getSession. destruct (docPath sessionId) as [ref|].
  - cbn [mark_resume]. unfold mark_session.
    destruct (sessions db !! ref) as [session|].
    + split; [|discriminate]. split; [|discriminate].
      destruct (Date_gt _ _); [cbn; discriminate|].
      destruct (SessionDoc.location session) as [sloc|]; [|cbn; discriminate].
      destruct (negb _).
      * destruct (latitude location), (longitude location), (latitude sloc), (longitude sloc);
          cbn; discriminate.
      * cbn [mark_resume]. unfold mark_existing.
        destruct (existingAttendance _ _ _); [|cbn; discriminate].
        cbn zeta. destruct (attendance_defined _); cbn; discriminate.
    + split; [split|]; reflexivity.
  - cbn. split; [split|]; discriminate.
Qed.

(** The id [SESSION_999] of the guide's unknown session. *)
Lemma mark_InvalidSession_iff_witness :
  mark guideDistance guideDate guideDocPath classDb
    (mkAttempt (MarkBody.mk (Some "SESSION_999"%string) (Some "S1"%string) None
                  (Some classroom)) 1767225700000 1767225700001)
  = (classDb, InvalidSession).
Proof.
  refine (proj2 (mark_InvalidSession_iff guideDistance guideDate guideDocPath classDb _
                   "SESSION_999" "S1" classroom _) _).
  - unfold wellFormed. repeat split; discriminate.
  - reflexivity.
Defined.

(** X7. A session that was just created can be marked.  When the body has
    its six fields, an id that names a document, numbers for the two
    coordinates and an [expiresAt] that parses to a time not yet passed, a
    request with the three required fields and numeric coordinates for the
    new session id is answered from the distance: [OutOfRange] when it
    exceeds the radius, [AlreadyMarked] when it is within the radius and the
    student has a document for that id (documents of an earlier session with
    the same id count), and otherwise success, or 500 when the request has
    no [studentEmail]. *)
Theorem created_session_can_be_marked
    (calculateDistance : number -> number -> number -> number -> number)
    (Date_parse : string -> option Z) (docPath : string -> option string)
    (clock : Z) (b : SessionBody.t) (db : Db) (id sessionRef studentId : string)
    (sloc location : Location) (slat slon lat lon : number) (e : Z) (a : Attempt) :
  validSessionBody b id ->
  docPath id = Some sessionRef ->
  SessionBody.location b = Some sloc ->
  latitude sloc = Some slat -> longitude sloc = Some slon ->
  new_Date Date_parse (SessionBody.expiresAt b) = Some e ->
  wellFormed a id studentId location ->
  latitude location = Some lat -> longitude location = Some lon ->
  now a <= e ->
  snd (mark calculateDistance Date_parse docPath (fst (createSession docPath clock b db)) a)
  = if number_leb (calculateDistance lat lon slat slon) (allowedRadius sloc) then
      match existingAttendance id studentId (attendance db), MarkBody.studentEmail (body a) with
      | [], Some _ => Marked (SessionBody.courseName b) (calculateDistance lat lon slat slon)
      | [], None => ServerError
      | _ :: _, _ => AlreadyMarked
      end
    else OutOfRange (calculateDistance lat lon slat slon) (allowedRadius sloc).
Proof.
  intros (Hid & Hne & Hc & Ht & Hl & Hte & Hex) Hp Hsloc Hslat Hslon He Hwf Hlat Hlon Hnow.
  rewrite (createSession_valid docPath clock b db id sessionRef Hid Hne Hc Ht Hl Hte Hex Hp).
  cbn [fst].
  assert (H : reachesGeofence Date_parse docPath
                (mkDb (<[sessionRef := sessionDoc clock b]> (sessions db)) (attendance db))
                a id studentId location (sessionDoc clock b) sloc lat lon slat slon).
  { split; [exact Hwf|].
    split; [exists sessionRef; split; [exact Hp|apply lookup_insert_eq]|].
    cbn [sessionDoc SessionDoc.expiresAt SessionDoc.location].
    rewrite He. cbn [Date_gt].
    replace (e <? now a) with false by (symmetry; apply Z.ltb_ge; lia).
    auto 10. }
  rewrite (mark_geofence calculateDistance _ _ _ _ _ _ _ _ _ _ _ _ _ H).
  unfold geofence_response. cbn [attendance sessionDoc SessionDoc.courseName].
  destruct (SessionBody.courseName b); [|discriminate].
  destruct (number_leb _ _); [|reflexivity].
  destruct (existingAttendance _ _ _), (MarkBody.studentEmail (body a)); reflexivity.
Qed.

(** The class is created again with a new place; a student scans there. *)
Lemma created_session_can_be_marked_witness :
  snd (mark guideDistance guideDate guideDocPath
         (fst (createSession guideDocPath 1767225660000 physicsBody classDb))
         (scan "S1" farAway 1767225700000))
  = Marked (Some "Physics"%string) (Fin 0).
Proof.
  refine (created_session_can_be_marked guideDistance guideDate guideDocPath
            1767225660000 physicsBody
            classDb "SESSION_1" "SESSION_1" "S1" farAway farAway (Fin 18.62) (Fin 74.0)
            (Fin 18.62) (Fin 74.0) 1767226500000 (scan "S1" farAway 1767225700000)
            _ _ _ _ _ _ _ _ _ _).
  - unfold validSessionBody. repeat split; try discriminate; eexists; reflexivity.
  - reflexivity.
  - reflexivity.
  - reflexivity.
  - reflexivity.
  - reflexivity.
  - unfold wellFormed. repeat split; discriminate.
  - reflexivity.
  - reflexivity.
  - simpl. lia.
Defined.

(** ** The attendance report *)

Lemma newer_first_trans : Transitive newer_first.
Proof. intros x y z. unfold newer_first. lia. Qed.

Lemma newer_first_total : Total newer_first.
Proof. intros x y. unfold newer_first. lia. Qed.

Lemma orderBy_markedAt_desc_perm l : orderBy_markedAt_desc l ≡ₚ l.
Proof. apply merge_sort_Permutation. Qed.

Lemma orderBy_markedAt_desc_sorted l : StronglySorted newer_first (orderBy_markedAt_desc l).
Proof.
  apply (@StronglySorted_merge_sort _ newer_first newer_first_dec
           newer_first_trans newer_first_total).
Qed.

Lemma sessionRecords_In sid l r :
  In r (sessionRecords sid l) <-> In r l /\ AttendanceDoc.sessionId r = sid.
Proof.
  unfold sessionRecords. rewrite List.filter_In, String.eqb_eq. reflexivity.
Qed.

(** The answer of the handler for a limit that the store accepts. *)
Lemma getRecords_ok parseInt sid limit db :
  0 <= recordsLimit parseInt limit ->
  getRecords parseInt sid limit db
  = RecordsOk
      (length (take (Z.to_nat (recordsLimit parseInt limit))
                 (orderBy_markedAt_desc (sessionRecords sid (attendance db)))))
      (take (Z.to_nat (recordsLimit parseInt limit))
         (orderBy_markedAt_desc (sessionRecords sid (attendance db)))).
Proof.
  intros H. unfold getRecords.
  replace (recordsLimit parseInt limit <? 0) with false; [reflexivity|].
  symmetry. apply Z.ltb_ge. exact H.
Qed.

Lemma getRecords_RecordsOk parseInt sid limit db count records :
  getRecords parseInt sid limit db = RecordsOk count records ->
  0 <= recordsLimit parseInt limit
  /\ count = length records
  /\ records = take (Z.to_nat (recordsLimit parseInt limit))
                 (orderBy_markedAt_desc (sessionRecords sid (attendance db))).
Proof.
  unfold getRecords. destruct (recordsLimit parseInt limit <? 0) eqn:E; [discriminate|].
  intros [= <- <-]. apply Z.ltb_ge in E. auto.
Qed.

(** X8. What a report contains.  Every record of an answer of
    [GET /records/:sessionId] is a stored attendance document of that
    session; the records come newest first and are no more than the limit,
    and [count] is their number.  When the limit cuts the report, what is
    left out is no newer than anything reported. *)
Theorem getRecords_sound (parseInt : string -> option Z)
    (sessionId : string) (limit : option string) (db : Db)
    (count : nat) (records : list AttendanceDoc.t) :
  getRecords parseInt sessionId limit db = RecordsOk count records ->
  count = length records
  /\ Z.of_nat count <= recordsLimit parseInt limit
  /\ (forall r, In r records ->
        In r (attendance db) /\ AttendanceDoc.sessionId r = sessionId)
  /\ StronglySorted newer_first records
  /\ (forall r r', In r (attendance db) -> AttendanceDoc.sessionId r = sessionId ->
        ~ In r records -> In r' records ->
        AttendanceDoc.markedAt r <= AttendanceDoc.markedAt r').
Proof.
  intros H. apply getRecords_RecordsOk in H as (Hlim & -> & ->).
  set (n := Z.to_nat (recordsLimit parseInt limit)).
  set (sorted := orderBy_markedAt_desc (sessionRecords sessionId (attendance db))).
  assert (Hsorted : StronglySorted newer_first (take n sorted ++ drop n sorted)).
  { rewrite take_drop. apply orderBy_markedAt_desc_sorted. }
  split; [reflexivity|]. split; [rewrite length_take; lia|].
  split; [|split].
  - intros r Hr. apply sessionRecords_In.
    apply (Permutation_in r (orderBy_markedAt_desc_perm _)).
    apply list_elem_of_In. apply list_elem_of_In in Hr.
    eapply elem_of_sublist; [exact Hr|apply sublist_take].
  - eapply StronglySorted_app_1_l. exact Hsorted.
  - intros r r' Hr Hsid Hout Hin.
    assert (Hr' : In r sorted).
    { apply (Permutation_in r (Permutation_sym (orderBy_markedAt_desc_perm _))).
      apply sessionRecords_In. auto. }
    rewrite <- (take_drop n sorted) in Hr'. apply in_app_or in Hr' as [Hr'|Hr'];
      [contradiction|].
    apply (StronglySorted_app_1_elem_of newer_first _ _ r' r Hsorted);
      apply list_elem_of_In; assumption.
Qed.

(** The two newest of three marks. *)
Lemma getRecords_sound_witness :
  exists r3 r2,
    getRecords guideParseInt "SESSION_1" (Some "2"%string) afterThreeScans
    = RecordsOk 2 [r3; r2]
    /\ AttendanceDoc.studentId r3 = "S3"%string /\ AttendanceDoc.studentId r2 = "S2"%string
    /\ StronglySorted newer_first [r3; r2].
Proof.
  eexists _, _. split; [reflexivity|]. split; [reflexivity|]. split; [reflexivity|].
  refine (proj1 (proj2 (proj2 (proj2
            (getRecords_sound guideParseInt "SESSION_1" (Some "2"%string) afterThreeScans
               2 _ _))))).
  reflexivity.
Defined.

Lemma getRecords_within_limit (parseInt : string -> option Z)
    (sessionId : string) (limit : option string) (db : Db) :
  Z.of_nat (length (sessionRecords sessionId (attendance db))) <= recordsLimit parseInt limit ->
  exists records,
    getRecords parseInt sessionId limit db
    = RecordsOk (length (sessionRecords sessionId (attendance db))) records
    /\ records ≡ₚ sessionRecords sessionId (attendance db).
Proof.
  intros H. rewrite getRecords_ok by lia.
  assert (Hlen : length (orderBy_markedAt_desc (sessionRecords sessionId (attendance db)))
                 = length (sessionRecords sessionId (attendance db))).
  { apply Permutation_length, orderBy_markedAt_desc_perm. }
  rewrite take_ge by lia. rewrite Hlen.
  eexists. split; [reflexivity|]. apply orderBy_markedAt_desc_perm.
Qed.

(** X9. A report is complete when the limit allows it: if the session has
    no more attendance documents than the limit, the records are exactly
    those documents, in some order, and [count] is their number. *)
Theorem getRecords_complete (parseInt : string -> option Z)
    (sessionId : string) (limit : option string) (db : Db) :
  Z.of_nat (length (sessionRecords sessionId (attendance db))) <= recordsLimit parseInt limit ->
  exists records,
    getRecords parseInt sessionId limit db
    = RecordsOk (length (sessionRecords sessionId (attendance db))) records
    /\ records ≡ₚ sessionRecords sessionId (attendance db).
Proof.
  intros H.
  destruct (getRecords_within_limit parseInt sessionId limit db H) as (records & Hget & Hperm).
  exists records. split; [exact Hget|exact Hperm].
Qed.

Lemma getRecords_complete_witness :
  exists records,
    getRecords guideParseInt "SESSION_1" None afterThreeScans = RecordsOk 3 records
    /\ records ≡ₚ sessionRecords "SESSION_1" (attendance afterThreeScans).
Proof.
  apply (getRecords_complete guideParseInt "SESSION_1" None afterThreeScans).
  vm_compute. discriminate.
Defined.

(** X10. The default limit.  Without a [limit] in the query, with one that
    [parseInt] does not read, and with [limit=0], the report holds the 100
    newest records of the session (all of them when there are fewer): a
    limit of zero does not give an empty report. *)
Theorem getRecords_default_limit (parseInt : string -> option Z)
    (sessionId : string) (limit : option string) (db : Db) :
  limit = None
  \/ (exists s, limit = Some s /\ (parseInt s = None \/ parseInt s = Some 0)) ->
  let newest := take 100 (orderBy_markedAt_desc (sessionRecords sessionId (attendance db))) in
  getRecords parseInt sessionId limit db = RecordsOk (length newest) newest
  /\ length newest = Nat.min 100 (length (sessionRecords sessionId (attendance db))).
Proof.
  intros H newest. subst newest.
  assert (Hlim : recordsLimit parseInt limit = 100).
  { unfold recordsLimit. destruct H as [->|(s & -> & [->| ->])]; reflexivity. }
  rewrite getRecords_ok by lia. rewrite Hlim. split; [reflexivity|].
  rewrite length_take. f_equal. apply Permutation_length, orderBy_markedAt_desc_perm.
Qed.

Lemma getRecords_default_limit_witness :
  exists records,
    getRecords guideParseInt "SESSION_1" (Some "0"%string) afterThreeScans
    = RecordsOk 3 records.
Proof.
  destruct (getRecords_default_limit guideParseInt "SESSION_1" (Some "0"%string)
              afterThreeScans) as [H Hn].
  - right. exists "0"%string. split; [reflexivity|]. right. reflexivity.
  - eexists. rewrite H. f_equal.
Defined.

Lemma existingAttendance_In sid stid l r :
  In r l -> AttendanceDoc.sessionId r = sid -> AttendanceDoc.studentId r = stid ->
  (1 <= length (existingAttendance sid stid l))%nat.
Proof.
  intros Hr Hs Ht.
  assert (H : In r (existingAttendance sid stid l)).
  { apply List.filter_In. split; [exact Hr|]. apply same_mark_true. auto. }
  destruct (existingAttendance sid stid l); [destruct H|simpl; lia].
Qed.

Lemma unique_marks_tail x l : unique_marks (x :: l) -> unique_marks l.
Proof.
  intros H sid stid. specialize (H sid stid). unfold existingAttendance in *.
  cbn [List.filter] in H. destruct (same_mark sid stid x); simpl in H; lia.
Qed.

Lemma unique_marks_students sid l :
  unique_marks l -> List.NoDup (List.map AttendanceDoc.studentId (sessionRecords sid l)).
Proof.
  induction l as [|x l IH]; intros Hu; [constructor|].
  pose proof (IH (unique_marks_tail _ _ Hu)) as IH'.
  unfold sessionRecords in *. cbn [List.filter].
  destruct (String.eqb (AttendanceDoc.sessionId x) sid) eqn:E; [|exact IH'].
  apply String.eqb_eq in E. cbn [List.map]. constructor; [|exact IH'].
  intros Hin. apply in_map_iff in Hin as (y & Hy & Hin).
  apply List.filter_In in Hin as [Hin Hsid]. apply String.eqb_eq in Hsid.
  pose proof (existingAttendance_In sid (AttendanceDoc.studentId x) l y Hin Hsid Hy) as H1.
  specialize (Hu sid (AttendanceDoc.studentId x)). unfold existingAttendance in *.
  cbn [List.filter] in Hu.
  replace (same_mark sid (AttendanceDoc.studentId x) x) with true in Hu
    by (symmetry; apply same_mark_true; auto).
  simpl in Hu. lia.
Qed.

Lemma NoDup_map_take {A B} (f : A -> B) (l : list A) : forall n,
  List.NoDup (List.map f l) -> List.NoDup (List.map f (take n l)).
Proof.
  induction l as [|x l IH]; intros [|n] H; cbn; try constructor.
  - inversion H as [|? ? Hx Hl]; subst. intros Hin. apply Hx.
    apply in_map_iff in Hin as (y & Hy & Hin). apply in_map_iff. exists y.
    split; [exact Hy|]. apply list_elem_of_In. apply list_elem_of_In in Hin.
    eapply elem_of_sublist; [exact Hin|apply sublist_take].
  - apply IH. inversion H; assumption.
Qed.

(** X11. Each student once.  When the store has at most one attendance
    document for each (session, student) pair, as it has after any sequence
    of requests handled one after another, no student id occurs twice in a
    report. *)
Theorem getRecords_students_once (parseInt : string -> option Z)
    (sessionId : string) (limit : option string) (db : Db)
    (count : nat) (records : list AttendanceDoc.t) :
  unique_marks (attendance db) ->
  getRecords parseInt sessionId limit db = RecordsOk count records ->
  List.NoDup (List.map AttendanceDoc.studentId records).
Proof.
  intros Hu H. apply getRecords_RecordsOk in H as (_ & _ & ->).
  apply NoDup_map_take.
  eapply Permutation_NoDup.
  - symmetry. apply Permutation_map. apply orderBy_markedAt_desc_perm.
  - apply unique_marks_students. exact Hu.
Qed.

Lemma getRecords_students_once_witness :
  exists count records,
    getRecords guideParseInt "SESSION_1" None afterThreeScans = RecordsOk count records
    /\ List.NoDup (List.map AttendanceDoc.studentId records).
Proof.
  eexists _, _. split; [reflexivity|].
  refine (getRecords_students_once guideParseInt "SESSION_1" None afterThreeScans _ _ _ eq_refl).
  apply (serve_all_keeps_unique guideDistance guideDate guideDocPath threeScans classDb).
  intros sid stid. simpl. lia.
Defined.

(** X12. A mark shows in the report.  After an attempt answered with
    success, a report of its session over the resulting store lists one
    record more than the session had, among them a record with the
    student's id, the distance that was answered and the time of the mark,
    provided the limit is larger than the number of documents the session
    had. *)
Theorem marked_student_is_reported
    (calculateDistance : number -> number -> number -> number -> number)
    (Date_parse : string -> option Z) (docPath : string -> option string) (parseInt : string -> option Z)
    (db : Db) (a : Attempt) (cn : option string) (d : number)
    (sessionId : string) (limit : option string) :
  snd (mark calculateDistance Date_parse docPath db a) = Marked cn d ->
  MarkBody.sessionId (body a) = Some sessionId ->
  Z.of_nat (length (sessionRecords sessionId (attendance db))) < recordsLimit parseInt limit ->
  exists records r,
    getRecords parseInt sessionId limit (fst (mark calculateDistance Date_parse docPath db a))
    = RecordsOk (S (length (sessionRecords sessionId (attendance db)))) records
    /\ In r records
    /\ MarkBody.studentId (body a) = Some (AttendanceDoc.studentId r)
    /\ AttendanceDoc.markedAt r = markedAt a
    /\ AttendanceDoc.distance r = d.
Proof.
  intros H Hsid Hlim.
  apply mark_Marked_inv_full in H
    as (sid & stid & email & courseName & loc & sloc & session & lat & lon
        & (Hsid' & _ & Hstid & _) & _ & _ & _ & _ & _ & _ & _ & _ & _ & _ & _ & ->).
  assert (sid = sessionId) as -> by congruence.
  set (rec := AttendanceDoc.mk sessionId stid (Some email) (Some courseName)
                (markedAt a) d (Some lat) (Some lon)).
  assert (Hrecs : sessionRecords sessionId (attendance db ++ [rec])
                  = sessionRecords sessionId (attendance db) ++ [rec]).
  { unfold sessionRecords. rewrite List.filter_app. cbn [List.filter].
    replace (String.eqb (AttendanceDoc.sessionId rec) sessionId) with true;
      [reflexivity|]. symmetry. apply String.eqb_eq. reflexivity. }
  destruct (getRecords_within_limit parseInt sessionId limit
              (mkDb (sessions db) (attendance db ++ [rec]))) as (records & Hget & Hperm).
  { cbn [attendance]. rewrite Hrecs, length_app. simpl. lia. }
  cbn [attendance] in Hget, Hperm. rewrite Hrecs in Hget, Hperm.
  rewrite length_app, Nat.add_comm in Hget. cbn [length Nat.add] in Hget.
  exists records, rec. split; [exact Hget|]. split; [|auto].
  apply (Permutation_in rec (Permutation_sym Hperm)). apply in_or_app. right. left. reflexivity.
Qed.

Lemma marked_student_is_reported_witness :
  exists records r,
    getRecords guideParseInt "SESSION_1" None
      (fst (mark guideDistance guideDate guideDocPath classDb (scan "S1" classroom 1767225700000)))
    = RecordsOk 1 records
    /\ In r records
    /\ Some "S1"%string = Some (AttendanceDoc.studentId r)
    /\ AttendanceDoc.markedAt r = 1767225700001
    /\ AttendanceDoc.distance r = Fin 0.
Proof.
  apply (marked_student_is_reported guideDistance guideDate guideDocPath guideParseInt classDb
           (scan "S1" classroom 1767225700000) (Some "Maths"%string) (Fin 0)
           "SESSION_1" None).
  - reflexivity.
  - reflexivity.
  - reflexivity.
Defined.

(** ** Handlers in flight for different students *)

Lemma solo_task_S cd dp ph db a k :
  solo_task cd dp ph db a (S k) = snd (mark_resume cd dp db (solo_task cd dp ph db a k)).
Proof. reflexivity. Qed.

Lemma solo_task_Responded cd dp ph db a k r :
  solo_task cd dp ph db a k = Responded r ->
  forall m, (k <= m)%nat -> solo_task cd dp ph db a m = Responded r.
Proof.
  intros H m Hm. induction Hm as [|m Hm IH]; [exact H|].
  rewrite solo_task_S, IH. reflexivity.
Qed.

(** Alone, a handler has answered after three resumptions. *)
Lemma solo_task_3 cd dp ph db a :
  solo_task cd dp ph db a 3 = Responded (snd (mark cd dp ph db a)).
Proof.
  rewrite !solo_task_S. change (solo_task cd dp ph db a 0) with (mark_start ph a).
  unfold mark, mark_start.
  destruct (_ || _ || _); [reflexivity|].
  destruct (MarkBody.sessionId (body a)) as [sid|]; [|reflexivity].
  destruct (MarkBody.studentId (body a)) as [stid|]; [|reflexivity].
  destruct (MarkBody.location (body a)) as [loc|]; [|reflexivity].
  destruct (ph sid) as [ref|]; [|reflexivity].
  cbn [mark_resume snd]. unfold mark_session.
  destruct (sessions db !! ref) as [session|]; [|reflexivity].
  destruct (Date_gt _ _); [reflexivity|].
  destruct (SessionDoc.location session) as [sloc|]; [|reflexivity].
  destruct (negb _).
  - destruct (latitude loc), (longitude loc), (latitude sloc), (longitude sloc); reflexivity.
  - cbn [mark_resume snd]. unfold mark_existing.
    destruct (existingAttendance _ _ _); [|reflexivity].
    cbn zeta. destruct (attendance_defined _); reflexivity.
Qed.

Lemma solo_task_answer cd dp ph db a k r :
  solo_task cd dp ph db a k = Responded r -> r = snd (mark cd dp ph db a).
Proof.
  intros H.
  pose proof (solo_task_Responded cd dp ph db a k r H (Nat.max k 3) (Nat.le_max_l _ _)) as H1.
  pose proof (solo_task_Responded cd dp ph db a 3 _ (solo_task_3 cd dp ph db a)
                (Nat.max k 3) (Nat.le_max_r _ _)) as H2.
  congruence.
Qed.

Lemma task_for_start ph db a : task_for db a (mark_start ph a).
Proof.
  unfold mark_start. destruct (_ || _ || _); [exact I|].
  destruct (MarkBody.sessionId (body a)) as [sid|] eqn:Hs; [|exact I].
  destruct (MarkBody.studentId (body a)) as [stid|] eqn:Ht; [|exact I].
  destruct (MarkBody.location (body a)) as [loc|]; [|exact I].
  destruct (ph sid); [|exact I].
  cbn. auto.
Qed.

Lemma task_for_resume cd dp db a t :
  task_for db a t -> task_for db a (snd (mark_resume cd dp db t)).
Proof.
  destruct t as [a' ref sid stid loc|a' sid stid loc session check|rec session check|r];
    cbn [mark_resume snd task_for]; [| |auto|auto].
  - intros (-> & Hs & Ht). unfold mark_session.
    destruct (sessions db !! ref) as [session|]; [|exact I].
    destruct (Date_gt _ _); [exact I|].
    destruct (SessionDoc.location session) as [sloc|]; [|exact I].
    destruct (negb _).
    + destruct (latitude loc), (longitude loc), (latitude sloc), (longitude sloc); exact I.
    + cbn. auto.
  - intros (-> & Hs & Ht). unfold mark_existing.
    destruct (existingAttendance sid stid (attendance db)) eqn:Hx; [|exact I].
    cbn zeta. destruct (attendance_defined _); [|exact I].
    cbn. auto.
Qed.

Lemma task_for_solo cd dp ph db a k : task_for db a (solo_task cd dp ph db a k).
Proof.
  induction k as [|k IH]; [apply task_for_start|].
  rewrite solo_task_S. apply task_for_resume. exact IH.
Qed.

(** A resumption answered from another store [db'] goes the same way, when
    [db'] has the sessions of [db] and, for the handler's pair, the
    attendance documents of [db]. *)
Lemma mark_resume_same_task cd dp db db' a t :
  task_for db a t ->
  sessions db' = sessions db ->
  (forall sid stid,
      MarkBody.sessionId (body a) = Some sid -> MarkBody.studentId (body a) = Some stid ->
      (forall r, t <> Responded r) ->
      existingAttendance sid stid (attendance db')
      = existingAttendance sid stid (attendance db)) ->
  snd (mark_resume cd dp db' t) = snd (mark_resume cd dp db t).
Proof.
  intros Ht Hs Hx.
  destruct t as [a' ref sid stid loc|a' sid stid loc session check|rec session check|r];
    cbn [mark_resume snd]; try reflexivity.
  - rewrite Hs. reflexivity.
  - destruct Ht as (-> & Hsid & Hstid).
    rewrite (Hx sid stid Hsid Hstid) by discriminate. reflexivity.
Qed.

Lemma mark_resume_store cd dp db' t :
  fst (mark_resume cd dp db' t)
  = match t with
    | AwaitAdd rec _ _ => mkDb (sessions db') (attendance db' ++ [rec])
    | _ => db'
    end.
Proof. destruct t; reflexivity. Qed.

Lemma run_schedule_snoc cd dp ph db l schedule i :
  run_schedule cd dp ph db l (schedule ++ [i])
  = resume_nth cd dp (run_schedule cd dp ph db l schedule) i.
Proof. unfold run_schedule. rewrite fold_left_app. reflexivity. Qed.

Lemma count_occ_snoc (schedule : list nat) (i j : nat) :
  count_occ Nat.eq_dec (schedule ++ [i]) j
  = (count_occ Nat.eq_dec schedule j + if Nat.eq_dec i j then 1 else 0)%nat.
Proof. rewrite count_occ_app. cbn. destruct (Nat.eq_dec i j); reflexivity. Qed.

(** The state of handlers of distinct pairs after any schedule: the
    sessions are those of the initial store; handler [i] is where it would
    be alone on the initial store after as many resumptions as the schedule
    gave it; until it has answered, the store has gained no document for
    its pair. *)
Lemma run_schedule_distinct cd dp ph db l :
  distinct_pairs l ->
  forall schedule,
    let st := run_schedule cd dp ph db l schedule in
    sessions (fst st) = sessions db
    /\ length (snd st) = length l
    /\ (forall i a, l !! i = Some a ->
          snd st !! i = Some (solo_task cd dp ph db a (count_occ Nat.eq_dec schedule i)))
    /\ (forall i a sid stid, l !! i = Some a ->
          MarkBody.sessionId (body a) = Some sid -> MarkBody.studentId (body a) = Some stid ->
          (forall r, solo_task cd dp ph db a (count_occ Nat.eq_dec schedule i) <> Responded r) ->
          existingAttendance sid stid (attendance (fst st))
          = existingAttendance sid stid (attendance db)).
Proof.
  intros Hd schedule. induction schedule as [|i schedule IH] using rev_ind.
  { cbn. split; [reflexivity|]. split; [apply length_map|]. split; [|auto].
    intros i a Ha. unfold run_schedule. cbn [fold_left snd].
    rewrite list_lookup_fmap, Ha. reflexivity. }
  cbn zeta in *. rewrite run_schedule_snoc.
  destruct (run_schedule cd dp ph db l schedule) as [db' ts].
  cbn [fst snd] in IH. destruct IH as (Hs & Hlen & Hts & Hx).
  unfold resume_nth. cbn [fst snd].
  destruct (ts !! i) as [t|] eqn:Hti.
  2:{ (* no such handler *)
    assert (Hnone : l !! i = None).
    { apply lookup_ge_None. apply lookup_ge_None in Hti. lia. }
    cbn [fst snd]. split; [exact Hs|]. split; [exact Hlen|]. split.
    - intros j a Ha. rewrite count_occ_snoc.
      destruct (Nat.eq_dec i j) as [->|_]; [congruence|].
      rewrite Nat.add_0_r. apply Hts. exact Ha.
    - intros j a sid stid Ha Hsid Hstid Hr. rewrite count_occ_snoc in Hr.
      destruct (Nat.eq_dec i j) as [->|_]; [congruence|].
      rewrite Nat.add_0_r in Hr. eapply Hx; eassumption. }
  destruct (l !! i) as [ai|] eqn:Hai.
  2:{ apply lookup_ge_None in Hai. apply lookup_lt_Some in Hti. lia. }
  pose proof (Hts i ai Hai) as Hsolo. rewrite Hti in Hsolo. injection Hsolo as ->.
  set (k := count_occ Nat.eq_dec schedule i) in *.
  pose proof (task_for_solo cd dp ph db ai k) as Htask.
  assert (Hnext : snd (mark_resume cd dp db' (solo_task cd dp ph db ai k))
                  = solo_task cd dp ph db ai (S k)).
  { rewrite solo_task_S.
    apply (mark_resume_same_task cd dp db db' ai); [exact Htask|exact Hs|].
    intros sid stid Hsid Hstid Hr. apply (Hx i ai sid stid Hai Hsid Hstid). exact Hr. }
  pose proof (mark_resume_store cd dp db' (solo_task cd dp ph db ai k)) as Hstore.
  destruct (mark_resume cd dp db' (solo_task cd dp ph db ai k)) as [db'' t'].
  cbn [fst snd] in *. subst t'.
  assert (Hcount : forall j, count_occ Nat.eq_dec (schedule ++ [i]) j
                             = if Nat.eq_dec i j then S k
                               else count_occ Nat.eq_dec schedule j).
  { intros j. rewrite count_occ_snoc. destruct (Nat.eq_dec i j) as [<-|_]; subst k; lia. }
  split; [|split; [|split]].
  - rewrite Hstore. destruct (solo_task cd dp ph db ai k); exact Hs.
  - rewrite length_insert. exact Hlen.
  - intros j a Ha. rewrite Hcount. destruct (Nat.eq_dec i j) as [<-|Hne].
    + assert (a = ai) as -> by congruence.
      apply list_lookup_insert_eq. eapply lookup_lt_Some. exact Hti.
    + rewrite list_lookup_insert_ne by assumption. apply Hts. exact Ha.
  - intros j a sid stid Ha Hsid Hstid Hr. rewrite Hcount in Hr.
    destruct (Nat.eq_dec i j) as [<-|Hne].
    + assert (a = ai) as -> by congruence.
      assert (Hk : forall r, solo_task cd dp ph db ai k <> Responded r).
      { intros r Hk. apply (Hr r).
        apply (solo_task_Responded cd dp ph db ai k r Hk). lia. }
      pose proof (Hx i ai sid stid Hai Hsid Hstid Hk) as Hxi.
      rewrite Hstore. destruct (solo_task cd dp ph db ai k) as [| |rec session check|r] eqn:Ek;
        try exact Hxi.
      destruct (Hr (Marked (SessionDoc.courseName session) (distance check))).
      rewrite solo_task_S, Ek. reflexivity.
    + pose proof (Hx j a sid stid Ha Hsid Hstid Hr) as Hxj.
      rewrite Hstore.
      destruct (solo_task cd dp ph db ai k) as [| |rec session check|r] eqn:Ek;
        try exact Hxj.
      cbn [attendance]. rewrite existingAttendance_app, Hxj.
      unfold existingAttendance at 2. cbn [List.filter].
      destruct (same_mark sid stid rec) eqn:Esame; [|apply app_nil_r].
      apply same_mark_true in Esame as [Es Et].
      cbn [task_for] in Htask. destruct Htask as (Hs1 & Ht1 & _).
      exfalso. apply (Hd j i a ai sid stid); auto. rewrite Hs1, Ht1, Es, Et. auto.
Qed.

(** X13. Handlers of different students do not disturb each other.  For
    attempts no two of which are of the same student for the same session,
    and for every order in which the store completes their operations: the
    sessions are untouched, a handler that has answered has given the answer
    it would give alone on the initial store, and a handler that was resumed
    three times has answered. *)
Theorem distinct_handlers_answer_as_alone
    (calculateDistance : number -> number -> number -> number -> number)
    (Date_parse : string -> option Z) (docPath : string -> option string)
    (db : Db) (l : list Attempt) (schedule : list nat) :
  distinct_pairs l ->
  let final := run_schedule calculateDistance Date_parse docPath db l schedule in
  sessions (fst final) = sessions db
  /\ forall i a, l !! i = Some a ->
       (forall r, snd final !! i = Some (Responded r) ->
                  r = snd (mark calculateDistance Date_parse docPath db a))
       /\ ((3 <= count_occ Nat.eq_dec schedule i)%nat ->
           snd final !! i
           = Some (Responded (snd (mark calculateDistance Date_parse docPath db a)))).
Proof.
  intros Hd final. subst final.
  destruct (run_schedule_distinct calculateDistance Date_parse docPath db l Hd schedule)
    as (Hs & _ & Hts & _).
  split; [exact Hs|]. intros i a Ha. rewrite (Hts i a Ha). split.
  - intros r [= Hr]. eapply solo_task_answer. exact Hr.
  - intros H3. f_equal.
    apply (solo_task_Responded calculateDistance Date_parse docPath db a 3); [|exact H3].
    apply solo_task_3.
Qed.

Lemma two_students_distinct :
  distinct_pairs [scan "S1" classroom 1767225700000; scan "S2" farAway 1767225700500].
Proof.
  intros i j a a' sid stid Hij Ha Ha' Hs Ht [Hs' Ht'].
  destruct i as [|[|i]], j as [|[|j]]; cbn in Ha, Ha'; try discriminate;
    try (destruct (Hij eq_refl));
    injection Ha as <-; injection Ha' as <-; cbn in *; congruence.
Qed.

(** Two students scan at the same moment; the second is too far away. *)
Lemma distinct_handlers_answer_as_alone_witness :
  snd (run_schedule guideDistance guideDate guideDocPath classDb
         [scan "S1" classroom 1767225700000; scan "S2" farAway 1767225700500]
         [1; 0; 0; 1; 1; 0]%nat)
  !! 1%nat
  = Some (Responded (OutOfRange (Fin 19490) (Fin 50))).
Proof.
  refine (proj2 (proj2 (distinct_handlers_answer_as_alone guideDistance guideDate guideDocPath classDb
                          [scan "S1" classroom 1767225700000; scan "S2" farAway 1767225700500]
                          [1; 0; 0; 1; 1; 0]%nat two_students_distinct)
                   1%nat (scan "S2" farAway 1767225700500) eq_refl) _).
  cbn. lia.
Defined.

(** X14. The race needs two handlers of one pair.  For attempts no two of
    which are of the same student for the same session, every order in
    which the store completes their operations leaves at most one attendance
    document for each (session, student) pair, if the initial store has at
    most one. *)
Theorem distinct_handlers_keep_unique
    (calculateDistance : number -> number -> number -> number -> number)
    (Date_parse : string -> option Z) (docPath : string -> option string)
    (db : Db) (l : list Attempt) (schedule : list nat) :
  distinct_pairs l ->
  unique_marks (attendance db) ->
  unique_marks (attendance (fst (run_schedule calculateDistance Date_parse docPath db l schedule))).
Proof.
  intros Hd Hu. induction schedule as [|i schedule IH] using rev_ind; [exact Hu|].
  rewrite run_schedule_snoc.
  destruct (run_schedule_distinct calculateDistance Date_parse docPath db l Hd schedule)
    as (_ & Hlen & Hts & Hx).
  destruct (run_schedule calculateDistance Date_parse docPath db l schedule) as [db' ts].
  cbn [fst snd] in *. unfold resume_nth. cbn [fst snd].
  destruct (ts !! i) as [t|] eqn:Hti; [|exact IH].
  destruct (l !! i) as [ai|] eqn:Hai.
  2:{ apply lookup_ge_None in Hai. apply lookup_lt_Some in Hti. lia. }
  pose proof (Hts i ai Hai) as Hsolo. rewrite Hti in Hsolo. injection Hsolo as Ht.
  pose proof (task_for_solo calculateDistance Date_parse docPath db ai
                (count_occ Nat.eq_dec schedule i)) as Htask.
  pose proof (mark_resume_store calculateDistance Date_parse db' t) as Hstore.
  destruct (mark_resume calculateDistance Date_parse db' t) as [db'' t'].
  cbn [fst] in *. rewrite Hstore.
  destruct t as [| |rec session check|r]; try exact IH.
  cbn [attendance]. apply unique_marks_add; [exact IH|].
  rewrite <- Ht in Htask. destruct Htask as (Hsid & Hstid & Hnone).
  rewrite (Hx i ai _ _ Hai Hsid Hstid); [exact Hnone|].
  intros r. rewrite <- Ht. discriminate.
Qed.

Lemma distinct_handlers_keep_unique_witness :
  unique_marks
    (attendance
       (fst (run_schedule guideDistance guideDate guideDocPath classDb
               [scan "S1" classroom 1767225700000; scan "S2" farAway 1767225700500]
               [1; 0; 0; 1; 1; 0]%nat))).
Proof.
  apply (distinct_handlers_keep_unique guideDistance guideDate guideDocPath classDb
           [scan "S1" classroom 1767225700000; scan "S2" farAway 1767225700500]
           [1; 0; 0; 1; 1; 0]%nat two_students_distinct).
  intros sid stid. simpl. lia.
Defined.

(** ** User profiles *)

Lemma registerUser_valid ph clock (b : RegisterBody.t) users uid ref :
  RegisterBody.uid b = Some uid -> uid <> EmptyString ->
  truthy_str (RegisterBody.email b) = true ->
  truthy_str (RegisterBody.name b) = true ->
  truthy_str (RegisterBody.role b) = true ->
  ph uid = Some ref ->
  registerUser ph clock b users = (<[ref := userDoc clock b]> users, Registered).
Proof.
  intros Hu Hne He Hn Hr Hp. unfold registerUser. rewrite Hu, He, Hn, Hr.
  destruct uid; [congruence|]. cbn [truthy_str negb orb]. rewrite Hp. reflexivity.
Qed.

(** X15. A registration can be read back, and it replaces what was there.
    When the body has a non-empty [uid], [email], [name] and [role] and the
    uid names a document, [POST /register] succeeds whether or not a
    profile is stored there; [GET /user/:uid] then returns the submitted
    fields with the time of the registration, an earlier profile (its role
    included) being replaced, and the answers for the uids that name other
    documents are as before. *)
Theorem registerUser_then_getUser (docPath : string -> option string)
    (clock : Z) (b : RegisterBody.t)
    (users : gmap string UserDoc.t) (uid userRef : string) :
  RegisterBody.uid b = Some uid -> uid <> EmptyString ->
  truthy_str (RegisterBody.email b) = true ->
  truthy_str (RegisterBody.name b) = true ->
  truthy_str (RegisterBody.role b) = true ->
  docPath uid = Some userRef ->
  let registered := registerUser docPath clock b users in
  snd registered = Registered
  /\ getUser docPath uid (fst registered)
     = UserFound (UserDoc.mk (Some uid) (RegisterBody.email b) (RegisterBody.name b)
                    (RegisterBody.role b) clock)
  /\ forall uid', docPath uid' <> Some userRef ->
       getUser docPath uid' (fst registered) = getUser docPath uid' users.
Proof.
  intros Hu Hne He Hn Hr Hp registered. subst registered.
  rewrite (registerUser_valid docPath clock b users uid userRef Hu Hne He Hn Hr Hp).
  cbn [fst snd]. unfold getUser. split; [reflexivity|]. split.
  - rewrite Hp, lookup_insert_eq. unfold userDoc. rewrite Hu. reflexivity.
  - intros uid' Hne'. destruct (docPath uid') as [ref'|]; [|reflexivity].
    rewrite lookup_insert_ne by congruence. reflexivity.
Qed.

(** A student registers again as a teacher. *)
Lemma registerUser_then_getUser_witness :
  let student := RegisterBody.mk (Some "U1"%string) (Some "u1@example.org"%string)
                   (Some "Asha"%string) (Some "student"%string) in
  let teacher := RegisterBody.mk (Some "U1"%string) (Some "u1@example.org"%string)
                   (Some "Asha"%string) (Some "teacher"%string) in
  getUser guideDocPath "U1"
    (fst (registerUser guideDocPath 2000 teacher
            (fst (registerUser guideDocPath 1000 student ∅))))
  = UserFound (UserDoc.mk (Some "U1"%string) (Some "u1@example.org"%string)
                 (Some "Asha"%string) (Some "teacher"%string) 2000).
Proof.
  intros student teacher.
  refine (proj1 (proj2 (registerUser_then_getUser guideDocPath 2000 teacher
                          (fst (registerUser guideDocPath 1000 student ∅)) "U1" "U1"
                          _ _ _ _ _ _))).
  - reflexivity.
  - discriminate.
  - reflexivity.
  - reflexivity.
  - reflexivity.
  - reflexivity.
Defined.

(** X16. [POST /register] answers 'Missing required fields' exactly when
    [uid], [email], [name] or [role] is missing or empty, and it then writes
    nothing.  Any other body is registered under the document that its uid
    names; when the uid names none, the answer is 500 and nothing is
    written. *)
Theorem registerUser_rejects_iff (docPath : string -> option string)
    (clock : Z) (b : RegisterBody.t) (users : gmap string UserDoc.t) :
  let missing := truthy_str (RegisterBody.uid b) = false
                 \/ truthy_str (RegisterBody.email b) = false
                 \/ truthy_str (RegisterBody.name b) = false
                 \/ truthy_str (RegisterBody.role b) = false in
  (snd (registerUser docPath clock b users) = RegisterMissingFields <-> missing)
  /\ (missing -> fst (registerUser docPath clock b users) = users)
  /\ (~ missing ->
      exists uid, RegisterBody.uid b = Some uid
        /\ registerUser docPath clock b users
           = match docPath uid with
             | Some userRef =>
                 (<[userRef := UserDoc.mk (Some uid) (RegisterBody.email b)
                                 (RegisterBody.name b) (RegisterBody.role b) clock]> users,
                  Registered)
             | None => (users, RegisterServerError)
             end).
Proof.
  intros missing. subst missing. unfold registerUser.
  destruct (RegisterBody.uid b) as [[|c uid]|] eqn:Hu; cbn [truthy_str negb orb];
    try (split; [split; auto|split; [reflexivity|intros H; destruct H; auto]]).
  destruct (truthy_str (RegisterBody.email b)); cbn [negb orb];
    try (split; [split; auto|split; [reflexivity|intros H; destruct H; auto]]).
  destruct (truthy_str (RegisterBody.name b)); cbn [negb orb];
    try (split; [split; auto|split; [reflexivity|intros H; destruct H; auto]]).
  destruct (truthy_str (RegisterBody.role b)); cbn [negb orb fst snd];
    try (split; [split; auto|split; [reflexivity|intros H; destruct H; auto]]).
  split; [|split].
  - split; [|intros [H|[H|[H|H]]]; discriminate].
    destruct (docPath _); discriminate.
  - intros [H|[H|[H|H]]]; discriminate.
  - intros _. eexists. split; [reflexivity|].
    unfold userDoc. rewrite Hu. reflexivity.
Qed.

(** ** The client's range test and the scanner *)

(** X17. The client's [isWithinRange] and the server's check agree when
    they are given the stored radius and that radius is missing or a number
    other than 0 and [NaN]: both use 50 for a missing radius.  They part
    for a stored radius of 0: the server checks against 50, the client
    against 0, so a distance between 0 and 50 is in range for the server
    and out of range for the client. *)
Theorem isWithinRange_and_server
    (calculateDistance : number -> number -> number -> number -> number)
    (studentLat studentLon classLat classLon : number) (sloc : Location) :
  let server := valid (verifyLocation calculateDistance studentLat studentLon
                         classLat classLon (allowedRadius sloc)) in
  let client := isWithinRange calculateDistance studentLat studentLon
                  classLat classLon (radiusMeters sloc) in
  (radiusMeters sloc = None
   \/ (exists m, radiusMeters sloc = Some m /\ truthy m = true) ->
   client = server)
  /\ (forall q r : Q,
        radiusMeters sloc = Some (Fin r) -> (r == 0)%Q ->
        calculateDistance studentLat studentLon classLat classLon = Fin q ->
        (0 < q)%Q -> (q <= 50)%Q ->
        server = true /\ client = false).
Proof.
  intros server client. subst server client.
  unfold isWithinRange, verifyLocation, allowedRadius, or_default. cbn [valid].
  split.
  - intros [->|(m & -> & ->)]; reflexivity.
  - intros q r -> Hr -> Hpos Hle.
    replace (truthy (Fin r)) with false.
    2:{ symmetry. apply not_true_iff_false. rewrite truthy_Fin. auto. }
    split.
    + apply number_leb_Fin. exact Hle.
    + apply not_true_is_false. rewrite number_leb_Fin, Hr. apply Qlt_not_le. exact Hpos.
Qed.

Lemma isWithinRange_and_server_witness :
  isWithinRange guideDistance (Fin 18.62) (Fin 74.0) (Fin 18.516726) (Fin 73.856255) None
  = valid (verifyLocation guideDistance (Fin 18.62) (Fin 74.0) (Fin 18.516726) (Fin 73.856255)
             (allowedRadius farAway)).
Proof.
  refine (proj1 (isWithinRange_and_server guideDistance (Fin 18.62) (Fin 74.0)
                   (Fin 18.516726) (Fin 73.856255) farAway) _).
  left. reflexivity.
Defined.

(** X18. What the scanner posts is never refused for its form.  The body
    built by [onScanSuccess] from a non-empty QR text and the uid of the
    signed-in user has the three required fields, so it is never answered
    'Missing required fields'.  It is not answered with a 500 either when
    the QR text names a document, the user has an email and the session
    stored there, if there is one, has a [courseName] and numbers for its
    two coordinates. *)
Theorem scan_request_is_accepted
    (calculateDistance : number -> number -> number -> number -> number)
    (Date_parse : string -> option Z) (docPath : string -> option string)
    (db : Db) (decodedText uid : string) (email : option string)
    (lat lon : number) (now markedAt : Z) :
  decodedText <> EmptyString -> uid <> EmptyString ->
  let a := mkAttempt (scanBody decodedText uid email lat lon) now markedAt in
  let response := snd (mark calculateDistance Date_parse docPath db a) in
  response <> MissingFields
  /\ (is_Some (docPath decodedText) ->
      is_Some email ->
      (forall session, stored docPath db decodedText session ->
         exists sloc slat slon courseName,
           SessionDoc.location session = Some sloc
           /\ latitude sloc = Some slat /\ longitude sloc = Some slon
           /\ SessionDoc.courseName session = Some courseName) ->
      response <> ServerError).
Proof.
  intros Htext Huid a response. subst response.
  assert (Hwf : wellFormed a decodedText uid (mkLocation (Some lat) (Some lon) None)).
  { unfold wellFormed. auto. }
  split; [intros H; apply mark_MissingFields_iff in H; destruct H as [H|[H|H]];
          [destruct decodedText; [congruence|discriminate]
          |destruct uid; [congruence|discriminate]|discriminate]|].
  intros [ref Hp] [e He] H.
  rewrite (mark_wellFormed _ _ _ _ _ _ _ _ _ Hwf Hp). unfold mark_session.
  destruct (sessions db !! ref) as [session|] eqn:Hs; [|discriminate].
  destruct (H session) as (sloc & slat & slon & cn & Hl & Hslat & Hslon & Hcn);
    [exists ref; auto|].
  destruct (Date_gt _ _); [discriminate|]. rewrite Hl.
  destruct (negb _).
  - cbn [latitude longitude]. rewrite Hslat, Hslon. discriminate.
  - cbn [mark_resume]. unfold mark_existing.
    destruct (existingAttendance _ _ _); [|discriminate].
    unfold attendance_defined, attendanceData.
    cbn [AttendanceDoc.studentEmail AttendanceDoc.courseName AttendanceDoc.latitude
         AttendanceDoc.longitude latitude longitude body a scanBody MarkBody.studentEmail].
    rewrite He, Hcn. discriminate.
Qed.

(** The QR of the class, scanned from far away. *)
Lemma scan_request_is_accepted_witness :
  snd (mark guideDistance guideDate guideDocPath classDb
         (mkAttempt (scanBody "SESSION_1" "S1" (Some "s1@example.org"%string)
                       (Fin 18.62) (Fin 74.0)) 1767225700000 1767225700001))
  <> ServerError.
Proof.
  refine (proj2 (scan_request_is_accepted guideDistance guideDate guideDocPath classDb
                   "SESSION_1" "S1" (Some "s1@example.org"%string)
                   (Fin 18.62) (Fin 74.0) 1767225700000 1767225700001 _ _) _ _ _).
  - discriminate.
  - discriminate.
  - eexists. reflexivity.
  - eexists. reflexivity.
  - intros session (ref & [= <-] & [= <-]).
    exists classroom, (Fin 18.516726), (Fin 73.856255), "Maths"%string.
    repeat split; reflexivity.
Defined.

(** ** Sessions created from the dashboard *)

Lemma String_prefix_app (p s : string) : String.prefix p (p ++ s) = true.
Proof.
  induction p as [|c p IH]; [destruct s; reflexivity|].
  change (String c p +:+ s) with (String c (p +:+ s)). cbn [String.prefix].
  destruct (Ascii.ascii_dec c c); [exact IH|congruence].
Qed.

Lemma generated_ids_insert (db : Db) (autoId : string) (session : SessionDoc.t)
    (records : list AttendanceDoc.t) :
  generated_ids db ->
  String.prefix "SESSION_" autoId = false ->
  generated_ids (mkDb (<[autoId := session]> (sessions db)) records).
Proof.
  intros Hgen Hauto id. cbn [sessions].
  destruct (decide (autoId = id)) as [<-|Hne].
  - intros _. exact Hauto.
  - rewrite lookup_insert_ne by assumption. apply Hgen.
Qed.

(** X19. The QR code of the dashboard names no document.  The dashboard
    stores a new session under the id that [addDoc] generates and shows
    [SESSION_<time>] as QR code, while [POST /mark] reads the document whose
    id is the text of the QR code.  In a store whose session documents all
    have generated ids (none begins with [SESSION_]), a session created from
    the dashboard leaves such a store, and every request with the three
    required fields that presents its QR code, a plain id that names
    itself, is answered 'Invalid QR code - session not found'. *)
Theorem dashboard_session_is_not_found
    (calculateDistance : number -> number -> number -> number -> number)
    (Date_parse : string -> option Z) (docPath : string -> option string)
    (numberToString : Z -> string) (expiryTime : Z -> string -> option Z)
    (toISOString : Z -> string) (parseFloat : string -> number)
    (parseInt : string -> option Z)
    (form : SessionForm.t) (uid : string) (email : option string) (t1 t2 t3 : Z)
    (autoId : string) (db db' : Db) (qr : string) :
  generated_ids db ->
  String.prefix "SESSION_" autoId = false ->
  handleCreateSession numberToString expiryTime toISOString parseFloat parseInt
    form uid email t1 t2 t3 autoId db = (db', Some qr) ->
  docPath qr = Some qr ->
  generated_ids db'
  /\ (exists session, sessions db' !! autoId = Some session
                      /\ SessionDoc.sessionId session = Some qr)
  /\ forall (a : Attempt) (studentId : string) (location : Location),
       wellFormed a qr studentId location ->
       mark calculateDistance Date_parse docPath db' a = (db', InvalidSession).
Proof.
  intros Hgen Hauto. unfold handleCreateSession.
  destruct (expiryTime t2 (SessionForm.durationMinutes form)) as [expiry|]; [|discriminate].
  intros [= <- <-] Hp.
  match goal with
  | |- generated_ids ?d /\ _ =>
      assert (Hgen' : generated_ids d)
        by (apply generated_ids_insert; assumption)
  end.
  split; [exact Hgen'|]. split.
  - eexists. cbn [sessions]. rewrite lookup_insert_eq. split; reflexivity.
  - intros a studentId location Hwf.
    rewrite (mark_wellFormed _ _ _ _ _ _ _ _ _ Hwf Hp).
    destruct (sessions _ !! _) as [session|] eqn:Hs; [|reflexivity].
    assert (H : String.prefix "SESSION_" ("SESSION_" ++ numberToString t1) = false).
    { apply Hgen'. rewrite Hs. eexists. reflexivity. }
    rewrite String_prefix_app in H. discriminate.
Qed.

(** The class is created from the dashboard in an empty store; a student in
    the classroom scans the QR code a minute later. *)
Lemma dashboard_session_is_not_found_witness :
  mark guideDistance guideDate guideDocPath dashboardDb (scan "S1" classroom 1767225660000)
  = (dashboardDb, InvalidSession).
Proof.
  refine (proj2 (proj2 (dashboard_session_is_not_found guideDistance guideDate guideDocPath
            (fun _ => "1"%string) guideExpiry
            (fun _ => "2026-01-01T00:15:00.000Z"%string)
            (fun _ => Fin 18.516726) (fun _ => Some 50%Z)
            mathsForm "T1" (Some "t1@example.org"%string)
            1767225600000 1767225600000 1767225600000 "k3Jx9QmPz2LwVbN7aRtY"
            emptyDb dashboardDb "SESSION_1" _ _ _ _))
          (scan "S1" classroom 1767225660000) "S1" classroom _).
  - intros id [session Hs]. cbn in Hs. rewrite lookup_empty in Hs. discriminate.
  - reflexivity.
  - reflexivity.
  - reflexivity.
  - repeat split; try reflexivity; discriminate.
Defined.

(** ** When a session counts as expired *)

(** X20. The expiry test is strict and needs a date that parses.  A request
    with the three required fields for a stored session is answered
    [Expired] exactly when [expiresAt] of the session parses to an instant
    strictly before the clock of the request: at the instant of [expiresAt]
    itself the session is still open, and a session whose [expiresAt] is
    missing or does not parse never expires. *)
Theorem mark_Expired_iff
    (calculateDistance : number -> number -> number -> number -> number)
    (Date_parse : string -> option Z) (docPath : string -> option string)
    (db : Db) (a : Attempt) (sessionId studentId : string) (location : Location)
    (session : SessionDoc.t) :
  wellFormed a sessionId studentId location ->
  stored docPath db sessionId session ->
  (snd (mark calculateDistance Date_parse docPath db a) = Expired
   <-> exists e, new_Date Date_parse (SessionDoc.expiresAt session) = Some e /\ e < now a).
Proof.
  intros Hwf (ref & Hp & Hs). split.
  - intros H. destruct (mark_Expired_inv _ _ _ _ _ H)
      as (sid & session' & e & Hsid & (ref' & Hp' & Hs') & He & Hlt).
    destruct Hwf as (Hsid' & _).
    assert (sid = sessionId) as -> by congruence.
    assert (ref' = ref) as -> by congruence.
    assert (session' = session) as -> by congruence.
    exists e. auto.
  - intros (e & He & Hlt).
    rewrite (mark_wellFormed _ _ _ _ _ _ _ _ _ Hwf Hp), Hs.
    unfold mark_session. rewrite He. cbn [Date_gt].
    replace (e <? now a) with true by (symmetry; apply Z.ltb_lt; lia).
    reflexivity.
Qed.

(** One millisecond after the expiry of the class. *)
Lemma mark_Expired_iff_witness :
  snd (mark guideDistance guideDate guideDocPath classDb
         (scan "S1" classroom 1767226500001)) = Expired.
Proof.
  refine (proj2 (mark_Expired_iff guideDistance guideDate guideDocPath classDb
                   (scan "S1" classroom 1767226500001) "SESSION_1" "S1" classroom
                   mathsSession _ _) _).
  - repeat split; try reflexivity; discriminate.
  - eexists. split; reflexivity.
  - exists 1767226500000. split; [reflexivity|cbn; lia].
Defined.

(** ** One document for each success *)

Lemma mark_length cd dp ph db a :
  length (attendance (fst (mark cd dp ph db a)))
  = (length (attendance db) + if is_Marked (snd (mark cd dp ph db a)) then 1 else 0)%nat.
Proof.
  destruct (mark_has_effect cd dp ph db a) as [r Hr|rec cn d _ _ _]; cbn [fst snd].
  - destruct r as [| | |d m| |cn d|]; cbn [is_Marked]; try lia.
    destruct (Hr cn d). reflexivity.
  - cbn [attendance is_Marked]. rewrite length_app. reflexivity.
Qed.

(** X21. One attendance document for each success, none for anything else:
    after any list of scans handled one after another, the attendance
    collection has grown by the number of answers with status 200, with the
    documents it had before still at its head, and the sessions are
    untouched. *)
Theorem mark_all_one_document_per_success
    (calculateDistance : number -> number -> number -> number -> number)
    (Date_parse : string -> option Z) (docPath : string -> option string)
    (l : list Attempt) (db : Db) :
  let db' := fst (mark_all calculateDistance Date_parse docPath db l) in
  let responses := snd (mark_all calculateDistance Date_parse docPath db l) in
  length responses = length l
  /\ sessions db' = sessions db
  /\ take (length (attendance db)) (attendance db') = attendance db
  /\ length (attendance db')
     = (length (attendance db) + length (filter (fun r => is_Marked r = true) responses))%nat.
Proof.
  cbn zeta. revert db. induction l as [|a l IH]; intros db.
  - cbn. rewrite take_ge by lia. repeat split; lia.
  - cbn [mark_all].
    pose proof (mark_length calculateDistance Date_parse docPath db a) as Hlen.
    pose proof (mark_has_effect calculateDistance Date_parse docPath db a) as Heff.
    destruct (mark calculateDistance Date_parse docPath db a) as [db1 r] eqn:Hm.
    cbn [fst snd] in Hlen.
    specialize (IH db1).
    destruct (mark_all calculateDistance Date_parse docPath db1 l) as [db2 rs].
    cbn [fst snd] in IH |- *.
    destruct IH as (IH1 & IH2 & IH3 & IH4).
    assert (Hs1 : sessions db1 = sessions db /\ exists more, attendance db1 = attendance db ++ more).
    { inversion Heff; subst; cbn [sessions attendance].
      - split; [reflexivity|]. exists []. rewrite app_nil_r. reflexivity.
      - split; [reflexivity|]. eexists. reflexivity. }
    destruct Hs1 as (Hs1 & more & Hmore).
    split; [cbn; lia|]. split; [congruence|]. split.
    + assert (Hle : (length (attendance db) <= length (attendance db1))%nat) by lia.
      transitivity (take (length (attendance db))
                      (take (length (attendance db1)) (attendance db2))).
      * rewrite take_take. f_equal. lia.
      * rewrite IH3, Hmore. apply take_app_length.
    + rewrite filter_cons. destruct (decide (is_Marked r = true)) as [Hr|Hr].
      * rewrite Hr in Hlen. cbn [length]. lia.
      * destruct (is_Marked r); [congruence|]. lia.
Qed.
